(** * A shallow embedding of the datakwip MCP server

    The development follows the layout of the Python package:

    - [Py]           the dynamically typed values the server handles (JSON
                     data after parsing), with the few builtins the code uses;
    - [Tools]        [tools/base.py], [tools/echo.py], [tools/add.py] and
                     [tools/registry.py];
    - [Http]         requests and responses as Starlette presents them;
    - [RateLimiting] [middleware/rate_limiting.py] (key derivation);
    - [Validation]   [utils/validation.py] (the format of a token);
    - [PyJWT]        the checks of the JWT library the verifier calls;
    - [Cognito]      [auth/cognito.py] (token validation);
    - [Utils]        [utils/client_detection.py] and [utils/errors.py];
    - [Main]         [main.py] (the /mcp endpoints) with
                     [middleware/security.py].

    Exceptions are values of an error monad.  Of the logging only what can
    raise is represented: the log lines of the tools render the arguments
    and the name of the user, and [str] refuses an integer beyond the digit
    limit of the interpreter.  The properties follow the modules. *)

From Stdlib Require Import ZArith List String Ascii Bool QArith Lia.
From Stdlib Require Import Numbers.DecimalString.
From Stdlib Require Import Floats.PrimFloat Floats.SpecFloat Floats.FloatOps.
Import ListNotations.

Open Scope Z_scope.
Open Scope list_scope.
Open Scope string_scope.

(* ================================================================= *)
(** ** Python values, exceptions and builtins *)

Module Py.

Set Warnings "-register-all".

(** JSON-like data as Python holds it.  A [str] is a sequence of code points
    below 256; a [float] is an IEEE binary64 number; a [dict] keeps its
    items in insertion order. *)
Inductive value : Type :=
| VNone
| VBool (b : bool)
| VInt (z : Z)
| VFloat (f : float)
| VStr (s : string)
| VList (l : list value)
| VDict (d : list (string * value)).

Definition dict : Type := list (string * value).

(** The exception classes that occur, with the part of the class hierarchy
    the [except] clauses of the code depend on. *)
Inductive exn_class : Type :=
| ValueError | TypeError | AttributeError | KeyError | OverflowError
| HTTPTimeoutException | HTTPStatusError | HTTPOtherError
| InvalidTokenError | ExpiredSignatureError | DecodeError
| InvalidSignatureError | InvalidAudienceError | InvalidIssuerError
| InvalidIssuedAtError | ImmatureSignatureError | MissingRequiredClaimError
| InvalidKeyError.

Record exn : Type := Exn { exn_cls : exn_class; exn_msg : string }.

(** [isinstance(e, ValueError)] for the classes above. *)
Definition is_ValueError (c : exn_class) : bool :=
  match c with ValueError => true | _ => false end.

(** [isinstance(e, jwt.InvalidTokenError)]: the validation errors of PyJWT
    derive from [InvalidTokenError]; [InvalidKeyError] derives from
    [PyJWTError] only. *)
Definition is_InvalidTokenError (c : exn_class) : bool :=
  match c with
  | InvalidTokenError | ExpiredSignatureError | DecodeError
  | InvalidSignatureError | InvalidAudienceError | InvalidIssuerError
  | InvalidIssuedAtError | ImmatureSignatureError
  | MissingRequiredClaimError => true
  | _ => false
  end.

Definition is_ExpiredSignatureError (c : exn_class) : bool :=
  match c with ExpiredSignatureError => true | _ => false end.

(** *** The error monad *)

Definition M (A : Type) : Type := (exn + A)%type.

Definition ret {A} (a : A) : M A := inr a.
Definition raise {A} (c : exn_class) (msg : string) : M A := inl (Exn c msg).
Definition bind {A B} (m : M A) (k : A -> M B) : M B :=
  match m with
  | inl e => inl e
  | inr a => k a
  end.

(** [try m except Exception as e: h e]. *)
Definition try_except {A} (m : M A) (h : exn -> M A) : M A :=
  match m with
  | inl e => h e
  | inr a => inr a
  end.

Definition raised {A} (m : M A) : bool :=
  match m with inl _ => true | inr _ => false end.

Declare Scope py_scope.
Delimit Scope py_scope with py.
Notation "x <- m ;; k" := (bind m (fun x => k))
  (at level 61, m at next level, right associativity) : py_scope.
Notation "m ;;; k" := (bind m (fun _ => k))
  (at level 61, right associativity) : py_scope.

(** *** Strings *)

(** [sub in s] for two [str]. *)
Definition str_contains (sub s : string) : bool :=
  match String.index 0 sub s with Some _ => true | None => false end.

(** [s.startswith(p)]. *)
Definition startswith (s p : string) : bool := String.prefix p s.

Definition is_empty (s : string) : bool :=
  match s with EmptyString => true | _ => false end.

(** [s.split(sep)] for a one-character separator. *)
Fixpoint split (sep : ascii) (s : string) : list string :=
  match s with
  | EmptyString => [EmptyString]
  | String c rest =>
      if Ascii.eqb c sep then EmptyString :: split sep rest
      else match split sep rest with
           | [] => [String c EmptyString]
           | p :: ps => String c p :: ps
           end
  end.

(** [c.isspace()] on the code points below 256: tab, line feed, vertical
    tab, form feed, carriage return, the separators 0x1c-0x1f, space, next
    line (0x85) and no-break space (0xa0). *)
Definition isspace (c : ascii) : bool :=
  let n := N_of_ascii c in
  ((9 <=? n) && (n <=? 13) || (28 <=? n) && (n <=? 32)
   || (n =? 133) || (n =? 160))%N.

Fixpoint lstrip (s : string) : string :=
  match s with
  | EmptyString => EmptyString
  | String c rest => if isspace c then lstrip rest else s
  end.

Fixpoint rstrip (s : string) : string :=
  match s with
  | EmptyString => EmptyString
  | String c rest =>
      match rstrip rest with
      | EmptyString => if isspace c then EmptyString else String c EmptyString
      | r => String c r
      end
  end.

(** [s.strip()]. *)
Definition strip (s : string) : string := rstrip (lstrip s).

(** [", ".join(l)] and the like. *)
Fixpoint join (sep : string) (l : list string) : string :=
  match l with
  | [] => ""
  | [x] => x
  | x :: rest => x ++ sep ++ join sep rest
  end.

(** [str(z)] for an [int]. *)
Definition int_str (z : Z) : string := NilZero.string_of_int (Z.to_int z).

(** The two renderings that are left to the interpreter: [repr] of a float
    (shortest round-trip digits) and [repr] of a string (quoting and
    escapes). *)
Class PyText : Type := {
  float_repr : float -> string;
  str_repr : string -> string
}.

Section Text.
Context `{PyText}.

(** [repr(v)]. *)
Fixpoint py_repr (v : value) : string :=
  match v with
  | VNone => "None"
  | VBool true => "True"
  | VBool false => "False"
  | VInt z => int_str z
  | VFloat f => float_repr f
  | VStr s => str_repr s
  | VList l => "[" ++ join ", " (map py_repr l) ++ "]"
  | VDict d =>
      "{" ++ join ", " (map (fun kv => str_repr (fst kv) ++ ": " ++ py_repr (snd kv)) d)
          ++ "}"
  end.

(** [str(v)], which is also what an f-string field [{v}] renders. *)
Definition py_str (v : value) : string :=
  match v with
  | VStr s => s
  | _ => py_repr v
  end.

End Text.

(** *** The digit limit of [str]

    Since CPython 3.11 (and the security releases of 3.8 to 3.10), [str],
    [repr] and a field of an f-string raise a [ValueError] for an [int] of
    more than [sys.get_int_max_str_digits()] decimal digits; the limit is
    4300 unless the interpreter is configured otherwise.  [py_repr] and
    [py_str] give the text where there is one. *)
Definition int_max_str_digits : Z := 4300.

Definition exceeds_max_str_digits (z : Z) : bool :=
  Z.leb (10 ^ int_max_str_digits) (Z.abs z).

Arguments exceeds_max_str_digits : simpl never.

Definition max_str_digits_message : string :=
  "Exceeds the limit (4300 digits) for integer string conversion; use sys.set_int_max_str_digits() to increase the limit".

(** Whether [str(v)] raises: a list and a dictionary render each of their
    items; a [bool] is written as a word. *)
Fixpoint str_raises (v : value) : bool :=
  match v with
  | VInt z => exceeds_max_str_digits z
  | VList l => existsb str_raises l
  | VDict d => existsb (fun kv => str_raises (snd kv)) d
  | _ => false
  end.

(** [str(v)] for its effect: what writing [v] into a message does. *)
Definition render (v : value) : M unit :=
  if str_raises v then raise ValueError max_str_digits_message else ret tt.

(** *** Truth, types and equality *)

(** [bool(v)]; a NaN is true. *)
Definition truthy (v : value) : bool :=
  match v with
  | VNone => false
  | VBool b => b
  | VInt z => negb (Z.eqb z 0)
  | VFloat f => negb (PrimFloat.eqb f 0%float)
  | VStr s => negb (is_empty s)
  | VList l => match l with [] => false | _ => true end
  | VDict d => match d with [] => false | _ => true end
  end.

(** [type(v).__name__]. *)
Definition type_name (v : value) : string :=
  match v with
  | VNone => "NoneType"
  | VBool _ => "bool"
  | VInt _ => "int"
  | VFloat _ => "float"
  | VStr _ => "str"
  | VList _ => "list"
  | VDict _ => "dict"
  end.

(** [isinstance(v, str)]. *)
Definition isinstance_str (v : value) : bool :=
  match v with VStr _ => true | _ => false end.

(** [isinstance(v, bool)]. *)
Definition isinstance_bool (v : value) : bool :=
  match v with VBool _ => true | _ => false end.

(** [isinstance(v, int)]: [bool] is a subclass of [int]. *)
Definition isinstance_int (v : value) : bool :=
  match v with VInt _ | VBool _ => true | _ => false end.

(** [isinstance(v, (int, float))]. *)
Definition isinstance_int_float (v : value) : bool :=
  match v with VInt _ | VBool _ | VFloat _ => true | _ => false end.

(** [v == "s"] for a string literal. *)
Definition eq_str (v : value) (s : string) : bool :=
  match v with VStr t => String.eqb t s | _ => false end.

(** *** Dictionaries *)

(** [d.get(k)]; [None] stands for the missing key. *)
Fixpoint dict_get (k : string) (d : dict) : option value :=
  match d with
  | [] => None
  | (k', v) :: rest => if String.eqb k' k then Some v else dict_get k rest
  end.

(** [d.get(k, default)]. *)
Definition dict_get_default (k : string) (default : value) (d : dict) : value :=
  match dict_get k d with Some v => v | None => default end.

(** [k in d]. *)
Definition dict_contains (k : string) (d : dict) : bool :=
  match dict_get k d with Some _ => true | None => false end.

(** [d[k] = v]: an existing key keeps its position. *)
Fixpoint dict_set (k : string) (v : value) (d : dict) : dict :=
  match d with
  | [] => [(k, v)]
  | (k', v') :: rest =>
      if String.eqb k' k then (k, v) :: rest else (k', v') :: dict_set k v rest
  end.

(** *** Numbers *)

(** [a > b] on exact rationals. *)
Definition Qgtb (a b : Q) : bool := negb (Qle_bool a b).

(** A float that is infinite or not a number. *)
Definition non_finite (f : float) : bool :=
  match Prim2SF f with
  | S754_infinity _ | S754_nan => true
  | _ => false
  end.

(** [float(z)], correctly rounded. *)
Definition float_of_Z (z : Z) : float :=
  SF2Prim (binary_normalize prec emax z 0 false).

(** The integer a [bool] or [int] stands for. *)
Definition int_of (v : value) : option Z :=
  match v with
  | VInt z => Some z
  | VBool b => Some (if b then 1 else 0)
  | _ => None
  end.

(** [abs(v) > 1e10] for a number; Python compares an [int] with a float by
    value. *)
Definition abs_gt_1e10 (v : value) : bool :=
  match v with
  | VFloat f => PrimFloat.ltb 1e10%float (PrimFloat.abs f)
  | _ => match int_of v with
         | Some z => Z.ltb 10000000000 (Z.abs z)
         | None => false
         end
  end.

(** [float(z)] raises [OverflowError] from 2^1024 on. *)
Definition to_float (z : Z) : M float :=
  if Z.ltb (Z.abs z) (2 ^ 1024) then ret (float_of_Z z)
  else raise OverflowError "int too large to convert to float".

(** [a + b] for two numbers. *)
Definition py_add (a b : value) : M value :=
  match a, b with
  | VFloat x, VFloat y => ret (VFloat (PrimFloat.add x y))
  | VFloat x, _ =>
      match int_of b with
      | Some z => bind (to_float z) (fun y => ret (VFloat (PrimFloat.add x y)))
      | None => raise TypeError "unsupported operand type(s) for +"
      end
  | _, VFloat y =>
      match int_of a with
      | Some z => bind (to_float z) (fun x => ret (VFloat (PrimFloat.add x y)))
      | None => raise TypeError "unsupported operand type(s) for +"
      end
  | _, _ =>
      match int_of a, int_of b with
      | Some x, Some y => ret (VInt (x + y))
      | _, _ => raise TypeError "unsupported operand type(s) for +"
      end
  end.

End Py.

(* ================================================================= *)
(** ** tools/: the tool contract, the two tools and the registry *)

Module Tools.
Import Py.
Local Open Scope py_scope.

(** [ToolSchema]: the input schema of a tool, [properties] mapping a field
    name to its own schema dictionary. *)
Record ToolSchema : Type := {
  type_ : string;
  properties : list (string * dict);
  required : list string
}.

(** [ToolResult]. *)
Record ToolResult : Type := {
  content : list dict;
  isError : bool
}.

(** [ToolDefinition]. *)
Record ToolDefinition : Type := {
  def_name : string;
  def_description : string;
  inputSchema : ToolSchema
}.

(** [BaseTool]: the abstract members every tool implements.  [execute] gets
    the validated arguments and the authenticated user. *)
Record BaseTool : Type := {
  name : string;
  description : string;
  input_schema : ToolSchema;
  execute : dict -> option dict -> M ToolResult
}.

(** The one-element content list both tools and [safe_execute] build. *)
Definition text_result (text : string) (is_error : bool) : ToolResult :=
  {| content := [[("type", VStr "text"); ("text", VStr text)]];
     isError := is_error |}.

(** [BaseTool.get_definition]. *)
Definition get_definition (tool : BaseTool) : ToolDefinition :=
  {| def_name := name tool;
     def_description := description tool;
     inputSchema := input_schema tool |}.

(** [user_info.get("username", "unknown") if user_info else "anonymous"]:
    the user as the log lines of the tools name it. *)
Definition log_user_id (user_info : option dict) : value :=
  match user_info with
  | Some info =>
      if truthy (VDict info) then dict_get_default "username" (VStr "unknown") info
      else VStr "anonymous"
  | None => VStr "anonymous"
  end.

(** [properties[field_name]], [None] when [field_name not in properties]. *)
Fixpoint properties_get (field_name : string) (props : list (string * dict))
  : option dict :=
  match props with
  | [] => None
  | (k, field_schema) :: rest =>
      if String.eqb k field_name then Some field_schema
      else properties_get field_name rest
  end.

Section Base.
Context `{PyText}.

(** [field in arguments]: defined on a dict (keys), a list (elements) and a
    string (substrings); any other object is not iterable. *)
Definition py_in (field : string) (arguments : value) : M bool :=
  match arguments with
  | VDict d => ret (dict_contains field d)
  | VList l => ret (existsb (fun v => eq_str v field) l)
  | VStr s => ret (str_contains field s)
  | _ => raise TypeError
           ("argument of type '" ++ type_name arguments ++ "' is not iterable")
  end.

(** [[field for field in required_fields if field not in arguments]]. *)
Fixpoint missing_fields (required_fields : list string) (arguments : value)
  : M (list string) :=
  match required_fields with
  | [] => ret []
  | field :: rest =>
      present <- py_in field arguments ;;
      others <- missing_fields rest arguments ;;
      ret (if present then others else field :: others)
  end.

(** [arguments.items()]. *)
Definition items (arguments : value) : M dict :=
  match arguments with
  | VDict d => ret d
  | _ => raise AttributeError
           ("'" ++ type_name arguments ++ "' object has no attribute 'items'")
  end.

(** The [if]/[elif] chain of the basic type validation. *)
Definition check_type (field_name : string) (expected_type field_value : value)
  : M unit :=
  if eq_str expected_type "string" && negb (isinstance_str field_value) then
    raise ValueError ("Field '" ++ field_name ++ "' must be a string")
  else if eq_str expected_type "number"
          && negb (isinstance_int_float field_value) then
    raise ValueError ("Field '" ++ field_name ++ "' must be a number")
  else if eq_str expected_type "integer" && negb (isinstance_int field_value) then
    raise ValueError ("Field '" ++ field_name ++ "' must be an integer")
  else if eq_str expected_type "boolean" && negb (isinstance_bool field_value) then
    raise ValueError ("Field '" ++ field_name ++ "' must be a boolean")
  else ret tt.

(** The loop over [arguments.items()], [validated_args] being the dictionary
    built so far. *)
Fixpoint validate_fields (props : list (string * dict)) (todo : dict)
  (validated_args : dict) : M dict :=
  match todo with
  | [] => ret validated_args
  | (field_name, field_value) :: rest =>
      match properties_get field_name props with
      | Some field_schema =>
          let expected_type := dict_get_default "type" VNone field_schema in
          check_type field_name expected_type field_value ;;;
          validate_fields props rest (dict_set field_name field_value validated_args)
      | None =>
          (* additional fields are allowed, with a warning in the log *)
          validate_fields props rest (dict_set field_name field_value validated_args)
      end
  end.

(** [BaseTool.validate_arguments]. *)
Definition validate_arguments (schema : ToolSchema) (arguments : value) : M dict :=
  missing <- missing_fields (required schema) arguments ;;
  match missing with
  | _ :: _ =>
      raise ValueError
        ("Missing required fields: " ++ py_repr (VList (map VStr missing)))
  | [] =>
      todo <- items arguments ;;
      validate_fields (properties schema) todo []
  end.

(** The log line at the head of [safe_execute], inside its [try]: the
    f-string renders the name of the user and [str(arguments)]. *)
Definition log_execution (arguments : value) (user_info : option dict) : M unit :=
  render (log_user_id user_info) ;;;
  render arguments.

(** [BaseTool.safe_execute]: the two [except] clauses turn every exception
    into a result flagged as an error. *)
Definition safe_execute (tool : BaseTool) (arguments : value)
  (user_info : option dict) : ToolResult :=
  match (log_execution arguments user_info ;;;
         validated_args <- validate_arguments (input_schema tool) arguments ;;
         execute tool validated_args user_info) with
  | inr result => result
  | inl e =>
      if is_ValueError (exn_cls e) then
        text_result ("Validation error: " ++ exn_msg e) true
      else
        text_result ("Tool execution failed: " ++ exn_msg e) true
  end.

(** *** tools/echo.py *)

(** [len(v)]. *)
Definition py_len (v : value) : M Z :=
  match v with
  | VStr s => ret (Z.of_nat (String.length s))
  | VList l => ret (Z.of_nat (List.length l))
  | VDict d => ret (Z.of_nat (List.length d))
  | _ => raise TypeError ("object of type '" ++ type_name v ++ "' has no len()")
  end.

Definition EchoTool_execute (arguments : dict) (user_info : option dict)
  : M ToolResult :=
  let message := dict_get_default "message" (VStr "") arguments in
  (* the log line renders the message and the name of the user *)
  render message ;;;
  render (log_user_id user_info) ;;;
  n <- py_len message ;;
  if Z.ltb 1000 n then
    ret (text_result "Error: Message too long (maximum 1000 characters)" true)
  else
    ret (text_result ("Echo: " ++ py_str message) false).

Definition EchoTool : BaseTool :=
  {| name := "echo";
     description := "Echo back the provided message";
     input_schema :=
       {| type_ := "object";
          properties :=
            [("message",
              [("type", VStr "string");
               ("description", VStr "The message to echo back");
               ("maxLength", VInt 1000)])];
          required := ["message"] |};
     execute := EchoTool_execute |}.

(** *** tools/add.py *)

Definition AddTool_execute (arguments : dict) (user_info : option dict)
  : M ToolResult :=
  let a := dict_get_default "a" (VInt 0) arguments in
  let b := dict_get_default "b" (VInt 0) arguments in
  if negb (isinstance_int_float a) || negb (isinstance_int_float b) then
    ret (text_result "Error: Both 'a' and 'b' must be numbers" true)
  else if abs_gt_1e10 a || abs_gt_1e10 b then
    ret (text_result
           "Error: Numbers too large (maximum absolute value: 10,000,000,000)"
           true)
  else
    try_except
      (result <- py_add a b ;;
       (* the log line renders the three numbers and the name of the user *)
       render a ;;;
       render b ;;;
       render result ;;;
       render (log_user_id user_info) ;;;
       ret (text_result
              (py_str a ++ " + " ++ py_str b ++ " = " ++ py_str result) false))
      (fun e =>
         ret (text_result ("Error performing addition: " ++ exn_msg e) true)).

Definition AddTool : BaseTool :=
  {| name := "add";
     description := "Add two numbers together";
     input_schema :=
       {| type_ := "object";
          properties :=
            [("a",
              [("type", VStr "number");
               ("description", VStr "First number to add");
               ("minimum", VFloat (-1e10)%float);
               ("maximum", VFloat 1e10%float)]);
             ("b",
              [("type", VStr "number");
               ("description", VStr "Second number to add");
               ("minimum", VFloat (-1e10)%float);
               ("maximum", VFloat 1e10%float)])];
          required := ["a"; "b"] |};
     execute := AddTool_execute |}.

(** *** tools/registry.py *)

(** [ToolRegistry._tools]: tool name to tool, in registration order. *)
Definition ToolRegistry : Type := list (string * BaseTool).

(** [self._tools[tool_name] = tool]. *)
Fixpoint register_tool (tool : BaseTool) (tools : ToolRegistry) : ToolRegistry :=
  match tools with
  | [] => [(name tool, tool)]
  | (k, t) :: rest =>
      if String.eqb k (name tool) then (k, tool) :: rest
      else (k, t) :: register_tool tool rest
  end.

(** [ToolRegistry()]: the constructor registers the default tools. *)
Definition default_registry : ToolRegistry :=
  fold_left (fun tools tool => register_tool tool tools) [EchoTool; AddTool] [].

Fixpoint tools_get (tool_name : string) (tools : ToolRegistry) : option BaseTool :=
  match tools with
  | [] => None
  | (k, t) :: rest =>
      if String.eqb k tool_name then Some t else tools_get tool_name rest
  end.

(** [ToolRegistry.get_tool]: [self._tools.get(tool_name)].  The keys are
    strings; a list or a dict cannot be hashed. *)
Definition get_tool (tools : ToolRegistry) (tool_name : value)
  : M (option BaseTool) :=
  match tool_name with
  | VStr s => ret (tools_get s tools)
  | VList _ | VDict _ =>
      raise TypeError ("unhashable type: '" ++ type_name tool_name ++ "'")
  | _ => ret None
  end.

(** [ToolRegistry.list_tools]. *)
Definition list_tools (tools : ToolRegistry) : list ToolDefinition :=
  map (fun kt => get_definition (snd kt)) tools.

(** [ToolRegistry.execute_tool]. *)
Definition execute_tool (tools : ToolRegistry) (tool_name arguments : value)
  (user_info : option dict) : M ToolResult :=
  tool <- get_tool tools tool_name ;;
  match tool with
  | None => raise ValueError ("Tool not found: " ++ py_str tool_name)
  | Some t => ret (safe_execute t arguments user_info)
  end.

End Base.
End Tools.

(* ================================================================= *)
(** ** HTTP requests and responses *)

Module Http.
Import Py.

(** [str.lower()] on one code point below 256: the ASCII capitals and the
    Latin-1 capitals 0xc0-0xde (0xd7, the multiplication sign, apart). *)
Definition lower_char (c : ascii) : ascii :=
  let n := N_of_ascii c in
  if ((65 <=? n) && (n <=? 90)
      || (192 <=? n) && (n <=? 222) && negb (n =? 215))%N
  then ascii_of_N (n + 32) else c.

Fixpoint lower (s : string) : string :=
  match s with
  | EmptyString => EmptyString
  | String c rest => String (lower_char c) (lower rest)
  end.

(** Header lists hold lower-case names, as the ASGI server delivers them and
    as Starlette stores them. *)
Definition headers : Type := list (string * string).

(** [headers.get(name)]: the first value under that name. *)
Fixpoint headers_get (name : string) (h : headers) : option string :=
  match h with
  | [] => None
  | (k, v) :: rest => if String.eqb k name then Some v else headers_get name rest
  end.

(** [name in headers]. *)
Definition headers_mem (name : string) (h : headers) : bool :=
  match headers_get name h with Some _ => true | None => false end.

(** [del headers[name]]. *)
Definition headers_del (name : string) (h : headers) : headers :=
  filter (fun kv => negb (String.eqb (fst kv) (lower name))) h.

(** [headers[name] = v]: the first entry under that name is replaced and any
    further one dropped; a new name is appended. *)
Fixpoint headers_set_lower (name v : string) (h : headers) : headers :=
  match h with
  | [] => [(name, v)]
  | (k, v') :: rest =>
      if String.eqb k name then (name, v) :: headers_del name rest
      else (k, v') :: headers_set_lower name v rest
  end.

Definition headers_set (name v : string) (h : headers) : headers :=
  headers_set_lower (lower name) v h.

(** The part of a Starlette [Request] the code reads.  [client] is the host
    of the transport-layer peer, when the server knows it. *)
Record Request : Type := {
  method : string;
  path : string;
  req_headers : headers;
  client : option string
}.

(** A [Response]: status, the headers the application sets (the
    content-length and content-type the framework derives from the body are
    left out) and the JSON body, if there is one. *)
Record Response : Type := {
  status_code : Z;
  resp_headers : headers;
  body : option value
}.

(** [Response(content=..., status_code=..., headers=...)]. *)
Definition make_response (content : option value) (status : Z)
  (hs : list (string * string)) : Response :=
  {| status_code := status;
     resp_headers := map (fun kv => (lower (fst kv), snd kv)) hs;
     body := content |}.

End Http.

(* ================================================================= *)
(** ** middleware/rate_limiting.py: the key of a client *)

Module RateLimiting.
Import Py Http.

(** slowapi's [get_remote_address]: the peer host, or the loopback address
    when the connection has none. *)
Definition get_remote_address (request : Request) : string :=
  match client request with
  | Some host => if is_empty host then "127.0.0.1" else host
  | None => "127.0.0.1"
  end.

(** [h if h else None] for an optional header value: Python's [if h:]
    holds when the header is set and its value is not empty. *)
Definition if_truthy (h : option string) : option string :=
  match h with
  | Some v => if is_empty v then None else Some v
  | None => None
  end.

(** [get_real_client_ip]. *)
Definition get_real_client_ip (request : Request) : string :=
  match if_truthy (headers_get "x-forwarded-for" (req_headers request)) with
  | Some forwarded_for => strip (hd "" (split "," forwarded_for))
  | None =>
      match if_truthy (headers_get "x-real-ip" (req_headers request)) with
      | Some real_ip => real_ip
      | None => get_remote_address request
      end
  end.

End RateLimiting.

(* ================================================================= *)
(** ** utils/validation.py: the shape of a token *)

Module Validation.
Import Py.

(** The character class [[A-Za-z0-9_-]]. *)
Definition is_base64url (c : ascii) : bool :=
  let n := N_of_ascii c in
  ((65 <=? n) && (n <=? 90) || (97 <=? n) && (n <=? 122)
   || (48 <=? n) && (n <=? 57) || (n =? 95) || (n =? 45))%N.

(** The rest of a match of [[A-Za-z0-9_-]+$]: more characters of the class,
    then the end of the string, which [$] also finds before one final line
    feed. *)
Fixpoint class_then_end (s : string) : bool :=
  match s with
  | EmptyString => true
  | String c rest =>
      if is_base64url c then class_then_end rest
      else Ascii.eqb c "010"%char && is_empty rest
  end.

(** [base64url_pattern.match(part)] for [^[A-Za-z0-9_-]+$]. *)
Definition base64url_pattern_match (part : string) : bool :=
  match part with
  | EmptyString => false
  | String c rest => is_base64url c && class_then_end rest
  end.

(** [validate_jwt_token_format]. *)
Definition validate_jwt_token_format (token : string) : bool :=
  let parts := split "." token in
  if negb (Nat.eqb (List.length parts) 3) then false
  else if negb (forallb base64url_pattern_match parts) then false
  else if Z.ltb 10000 (Z.of_nat (String.length token)) then false
  else true.

End Validation.

(* ================================================================= *)
(** ** The JWT library, as far as the verifier relies on it *)

Module PyJWT.
Import Py.
Local Open Scope py_scope.

(** The claims of a Cognito token: the registered claims with the types the
    identity provider gives them (times are NumericDate values in seconds)
    and the Cognito claims the verifier reads.  [None] is a claim the token
    does not carry. *)
Record Claims : Type := {
  iss : option string;
  aud : option string;
  exp : option Z;
  nbf : option Z;
  iat : option Z;
  token_use : option string;
  scope : option string;
  sub : option string;
  username : option string;
  email : option string
}.

(** What the library does with the bytes of a token and with keys: reading
    the key id of the header, decoding the payload segment, building a key
    from a JWK and checking an RS256 signature. *)
Class Backend : Type := {
  rsa_key : Type;
  from_jwk : dict -> M rsa_key;
  get_unverified_header_kid : string -> M (option string);
  load_payload : string -> M Claims;
  rs256_verify : string -> rsa_key -> bool
}.

(** The options of [decode] the verifier sets; the time checks are always
    on there, and so is the issuer check. *)
Record options : Type := {
  verify_aud : bool
}.

(** The message of a [MissingRequiredClaimError]. *)
Definition missing_claim_message (claim : string) : string :=
  let quote := String (ascii_of_nat 34) EmptyString in
  "Token is missing the " ++ quote ++ claim ++ quote ++ " claim".

Definition opt_is_falsy (s : option string) : bool :=
  match s with
  | None => true
  | Some v => is_empty v
  end.

(** [_validate_aud]: without an expected audience a token that names one is
    refused; with one, the claim must be there and be that audience. *)
Definition validate_aud (payload : Claims) (audience : option string) : M unit :=
  match audience with
  | None =>
      if opt_is_falsy (aud payload) then ret tt
      else raise InvalidAudienceError "Invalid audience"
  | Some expected =>
      match aud payload with
      | None => raise MissingRequiredClaimError (missing_claim_message "aud")
      | Some a =>
          if is_empty a then
            raise MissingRequiredClaimError (missing_claim_message "aud")
          else if String.eqb a expected then ret tt
          else raise InvalidAudienceError "Audience doesn't match"
      end
  end.

(** The time checks of [_validate_claims] at the clock reading [now], with
    no leeway: a token issued in the future or not yet valid is immature,
    a token whose expiry has come is expired. *)
Definition validate_times (payload : Claims) (now : Q) : M unit :=
  match iat payload with
  | Some i =>
      if Qgtb (inject_Z i) now then
        raise ImmatureSignatureError "The token is not yet valid (iat)"
      else ret tt
  | None => ret tt
  end ;;;
  match nbf payload with
  | Some n =>
      if Qgtb (inject_Z n) now then
        raise ImmatureSignatureError "The token is not yet valid (nbf)"
      else ret tt
  | None => ret tt
  end ;;;
  match exp payload with
  | Some e =>
      if Qle_bool (inject_Z e) now then
        raise ExpiredSignatureError "Signature has expired"
      else ret tt
  | None => ret tt
  end.

(** [_validate_iss] for an expected issuer. *)
Definition validate_iss (payload : Claims) (issuer : string) : M unit :=
  match iss payload with
  | None => raise MissingRequiredClaimError (missing_claim_message "iss")
  | Some i =>
      if String.eqb i issuer then ret tt
      else raise InvalidIssuerError "Invalid issuer"
  end.

Section Decode.
Context `{Backend}.

(** [jwt.decode(token, options={"verify_signature": False})]: the payload,
    with no check of the signature or of any claim. *)
Definition decode_unverified (token : string) : M Claims :=
  load_payload token.

(** [jwt.decode(token, key, algorithms=["RS256"], issuer=..., options=...,
    audience=...)]: the signature, then the times, the issuer and, if the
    option asks for it, the audience. *)
Definition decode (token : string) (key : rsa_key) (issuer : string)
  (opts : options) (audience : option string) (now : Q) : M Claims :=
  payload <- load_payload token ;;
  (if rs256_verify token key then ret tt
   else raise InvalidSignatureError "Signature verification failed") ;;;
  validate_times payload now ;;;
  validate_iss payload issuer ;;;
  (if verify_aud opts then validate_aud payload audience else ret tt) ;;;
  ret payload.

End Decode.
End PyJWT.

(* ================================================================= *)
(** ** auth/cognito.py: validation of a Cognito token *)

Module Cognito.
Import Py Validation PyJWT.
Local Open Scope py_scope.

(** The entries of the Cognito configuration the verifier reads.  The client
    id is read with [.get], so it may be missing. *)
Record cognito_config : Type := {
  user_pool_id : string;
  client_id : option string;
  region : string;
  jwks_url : string
}.

(** What surrounds one call: the answer of the JWKS endpoint and the two
    clock readings, the one the library takes while decoding and the later
    [time.time()] of the age check. *)
Record Env : Type := {
  http_get_json : string -> M value;
  now_decode : Q;
  time_time : Q
}.

(** [s.split()]: the words between runs of whitespace. *)
Fixpoint split_whitespace (s : string) : list string :=
  match s with
  | EmptyString => []
  | String c rest =>
      if isspace c then split_whitespace rest
      else match rest with
           | EmptyString => [String c ""]
           | String c' _ =>
               if isspace c' then String c "" :: split_whitespace rest
               else match split_whitespace rest with
                    | w :: ws => String c w :: ws
                    | [] => [String c ""]
                    end
           end
  end.

(** [x in l] for strings. *)
Definition str_in (x : string) (l : list string) : bool :=
  existsb (String.eqb x) l.

Section Verifier.
Context `{Backend}.

(** The first [try] block: the JWKS URL must be Cognito's, then the key set
    is fetched; every failure becomes an [InvalidTokenError]. *)
Definition fetch_jwks (env : Env) (cognito_config : cognito_config) : M value :=
  try_except
    (let jwks_url := jwks_url cognito_config in
     if negb (startswith jwks_url "https://cognito-idp.")
        || negb (str_contains ".amazonaws.com" jwks_url)
     then raise ValueError "Invalid JWKS URL"
     else http_get_json env jwks_url)
    (fun e =>
       match exn_cls e with
       | HTTPTimeoutException => raise InvalidTokenError "Token validation timeout"
       | HTTPStatusError => raise InvalidTokenError "Unable to fetch JWKS"
       | _ => raise InvalidTokenError "JWKS validation failed"
       end).

(** [jwks.get("keys", [])], iterated: a list of keys; anything else, or no
    dictionary at all, raises. *)
Definition jwks_keys (jwks : value) : M (list value) :=
  match jwks with
  | VDict d =>
      match dict_get_default "keys" (VList []) d with
      | VList l => ret l
      | VDict d' => ret (map (fun kv => VStr (fst kv)) d')
      | VStr s => ret (map (fun c => VStr (String c "")) (list_ascii_of_string s))
      | other => raise TypeError ("'" ++ type_name other ++ "' object is not iterable")
      end
  | _ => raise AttributeError
           ("'" ++ type_name jwks ++ "' object has no attribute 'get'")
  end.

(** The [for] loop: the first key whose [kid] is the token's. *)
Fixpoint find_key (keys : list value) (kid : string) : M (option rsa_key) :=
  match keys with
  | [] => ret None
  | VDict key :: rest =>
      if eq_str (dict_get_default "kid" VNone key) kid then
        rsa <- from_jwk key ;; ret (Some rsa)
      else find_key rest kid
  | other :: _ =>
      raise AttributeError
        ("'" ++ type_name other ++ "' object has no attribute 'get'")
  end.

(** The second [try] block: the key that signed the token. *)
Definition resolve_key (token : string) (jwks : value) : M rsa_key :=
  try_except
    (kid <- get_unverified_header_kid token ;;
     match kid with
     | None => raise InvalidTokenError "Token missing key ID"
     | Some kid =>
         if is_empty kid then raise InvalidTokenError "Token missing key ID"
         else
           keys <- jwks_keys jwks ;;
           rsa <- find_key keys kid ;;
           match rsa with
           | None => raise InvalidTokenError "Unable to find appropriate key"
           | Some k => ret k
           end
     end)
    (fun _ => raise InvalidTokenError "Key resolution failed").

(** The third [try] block: the claims are first read without any check to see
    whether there is an [aud] claim; the audience is verified, against the
    client id, exactly when there is one. *)
Definition decode_and_validate (env : Env) (token : string) (key : rsa_key)
  (cognito_config : cognito_config) : M Claims :=
  let issuer :=
    "https://cognito-idp." ++ region cognito_config ++ ".amazonaws.com/"
      ++ user_pool_id cognito_config in
  match (payload_check <- decode_unverified token ;;
         let has_audience :=
           match aud payload_check with Some _ => true | None => false end in
         decode token key issuer
           {| verify_aud := has_audience |}
           (if has_audience then client_id cognito_config else None)
           (now_decode env)) with
  | inr payload => ret payload
  | inl e =>
      if is_ExpiredSignatureError (exn_cls e) then inl e
      else if is_InvalidTokenError (exn_cls e) then
        raise InvalidTokenError ("Token validation failed: " ++ exn_msg e)
      else inl e
  end.

(** [required_scopes and token_use == "access"]. *)
Definition scopes_required (required_scopes : option (list string))
  (token_use : option string) : bool :=
  match required_scopes, token_use with
  | Some (_ :: _), Some u => String.eqb u "access"
  | _, _ => false
  end.

(** The additional security checks, before the enclosing [except]. *)
Definition security_checks (env : Env) (payload : Claims)
  (required_scopes : option (list string)) : M Claims :=
  (* 1. token use *)
  (match token_use payload with
   | Some u =>
       if negb (str_in u ["id"; "access"]) then
         raise InvalidTokenError "Invalid token use"
       else ret tt
   | None => raise InvalidTokenError "Invalid token use"
   end) ;;;
  (* 2. required scopes *)
  (if scopes_required required_scopes (token_use payload) then
     let token_scopes :=
       split_whitespace (match scope payload with Some s => s | None => "" end) in
     let missing_scopes :=
       filter (fun s => negb (str_in s token_scopes))
         (match required_scopes with Some l => l | None => [] end) in
     match missing_scopes with
     | _ :: _ => raise InvalidTokenError "Insufficient token scopes"
     | [] => ret tt
     end
   else ret tt) ;;;
  (* 3. subject *)
  (if opt_is_falsy (sub payload) then raise InvalidTokenError "Token missing subject"
   else ret tt) ;;;
  (* 4. token age *)
  (let iat := match iat payload with Some i => i | None => 0 end in
   let current_time := time_time env in
   let max_age := 3600 * 24 in
   if Qgtb (current_time - inject_Z iat) (inject_Z max_age) then
     raise InvalidTokenError "Token too old"
   else ret tt) ;;;
  ret payload.

(** [validate_cognito_token]. *)
Definition validate_cognito_token (env : Env) (token : string)
  (cognito_config : cognito_config) (required_scopes : option (list string))
  : M Claims :=
  if negb (validate_jwt_token_format token) then
    raise InvalidTokenError "Invalid token format"
  else
    jwks <- fetch_jwks env cognito_config ;;
    rsa_key <- resolve_key token jwks ;;
    payload <- decode_and_validate env token rsa_key cognito_config ;;
    try_except
      (security_checks env payload required_scopes)
      (fun _ => raise InvalidTokenError "Token security validation failed").

End Verifier.
End Cognito.

(* ================================================================= *)
(** ** utils/client_detection.py and utils/errors.py *)

Module Utils.
Import Py Http.

(** The characters [[\x00-\x1f\x7f-\x9f]]. *)
Definition is_control (c : ascii) : bool :=
  let n := N_of_ascii c in
  ((n <=? 31) || (127 <=? n) && (n <=? 159))%N.

(** [re.sub(r'[\x00-\x1f\x7f-\x9f]', '', s)]. *)
Fixpoint sanitize (s : string) : string :=
  match s with
  | EmptyString => EmptyString
  | String c rest => if is_control c then sanitize rest else String c (sanitize rest)
  end.

(** [request.headers.get(name, "")[:500].lower()], sanitized. *)
Definition clean_header (request : Request) (name : string) : string :=
  let raw := match headers_get name (req_headers request) with
             | Some v => v
             | None => ""
             end in
  sanitize (lower (String.substring 0 500 raw)).

(** The whitelist, in the order of the dictionary. *)
Definition client_patterns : list (string * list string) :=
  [("julius", ["julius.ai"; "api.julius.ai"; "app.julius.ai"]);
   ("claude", ["claude.ai"; "anthropic"])].

(** [detect_client_securely]. *)
Definition detect_client_securely (request : Request) : string :=
  let user_agent := clean_header request "user-agent" in
  let referer := clean_header request "referer" in
  let origin := clean_header request "origin" in
  let hit (patterns : list string) :=
    existsb (fun pattern =>
               existsb (str_contains pattern) [user_agent; referer; origin])
            patterns in
  match find (fun cp => hit (snd cp)) client_patterns with
  | Some (client, _) => client
  | None => "unknown"
  end.

(** The result of [SecureErrorHandler.get_safe_error_message]. *)
Record error_info : Type := {
  error : string;
  error_id : string;
  info_status_code : Z
}.

(** [error_mapping.get(type(exception), default)]: the lookup is by the
    exact class. *)
Definition error_mapping (c : exn_class) : string * Z :=
  match c with
  | ExpiredSignatureError => ("Token has expired", 401)
  | InvalidTokenError => ("Invalid authentication token", 401)
  | DecodeError => ("Invalid authentication token", 401)
  | ValueError => ("Invalid request data", 400)
  | KeyError => ("Missing required data", 400)
  | TypeError => ("Invalid data type", 400)
  | _ => ("An error occurred processing your request", 500)
  end.

(** [SecureErrorHandler.get_safe_error_message]; [token_hex] is the value
    [secrets.token_hex(8)] would draw. *)
Definition get_safe_error_message (token_hex : string) (exception : exn)
  (request_id : option string) : error_info :=
  let request_id :=
    match request_id with
    | Some r => if is_empty r then token_hex else r
    | None => token_hex
    end in
  let '(message, status) := error_mapping (exn_cls exception) in
  {| error := message; error_id := request_id; info_status_code := status |}.

End Utils.

(* ================================================================= *)
(** ** middleware/security.py and main.py: the /mcp endpoints *)

Module Main.
Import Py Http Tools Utils.
Local Open Scope py_scope.

(** The protocol version the server declares, in the metadata and in the
    result of [initialize]. *)
Definition PROTOCOL_VERSION : string := "2025-06-18".

(** [MCPRequest]; a request without [id] and one whose [id] is null both
    have [id = None]. *)
Record MCPRequest : Type := {
  req_jsonrpc : string;
  mcp_method : string;
  params : option dict;
  id : value
}.

(** [MCPResponse]. *)
Record MCPResponse : Type := {
  jsonrpc : string;
  result : option value;
  error : option dict;
  resp_id : value
}.

Definition or_null (v : option value) : value :=
  match v with Some x => x | None => VNone end.

(** What the serializer of pydantic writes for a value of a field declared
    [Any]: a float that is infinite or not a number becomes null, inside
    lists and dictionaries as well. *)
Fixpoint dump_json (v : value) : value :=
  match v with
  | VFloat f => if non_finite f then VNone else v
  | VList l => VList (map dump_json l)
  | VDict d => VDict (map (fun kv => (fst kv, dump_json (snd kv))) d)
  | _ => v
  end.

(** [response.model_dump_json()]: the four fields in the order of their
    declaration, a field that is [None] as a null member. *)
Definition model_dump_json (response : MCPResponse) : value :=
  VDict [("jsonrpc", VStr (jsonrpc response));
         ("result", dump_json (or_null (result response)));
         ("error", dump_json (or_null (option_map VDict (error response))));
         ("id", dump_json (resp_id response))].

(** The values the module loads from the configuration at import time that
    the /mcp endpoints use: entries of [COGNITO_CONFIG] and the client ids
    of [CLIENT_CONFIGS]. *)
Record Config : Type := {
  authorization_url : string;
  token_url : string;
  scopes : list string;
  claude_client_id : string;
  julius_client_id : string;
  default_client_id : string
}.

(** [CLIENT_CONFIGS.get(client_type, CLIENT_CONFIGS["default"])["client_id"]]. *)
Definition client_config_id (cfg : Config) (client_type : string) : string :=
  if String.eqb client_type "claude" then claude_client_id cfg
  else if String.eqb client_type "julius" then julius_client_id cfg
  else default_client_id cfg.

(** [add_security_headers], applied to the response of the endpoint. *)
Definition security_headers : list (string * string) :=
  [("X-Content-Type-Options", "nosniff");
   ("X-Frame-Options", "DENY");
   ("X-XSS-Protection", "1; mode=block");
   ("Strict-Transport-Security", "max-age=31536000; includeSubDomains");
   ("Content-Security-Policy",
    "default-src 'self'; script-src 'self'; style-src 'self' 'unsafe-inline';");
   ("Referrer-Policy", "strict-origin-when-cross-origin");
   ("Permissions-Policy", "geolocation=(), microphone=(), camera=()");
   ("Cache-Control", "no-store, no-cache, must-revalidate, private");
   ("Pragma", "no-cache");
   ("Expires", "0")].

Definition add_security_headers (response : Response) : Response :=
  let hs := fold_left (fun h kv => headers_set (fst kv) (snd kv) h)
              security_headers (resp_headers response) in
  let hs := if headers_mem "server" hs then headers_del "server" hs else hs in
  let hs := headers_set "ngrok-skip-browser-warning" "true" hs in
  {| status_code := status_code response; resp_headers := hs;
     body := body response |}.

(** The capabilities every metadata document lists. *)
Definition capabilities : value :=
  VDict [("tools", VDict [("listChanged", VBool true)]);
         ("prompts", VDict []);
         ("resources", VDict [])].

Section Endpoints.
Context `{PyText}.
Variable CFG : Config.
Variable tool_registry : ToolRegistry.

(** [GET /mcp]: the metadata, returned as a dictionary, which the framework
    sends with status 200 and no header of the application's. *)
Definition mcp_get (request : Request) : Response :=
  let client_type := detect_client_securely request in
  let metadata : dict :=
    [("mcpVersion", VStr "2025-06-18");
     ("server", VDict [("name", VStr "Secure MCP Server");
                       ("version", VStr "1.0.0")]);
     ("capabilities", capabilities)] in
  let auth_header := headers_get "authorization" (req_headers request) in
  let authenticated :=
    match auth_header with
    | Some h => negb (is_empty h) && startswith h "Bearer "
    | None => false
    end in
  let metadata :=
    if negb authenticated then
      dict_set "authentication"
        (VDict [("type", VStr "oauth2");
                ("oauth2",
                 VDict [("authorizationUrl", VStr (authorization_url CFG));
                        ("tokenUrl", VStr (token_url CFG));
                        ("clientId", VStr (client_config_id CFG client_type));
                        ("scopes", VList (map VStr (scopes CFG)))])])
        metadata
    else metadata in
  make_response (Some (VDict metadata)) 200 [].

(** [HEAD /mcp]: [Response()]. *)
Definition mcp_head (request : Request) : Response :=
  make_response None 200 [].

(** [tool.dict()] for a tool definition. *)
Definition definition_dict (d : ToolDefinition) : value :=
  VDict [("name", VStr (def_name d));
         ("description", VStr (def_description d));
         ("inputSchema",
          VDict [("type", VStr (type_ (inputSchema d)));
                 ("properties",
                  VDict (map (fun p => (fst p, VDict (snd p)))
                             (properties (inputSchema d))));
                 ("required", VList (map VStr (required (inputSchema d))))])].

(** The [Response] every branch of the handler builds. *)
Definition json_response (response : MCPResponse) (status : Z) : Response :=
  make_response (Some (model_dump_json response)) status
    [("MCP-Protocol-Version", "2025-06-18")].

(** [mcp_request.params.get(key, default)]. *)
Definition params_get (mcp_request : MCPRequest) (key : string) (default : value)
  : M value :=
  match params mcp_request with
  | Some d => ret (dict_get_default key default d)
  | None => raise AttributeError "'NoneType' object has no attribute 'get'"
  end.

(** The body of the [try] of [mcp_handler]. *)
Definition dispatch (mcp_request : MCPRequest) (user : dict) : M Response :=
  let m := mcp_method mcp_request in
  if String.eqb m "initialize" then
    ret (json_response
           {| jsonrpc := "2.0";
              result := Some (VDict
                [("protocolVersion", VStr "2025-06-18");
                 ("capabilities", capabilities);
                 ("serverInfo",
                  VDict [("name", VStr "Secure MCP Server with AWS Cognito OAuth2");
                         ("version", VStr "1.0.0")])]);
              error := None;
              resp_id := id mcp_request |} 200)
  else if String.eqb m "notifications/initialized" then
    ret (json_response
           {| jsonrpc := "2.0";
              result := Some (VDict []);
              error := None;
              resp_id := if truthy (id mcp_request) then id mcp_request
                         else VNone |} 202)
  else if String.eqb m "tools/list" then
    let tool_definitions := list_tools tool_registry in
    let tools := map definition_dict tool_definitions in
    ret (json_response
           {| jsonrpc := "2.0";
              result := Some (VDict [("tools", VList tools)]);
              error := None;
              resp_id := id mcp_request |} 200)
  else if String.eqb m "prompts/list" then
    ret (json_response
           {| jsonrpc := "2.0";
              result := Some (VDict [("prompts", VList [])]);
              error := None;
              resp_id := id mcp_request |} 200)
  else if String.eqb m "resources/list" then
    ret (json_response
           {| jsonrpc := "2.0";
              result := Some (VDict [("resources", VList [])]);
              error := None;
              resp_id := id mcp_request |} 200)
  else if String.eqb m "tools/call" then
    tool_name <- params_get mcp_request "name" VNone ;;
    arguments <- params_get mcp_request "arguments" (VDict []) ;;
    response <-
      match execute_tool tool_registry tool_name arguments (Some user) with
      | inr result =>
          ret {| jsonrpc := "2.0";
                 result := Some (VDict [("content",
                                         VList (map VDict (content result)))]);
                 error := None;
                 resp_id := id mcp_request |}
      | inl e =>
          if is_ValueError (exn_cls e) then
            ret {| jsonrpc := "2.0";
                   result := None;
                   error := Some [("code", VInt (-32602));
                                  ("message",
                                   VStr ("Unknown tool: " ++ py_str tool_name))];
                   resp_id := id mcp_request |}
          else inl e
      end ;;
    ret (json_response response 200)
  else
    ret (json_response
           {| jsonrpc := "2.0";
              result := None;
              error := Some [("code", VInt (-32601));
                             ("message", VStr ("Method not found: " ++ m))];
              resp_id := id mcp_request |} 200).

(** [POST /mcp]: [mcp_handler], for an authenticated [user].  [request_id]
    is the identifier [secrets.token_hex(8)] draws; the request itself is
    only used for the log.  The framework calls the handler with a body that
    [json.loads] has decoded and with the claims of a verified token, neither
    of which holds an integer beyond the digit limit of [str]: the log lines
    of the handler itself, which render the method, the name of the tool and
    the name and subject of the user, are not represented. *)
Definition mcp_handler (request_id : string) (request : Request)
  (mcp_request : MCPRequest) (user : dict) : Response :=
  match dispatch mcp_request user with
  | inr response => response
  | inl e =>
      let error_info := get_safe_error_message request_id e (Some request_id) in
      json_response
        {| jsonrpc := "2.0";
           result := None;
           error := Some [("code", VInt (-32603));
                          ("message", VStr (Utils.error error_info));
                          ("data", VDict [("error_id",
                                           VStr (error_id error_info))])];
           resp_id := id mcp_request |} 500
  end.

End Endpoints.
End Main.

(* ================================================================= *)
(** * Vocabulary of the properties *)

Import Py Http Tools.

Section ToolVocabulary.
Context `{PyText}.

(** The type test of [check_type], without the messages. *)
Definition type_matches (expected_type field_value : value) : bool :=
  negb (eq_str expected_type "string" && negb (isinstance_str field_value)
        || eq_str expected_type "number" && negb (isinstance_int_float field_value)
        || eq_str expected_type "integer" && negb (isinstance_int field_value)
        || eq_str expected_type "boolean" && negb (isinstance_bool field_value)).


(** What [safe_execute] makes of the outcome of [execute]. *)
Definition result_or_error (outcome : M ToolResult) : ToolResult :=
  match outcome with
  | inr result => result
  | inl e =>
      if is_ValueError (exn_cls e) then
        text_result ("Validation error: " ++ exn_msg e) true
      else text_result ("Tool execution failed: " ++ exn_msg e) true
  end.

End ToolVocabulary.

(** A rendering of floats and of quoted strings to run the tools with; no
    property depends on it. *)
Definition plain_text : PyText :=
  {| float_repr := fun _ => "<float>";
     str_repr := fun s => "'" ++ s ++ "'" |}.

(** ** The key of a client *)

Import RateLimiting.

(** The derivation as the specification words it: the first entry of
    X-Forwarded-For, trimmed, when that header is present; otherwise
    X-Real-IP when present; otherwise the address of the peer. *)
Definition client_key_when_present (request : Request) : string :=
  match headers_get "x-forwarded-for" (req_headers request) with
  | Some forwarded_for => strip (hd "" (split "," forwarded_for))
  | None =>
      match headers_get "x-real-ip" (req_headers request) with
      | Some real_ip => real_ip
      | None => get_remote_address request
      end
  end.

(** A request behind a proxy that sends an empty X-Forwarded-For. *)
Definition request_empty_forwarded_for : Request :=
  {| method := "POST"; path := "/mcp";
     req_headers := [("x-forwarded-for", ""); ("x-real-ip", "10.0.0.1")];
     client := Some "192.0.2.7" |}.

(** A request that went through two proxies. *)
Definition request_two_proxies : Request :=
  {| method := "POST"; path := "/mcp";
     req_headers := [("x-forwarded-for", " 203.0.113.9 , 10.0.0.2")];
     client := Some "192.0.2.7" |}.

(** ** The /mcp endpoints *)

Import Utils Main.

(** [name in body]: the serialized object has a member of that name. *)
Definition has_member (name : string) (body : option value) : bool :=
  match body with
  | Some (VDict members) => dict_contains name members
  | _ => false
  end.

(** The serialized object has a member of that name whose value is not
    null. *)
Definition has_value (name : string) (body : option value) : bool :=
  match body with
  | Some (VDict members) =>
      match dict_get name members with
      | Some VNone | None => false
      | Some _ => true
      end
  | _ => false
  end.

(** The value of a member of the serialized object. *)
Definition member (name : string) (body : option value) : option value :=
  match body with
  | Some (VDict members) => dict_get name members
  | _ => None
  end.

(** [response.headers.get(name)]: header names do not depend on case. *)
Definition response_header (name : string) (response : Response) : option string :=
  headers_get (lower name) (resp_headers response).

(** The value holds no float that is infinite or not a number: it is
    written to JSON as it is. *)
Fixpoint finite_json (v : value) : bool :=
  match v with
  | VFloat f => negb (non_finite f)
  | VList l => forallb finite_json l
  | VDict d => forallb (fun kv => finite_json (snd kv)) d
  | _ => true
  end.

(** A configuration to run the endpoints with. *)
Definition sample_config : Config :=
  {| authorization_url := "https://example.auth.us-east-1.amazoncognito.com/oauth2/authorize";
     token_url := "https://example.auth.us-east-1.amazoncognito.com/oauth2/token";
     scopes := ["openid"; "email"];
     claude_client_id := "client-claude";
     julius_client_id := "client-julius";
     default_client_id := "client-default" |}.

(** An HTTP request to /mcp with a bearer token. *)
Definition sample_request (http_method : string) : Request :=
  {| method := http_method; path := "/mcp";
     req_headers := [("authorization", "Bearer aaa.bbb.ccc");
                     ("user-agent", "claude.ai client")];
     client := Some "192.0.2.7" |}.

(** JSON-RPC requests: [initialize] with id 1, the notification without id,
    and a call of a tool that is not registered. *)
Definition initialize_request : MCPRequest :=
  {| req_jsonrpc := "2.0"; mcp_method := "initialize";
     params := Some []; id := VInt 1 |}.

Definition initialized_notification : MCPRequest :=
  {| req_jsonrpc := "2.0"; mcp_method := "notifications/initialized";
     params := Some []; id := VNone |}.

Definition call_unknown_tool : MCPRequest :=
  {| req_jsonrpc := "2.0"; mcp_method := "tools/call";
     params := Some [("name", VStr "multiply");
                     ("arguments", VDict [("a", VInt 2); ("b", VInt 3)])];
     id := VInt 7 |}.

(** The authenticated user of the examples. *)
Definition sample_user : dict :=
  [("sub", VStr "user-1"); ("username", VStr "alice"); ("token_use", VStr "access")].

(** ** Token validation *)

Import Validation PyJWT Cognito.

(** The configuration with another client id. *)
Definition with_client_id (cfg : cognito_config) (cid : option string)
  : cognito_config :=
  {| user_pool_id := user_pool_id cfg;
     client_id := cid;
     region := region cfg;
     jwks_url := jwks_url cfg |}.

(** The failure every additional security check ends in. *)
Definition security_validation_failed : exn :=
  Exn InvalidTokenError "Token security validation failed".

(** *** A user pool to run the verifier in *)

Definition sample_cognito_config : cognito_config :=
  {| user_pool_id := "us-east-1_EXAMPLE";
     client_id := Some "client-default";
     region := "us-east-1";
     jwks_url := "https://cognito-idp.us-east-1.amazonaws.com/us-east-1_EXAMPLE/.well-known/jwks.json" |}.

(** Claims of the pool issued at [issued_at] and expiring at [expires]. *)
Definition sample_claims (audience : option string) (use : string)
  (subject : option string) (issued_at expires : Z) : Claims :=
  {| iss := Some "https://cognito-idp.us-east-1.amazonaws.com/us-east-1_EXAMPLE";
     aud := audience;
     exp := Some expires;
     nbf := None;
     iat := Some issued_at;
     token_use := Some use;
     scope := Some "openid email";
     sub := subject;
     username := Some "alice";
     email := None |}.

(** The clock of the examples reads 2000000000.  Four tokens: an access
    token issued a minute ago (no audience); an access token issued 25 hours
    ago that expires in an hour; a fresh access token without subject; an
    id token issued a minute ago for another client. *)
Definition fresh_access_token : string := "fresh.access.sig".
Definition old_access_token : string := "old.access.sig".
Definition anonymous_access_token : string := "anonymous.access.sig".
Definition foreign_id_token : string := "foreign.id.sig".

Definition sample_payload (token : string) : M Claims :=
  if String.eqb token fresh_access_token then
    ret (sample_claims None "access" (Some "user-1") 1999999940 2000003540)
  else if String.eqb token old_access_token then
    ret (sample_claims None "access" (Some "user-1") 1999910000 2000003600)
  else if String.eqb token anonymous_access_token then
    ret (sample_claims None "access" None 1999999940 2000003540)
  else if String.eqb token foreign_id_token then
    ret (sample_claims (Some "client-other") "id" (Some "user-1")
           1999999940 2000003540)
  else raise DecodeError "Invalid payload padding".

(** A backend in which a key is its key id and every token is signed by
    the key [key-1]. *)
Definition sample_backend : Backend :=
  {| rsa_key := string;
     from_jwk := fun key =>
       match dict_get "kid" key with
       | Some (VStr k) => ret k
       | _ => raise InvalidKeyError "Not a public or private key"
       end;
     get_unverified_header_kid := fun _ => ret (Some "key-1");
     load_payload := sample_payload;
     rs256_verify := fun _ key => String.eqb key "key-1" |}.

Definition sample_env : Env :=
  {| http_get_json := fun _ =>
       ret (VDict [("keys", VList [VDict [("kid", VStr "key-0"); ("kty", VStr "RSA")];
                                   VDict [("kid", VStr "key-1"); ("kty", VStr "RSA")]])]);
     now_decode := inject_Z 2000000000;
     time_time := inject_Z 2000000000 |}.

(* ================================================================= *)
(** * The rest of the package *)

(** ** tools/registry.py: the other operations of the registry *)

Module Registry.
Import Py Tools.

(** [tool_name in self._tools]. *)
Definition tool_exists (tools : ToolRegistry) (tool_name : string) : bool :=
  match tools_get tool_name tools with Some _ => true | None => false end.

(** [del self._tools[tool_name]]. *)
Fixpoint tools_del (tool_name : string) (tools : ToolRegistry) : ToolRegistry :=
  match tools with
  | [] => []
  | (k, t) :: rest =>
      if String.eqb k tool_name then rest else (k, t) :: tools_del tool_name rest
  end.

(** [ToolRegistry.unregister_tool]: the registry afterwards and the value
    returned. *)
Definition unregister_tool (tool_name : string) (tools : ToolRegistry)
  : ToolRegistry * bool :=
  if tool_exists tools tool_name then (tools_del tool_name tools, true)
  else (tools, false).

(** [ToolRegistry.get_tool_names]. *)
Definition get_tool_names (tools : ToolRegistry) : list string :=
  map fst tools.

(** [ToolRegistry.get_registry_stats]. *)
Definition get_registry_stats (tools : ToolRegistry) : Z * list string :=
  (Z.of_nat (List.length tools), get_tool_names tools).

(** [register_custom_tool] and the constructor apply [register_tool] to one
    tool after the other. *)
Definition register_all (new_tools : list BaseTool) (tools : ToolRegistry)
  : ToolRegistry :=
  fold_left (fun acc tool => register_tool tool acc) new_tools tools.

(** What every registry satisfies that was built by registration: an entry
    is filed under the name of its tool, and no name occurs twice. *)
Definition well_formed (tools : ToolRegistry) : Prop :=
  NoDup (map fst tools) /\ Forall (fun kt => fst kt = name (snd kt)) tools.

End Registry.

(** A tool with another handler. *)
Definition with_execute (tool : BaseTool)
  (handler : dict -> option dict -> M ToolResult) : BaseTool :=
  {| name := name tool;
     description := description tool;
     input_schema := input_schema tool;
     execute := handler |}.

(** ** main.py: the metadata endpoint *)

Module Endpoints.
Import Py Http Tools Utils Main.

Section Metadata.
Variable CFG : Config.

(** [GET /.well-known/mcp]: the metadata with the authentication block. *)
Definition mcp_metadata (request : Request) : Response :=
  let client_type := detect_client_securely request in
  let metadata : dict :=
    [("mcpVersion", VStr "2025-06-18");
     ("server", VDict [("name", VStr "Secure MCP Server");
                       ("version", VStr "1.0.0")]);
     ("capabilities", capabilities);
     ("authentication",
      VDict [("type", VStr "oauth2");
             ("oauth2",
              VDict [("authorizationUrl", VStr (authorization_url CFG));
                     ("tokenUrl", VStr (token_url CFG));
                     ("clientId", VStr (client_config_id CFG client_type));
                     ("scopes", VList (map VStr (scopes CFG)))])])] in
  make_response (Some (VDict metadata)) 200 [].

End Metadata.

End Endpoints.

(** ** config/settings.py: the configuration read from the environment *)

Module Settings.
Import Py.

(** [os.getenv]: the variables of the process. *)
Definition environ : Type := string -> option string.

(** [os.getenv(var, default)]. *)
Definition getenv_default (env : environ) (var default : string) : string :=
  match env var with Some v => v | None => default end.

(** [bool(os.getenv(var))]: set, and not to the empty string. *)
Definition getenv_truthy (env : environ) (var : string) : bool :=
  match env var with Some v => negb (is_empty v) | None => false end.

(** What an f-string makes of a value that may be [None]. *)
Definition format_optional (o : option string) : string :=
  match o with Some s => s | None => "None" end.

(** The dictionary [get_cognito_config] returns. *)
Record CognitoConfig : Type := {
  user_pool_id : option string;
  client_id : option string;
  client_secret : string;
  region : string;
  domain : option string;
  scopes : list string;
  authorization_url : string;
  token_url : string;
  jwks_url : string
}.

Definition required_vars : list string :=
  ["COGNITO_USER_POOL_ID"; "COGNITO_CLIENT_ID"; "COGNITO_REGION"].

(** [[scope.strip() for scope in scopes_env.split(",") if scope.strip()]]. *)
Definition parse_scopes (scopes_env : string) : list string :=
  map strip (filter (fun scope => negb (is_empty (strip scope)))
               (split "," scopes_env)).

(** [get_cognito_config]. *)
Definition get_cognito_config (env : environ) : M CognitoConfig :=
  let missing_vars := filter (fun var => negb (getenv_truthy env var)) required_vars in
  match missing_vars with
  | _ :: _ =>
      raise ValueError
        ("Missing required environment variables: " ++ join ", " missing_vars)
  | [] =>
      let region := getenv_default env "COGNITO_REGION" "us-east-1" in
      let domain := env "COGNITO_DOMAIN" in
      let user_pool_id := env "COGNITO_USER_POOL_ID" in
      let scopes_env :=
        getenv_default env "COGNITO_OAUTH_SCOPES"
          "openid,email,profile,aws.cognito.signin.user.admin" in
      let scopes := parse_scopes scopes_env in
      let domain_name :=
        match domain with
        | Some d => if is_empty d then "your-domain" else d
        | None => "your-domain"
        end in
      let default_auth_url :=
        "https://" ++ domain_name ++ ".auth." ++ region
          ++ ".amazoncognito.com/oauth2/authorize" in
      let default_token_url :=
        "https://" ++ domain_name ++ ".auth." ++ region
          ++ ".amazoncognito.com/oauth2/token" in
      ret {| user_pool_id := user_pool_id;
             client_id := env "COGNITO_CLIENT_ID";
             client_secret := getenv_default env "COGNITO_CLIENT_SECRET" "";
             region := region;
             domain := domain;
             scopes := scopes;
             authorization_url := getenv_default env "COGNITO_AUTH_URL" default_auth_url;
             token_url := getenv_default env "COGNITO_TOKEN_URL" default_token_url;
             jwks_url :=
               "https://cognito-idp." ++ region ++ ".amazonaws.com/"
                 ++ format_optional user_pool_id ++ "/.well-known/jwks.json" |}
  end.

(** The entries the verifier reads, [cognito_config['user_pool_id']] being
    put into an f-string there. *)
Definition verifier_config (c : CognitoConfig) : Cognito.cognito_config :=
  {| Cognito.user_pool_id := format_optional (user_pool_id c);
     Cognito.client_id := client_id c;
     Cognito.region := region c;
     Cognito.jwks_url := jwks_url c |}.

(** One entry of the dictionary [get_client_configs] returns. *)
Record ClientConfig : Type := {
  redirect_uris : list string;
  config_client_id : option string
}.

(** [get_client_configs]: the entries for "claude", "julius" and
    "default". *)
Definition get_client_configs (env : environ) : M (list (string * ClientConfig)) :=
  bind (get_cognito_config env) (fun cognito_config =>
  let or_default (var : string) : option string :=
    match env var with
    | Some v => Some v
    | None => client_id cognito_config
    end in
  ret [("claude",
        {| redirect_uris := ["https://claude.ai/api/mcp/auth_callback"];
           config_client_id := or_default "CLAUDE_CLIENT_ID" |});
       ("julius",
        {| redirect_uris := ["https://julius.ai/api/mcp/auth_callback";
                             "https://api.julius.ai/mcp/auth_callback";
                             "https://app.julius.ai/api/mcp/auth_callback"];
           config_client_id := or_default "JULIUS_CLIENT_ID" |});
       ("default",
        {| redirect_uris := ["https://claude.ai/api/mcp/auth_callback";
                             "https://julius.ai/api/mcp/auth_callback";
                             "https://api.julius.ai/mcp/auth_callback";
                             "https://app.julius.ai/api/mcp/auth_callback"];
           config_client_id := client_id cognito_config |})]).

(** The dictionary [get_cors_config] returns. *)
Record CorsConfig : Type := {
  allow_origins : list string;
  allow_credentials : bool;
  allow_methods : list string;
  allow_headers : list string;
  max_age : Z
}.

(** The test of the loop over the configured origins, on a stripped
    origin. *)
Definition origin_is_valid (env : environ) (origin : string) : bool :=
  negb (is_empty origin)
  && (startswith origin "https://"
      || String.eqb origin "http://localhost"
         && match env "ENVIRONMENT" with
            | Some e => String.eqb e "development"
            | None => false
            end).

(** [get_cors_config]. *)
Definition get_cors_config (env : environ) : CorsConfig :=
  let allowed_origins := split "," (getenv_default env "CORS_ALLOWED_ORIGINS" "") in
  let valid_origins :=
    filter (origin_is_valid env) (map strip allowed_origins) in
  let valid_origins :=
    match valid_origins with
    | [] => ["https://claude.ai"; "https://julius.ai"; "https://api.julius.ai";
             "https://app.julius.ai"]
    | _ => valid_origins
    end in
  let valid_origins :=
    if String.eqb (getenv_default env "ENVIRONMENT" "development") "development"
    then (valid_origins ++ ["http://localhost:6274"; "http://localhost:3000";
                            "http://localhost:8000"; "http://localhost:8080"])%list
    else valid_origins in
  {| allow_origins := valid_origins;
     allow_credentials := true;
     allow_methods := ["GET"; "POST"; "OPTIONS"];
     allow_headers := ["Authorization"; "Content-Type"; "MCP-Protocol-Version"];
     max_age := 600 |}.

End Settings.

(** ** utils/client_detection.py: the client types *)

Module ClientTypes.
Import Py.

(** [validate_client_type]. *)
Definition validate_client_type (client_type : string) : bool :=
  existsb (String.eqb client_type) ["julius"; "claude"; "unknown"; "default"].

End ClientTypes.

(** ** utils/errors.py and auth/cognito.py: the authenticated user *)

Module Auth.
Import Py Http PyJWT Cognito Utils.

(** A FastAPI [HTTPException]. *)
Record HTTPException : Type := {
  exc_status_code : Z;
  detail : value;
  exc_headers : list (string * string)
}.

(** [SecureErrorHandler.create_http_exception]. *)
Definition create_http_exception (token_hex : string) (exception : exn)
  (request_id : option string) : HTTPException :=
  let error_info := get_safe_error_message token_hex exception request_id in
  {| exc_status_code := info_status_code error_info;
     detail := VDict [("error", VStr (Utils.error error_info));
                      ("error_id", VStr (error_id error_info))];
     exc_headers := [] |}.

(** The [WWW-Authenticate] challenge of a request without credentials. *)
Definition challenge (base_url : string) : string :=
  let quote := String (ascii_of_nat 34) EmptyString in
  "Bearer resource_metadata=" ++ quote ++ base_url
    ++ "/.well-known/oauth-protected-resource" ++ quote.

Section CurrentUser.
Context `{Backend}.

(** [get_current_user]: [credentials] is the bearer token of the request, if
    it has one; [base_url] the base URL of the request, if there is a
    request; [token_hex] the error id that would be drawn. *)
Definition get_current_user (env : Env) (cognito_config : cognito_config)
  (token_hex : string) (credentials : option string) (base_url : option string)
  : HTTPException + Claims :=
  match credentials with
  | None =>
      let base_url := match base_url with
                      | Some u => u
                      | None => "https://localhost:8000"
                      end in
      inl {| exc_status_code := 401;
             detail := VStr "Authorization header required";
             exc_headers := [("WWW-Authenticate", challenge base_url)] |}
  | Some token =>
      match validate_cognito_token env token cognito_config None with
      | inr user_info => inr user_info
      | inl e =>
          if is_ExpiredSignatureError (exn_cls e) then
            inl (create_http_exception token_hex
                   (Exn ExpiredSignatureError "Token has expired") None)
          else inl (create_http_exception token_hex e None)
      end
  end.

End CurrentUser.
End Auth.

(** ** auth/oauth.py: dynamic client registration *)

Module OAuth.
Import Py Http Utils Settings Auth.
Local Open Scope py_scope.

(** What reading the body of the registration request gives: no body, a
    body that is not JSON ([json.JSONDecodeError]), a body that cannot be
    decoded at all, or the parsed JSON. *)
Inductive request_body : Type :=
| NoBody
| InvalidJson
| Undecodable
| Json (v : value).

(** The loop over the requested redirect URIs: the first URI that names
    julius or claude decides. *)
Fixpoint refine_client_type (uris : list value) (client_type : string)
  : M string :=
  match uris with
  | [] => ret client_type
  | VStr uri :: rest =>
      let uri_lower := lower uri in
      if str_contains "julius" uri_lower then ret "julius"
      else if str_contains "claude" uri_lower then ret "claude"
      else refine_client_type rest client_type
  | other :: _ =>
      raise AttributeError
        ("'" ++ type_name other ++ "' object has no attribute 'lower'")
  end.

(** What [for uri in requested_redirect_uris] goes through. *)
Definition iterate (v : value) : M (list value) :=
  match v with
  | VList l => ret l
  | VStr s => ret (map (fun c => VStr (String c "")) (list_ascii_of_string s))
  | VDict d => ret (map (fun kv => VStr (fst kv)) d)
  | other => raise TypeError ("'" ++ type_name other ++ "' object is not iterable")
  end.

(** The client type after the body has been looked at. *)
Definition client_type_of (request : Request) (body : request_body) : M string :=
  let client_type := detect_client_securely request in
  match body with
  | NoBody => ret client_type
  | InvalidJson => ret client_type
  | Undecodable => raise ValueError "body cannot be decoded"
  | Json (VDict request_data) =>
      let requested_redirect_uris :=
        dict_get_default "redirect_uris" (VList []) request_data in
      if truthy requested_redirect_uris then
        uris <- iterate requested_redirect_uris ;;
        refine_client_type uris client_type
      else ret client_type
  | Json other =>
      raise AttributeError
        ("'" ++ type_name other ++ "' object has no attribute 'get'")
  end.

Definition optional_str (o : option string) : value :=
  match o with Some s => VStr s | None => VNone end.

(** [client_configs[k]] when the key is there. *)
Definition configs_get (k : string) (configs : list (string * ClientConfig))
  : option ClientConfig :=
  option_map snd (find (fun kc => String.eqb (fst kc) k) configs).

(** [client_configs.get(client_type, client_configs["default"])]: the
    default is looked up first. *)
Definition client_config_for (client_type : string)
  (configs : list (string * ClientConfig)) : M ClientConfig :=
  match configs_get "default" configs with
  | None => raise KeyError "'default'"
  | Some default =>
      ret (match configs_get client_type configs with
           | Some c => c
           | None => default
           end)
  end.

(** [dynamic_client_registration]. *)
Definition dynamic_client_registration (env : environ) (request : Request)
  (body : request_body) : HTTPException + dict :=
  match (client_type <- client_type_of request body ;;
         client_configs <- get_client_configs env ;;
         client_config <- client_config_for client_type client_configs ;;
         cognito_config <- get_cognito_config env ;;
         ret [("client_id", optional_str (config_client_id client_config));
              ("client_secret", VStr (client_secret cognito_config));
              ("client_id_issued_at", VInt 1640995200);
              ("redirect_uris", VList (map VStr (redirect_uris client_config)));
              ("grant_types", VList [VStr "authorization_code"]);
              ("response_types", VList [VStr "code"]);
              ("token_endpoint_auth_method",
               VStr (if is_empty (client_secret cognito_config) then "none"
                     else "client_secret_basic"));
              ("scope", VStr (join " " (scopes cognito_config)))]) with
  | inr client_info => inr client_info
  | inl _ =>
      inl {| exc_status_code := 400;
             detail := VStr "Invalid client registration request";
             exc_headers := [] |}
  end.

End OAuth.

(** ** main.py: the contexts

    As for the handler of POST /mcp, [user] is the claims of a verified
    token and [context_data] a decoded JSON body; the log lines of the two
    endpoints, which render a number and the name of the user, are not
    represented. *)

Module Contexts.
Import Py.

(** [f == z] for a float and an integer: Python compares the exact
    values. *)
Definition float_eq_int (f : float) (z : Z) : bool :=
  match Prim2SF f with
  | S754_zero _ => Z.eqb z 0
  | S754_finite s m e =>
      let mz := if s then Z.neg m else Z.pos m in
      if Z.leb 0 e then Z.eqb z (mz * 2 ^ e) else Z.eqb (z * 2 ^ (- e)) mz
  | _ => false
  end.

(** [a == b] for two values that are not the same object: numbers compare
    by value across [bool], [int] and [float]; lists element by element;
    dictionaries by their items, in any order. *)
Fixpoint py_eq (a b : value) {struct a} : bool :=
  match a, b with
  | VNone, VNone => true
  | VStr s, VStr t => String.eqb s t
  | VList l, VList m =>
      (fix go (l : list value) (m : list value) : bool :=
         match l, m with
         | [], [] => true
         | x :: l', y :: m' => py_eq x y && go l' m'
         | _, _ => false
         end) l m
  | VDict d, VDict e =>
      Nat.eqb (List.length d) (List.length e)
      && forallb (fun kv => match dict_get (fst kv) e with
                            | Some w => py_eq (snd kv) w
                            | None => false
                            end) d
  | VFloat f, VFloat g => PrimFloat.eqb f g
  | VFloat f, _ =>
      match int_of b with Some z => float_eq_int f z | None => false end
  | _, VFloat g =>
      match int_of a with Some z => float_eq_int g z | None => false end
  | _, _ =>
      match int_of a, int_of b with
      | Some x, Some y => Z.eqb x y
      | _, _ => false
      end
  end.

(** [contexts_db]: context id to context, in the order of creation. *)
Definition contexts_db : Type := list (string * dict).

(** [contexts_db[context_id] = new_context]. *)
Fixpoint db_set (context_id : string) (ctx : dict) (db : contexts_db)
  : contexts_db :=
  match db with
  | [] => [(context_id, ctx)]
  | (k, c) :: rest =>
      if String.eqb k context_id then (k, ctx) :: rest
      else (k, c) :: db_set context_id ctx rest
  end.

(** [user.get("sub", "unknown")]. *)
Definition user_id_of (user : dict) : value :=
  dict_get_default "sub" (VStr "unknown") user.

(** [{..., **context_data}]: the items of [context_data] are written over
    the three entries set before them. *)
Definition unpack_over (base context_data : dict) : dict :=
  fold_left (fun d kv => dict_set (fst kv) (snd kv) d) context_data base.

(** [GET /v1/contexts]: the contexts listed to the user. *)
Definition get_contexts (user : dict) (db : contexts_db) : list dict :=
  let user_id := user_id_of user in
  filter (fun ctx => py_eq (dict_get_default "user_id" VNone ctx) user_id)
    (map snd db).

(** [POST /v1/contexts]: the store afterwards and the context returned;
    [uuid] is the identifier [uuid.uuid4()] draws. *)
Definition create_context (uuid : string) (context_data user : dict)
  (db : contexts_db) : contexts_db * dict :=
  let user_id := user_id_of user in
  let context_id := uuid in
  let new_context :=
    unpack_over [("id", VStr context_id);
                 ("user_id", user_id);
                 ("created_at", VStr "2025-01-15T00:00:00Z")] context_data in
  (db_set context_id new_context db, new_context).

End Contexts.

(** A value that cannot be the key of a dictionary. *)
Definition unhashable (v : value) : bool :=
  match v with VList _ | VDict _ => true | _ => false end.

(** The six methods the handler serves. *)
Definition served_methods : list string :=
  ["initialize"; "notifications/initialized"; "tools/list"; "prompts/list";
   "resources/list"; "tools/call"].

(** The JSON-RPC error object of a response body. *)
Definition error_object (code : Z) (message : string) : value :=
  VDict [("code", VInt code); ("message", VStr message)].

(** The error object of the internal-error path. *)
Definition internal_error_object (message request_id : string) : value :=
  VDict [("code", VInt (-32603));
         ("message", VStr message);
         ("data", VDict [("error_id", VStr request_id)])].

(** The issuer the verifier expects for a configuration. *)
Definition expected_issuer (cfg : Cognito.cognito_config) : string :=
  "https://cognito-idp." ++ Cognito.region cfg ++ ".amazonaws.com/"
    ++ Cognito.user_pool_id cfg.


(** ** Strings, character by character *)

(** Every character of the string satisfies the test. *)
Fixpoint string_forall (p : ascii -> bool) (s : string) : bool :=
  match s with
  | EmptyString => true
  | String c rest => p c && string_forall p rest
  end.

(** The character occurs in the string. *)
Fixpoint char_in (c : ascii) (s : string) : Prop :=
  match s with
  | EmptyString => False
  | String c' rest => c' = c \/ char_in c rest
  end.

Definition first_char (s : string) : option ascii :=
  match s with
  | EmptyString => None
  | String c _ => Some c
  end.

Fixpoint last_char (s : string) : option ascii :=
  match s with
  | EmptyString => None
  | String c EmptyString => Some c
  | String _ rest => last_char rest
  end.

(** The line feed and the separators of the two formats. *)
Definition line_feed : ascii := "010"%char.
Definition not_char (sep c : ascii) : bool := negb (Ascii.eqb c sep).

(** The request with every header value in lower case. *)
Definition with_lower_header_values (request : Request) : Request :=
  {| method := method request;
     path := path request;
     req_headers := map (fun kv => (fst kv, lower (snd kv))) (req_headers request);
     client := client request |}.

(** The two details a failed token verification can show. *)
Definition token_error_detail (message error_id : string) : value :=
  VDict [("error", VStr message); ("error_id", VStr error_id)].

(** ** Further requests, tokens and settings to run the code with *)

(** A call of the echo tool, a call without parameters, and a request for
    a method the handler does not serve. *)
Definition call_echo_tool : MCPRequest :=
  {| req_jsonrpc := "2.0"; mcp_method := "tools/call";
     params := Some [("name", VStr "echo");
                     ("arguments", VDict [("message", VStr "hello")])];
     id := VInt 8 |}.

Definition call_without_params : MCPRequest :=
  {| req_jsonrpc := "2.0"; mcp_method := "tools/call";
     params := None; id := VInt 9 |}.

Definition unserved_request : MCPRequest :=
  {| req_jsonrpc := "2.0"; mcp_method := "resources/read";
     params := Some []; id := VStr "r-1" |}.

(** The pool of the examples with a key-set URL outside Cognito. *)
Definition untrusted_cognito_config : cognito_config :=
  {| user_pool_id := "us-east-1_EXAMPLE";
     client_id := Some "client-default";
     region := "us-east-1";
     jwks_url := "https://keys.example.org/us-east-1_EXAMPLE/jwks.json" |}.

(** The endpoint after the key [key-1] was withdrawn. *)
Definition env_without_signing_key : Env :=
  {| http_get_json := fun _ =>
       ret (VDict [("keys", VList [VDict [("kid", VStr "key-0"); ("kty", VStr "RSA")]])]);
     now_decode := inject_Z 2000000000;
     time_time := inject_Z 2000000000 |}.

(** The clock three hours later, when the tokens of the examples have
    expired. *)
Definition env_after_expiry : Env :=
  {| http_get_json := http_get_json sample_env;
     now_decode := inject_Z 2000010800;
     time_time := inject_Z 2000010800 |}.

(** Claims of the pool without [iat], and a backend in which every token
    carries them. *)
Definition claims_without_iat : Claims :=
  {| iss := Some "https://cognito-idp.us-east-1.amazonaws.com/us-east-1_EXAMPLE";
     aud := None;
     exp := Some 2000003540;
     nbf := None;
     iat := None;
     token_use := Some "access";
     scope := Some "openid email";
     sub := Some "user-1";
     username := Some "alice";
     email := None |}.

Definition backend_without_iat : Backend :=
  {| rsa_key := string;
     from_jwk := fun key =>
       match dict_get "kid" key with
       | Some (VStr k) => ret k
       | _ => raise InvalidKeyError "Not a public or private key"
       end;
     get_unverified_header_kid := fun _ => ret (Some "key-1");
     load_payload := fun _ => ret claims_without_iat;
     rs256_verify := fun _ key => String.eqb key "key-1" |}.

(** The variables of a deployment outside development. *)
Definition sample_environ : Settings.environ := fun var =>
  if String.eqb var "COGNITO_USER_POOL_ID" then Some "us-east-1_EXAMPLE"
  else if String.eqb var "COGNITO_CLIENT_ID" then Some "client-default"
  else if String.eqb var "COGNITO_REGION" then Some "us-east-1"
  else if String.eqb var "JULIUS_CLIENT_ID" then Some "client-julius"
  else if String.eqb var "ENVIRONMENT" then Some "production"
  else if String.eqb var "CORS_ALLOWED_ORIGINS"
  then Some "https://app.example.org, http://localhost, *"
  else None.

(** A registration request of a claude client (by its headers) that names
    a redirect URI of julius. *)
Definition registration_body : dict :=
  [("client_name", VStr "demo");
   ("redirect_uris", VList [VStr "https://app.Julius.ai/api/mcp/auth_callback";
                            VInt 7])].

(** The body of a request that creates a context for another user. *)
Definition context_for_another_user : dict :=
  [("title", VStr "notes"); ("user_id", VStr "user-2")].

Definition another_user : dict :=
  [("sub", VStr "user-2"); ("username", VStr "bob"); ("token_use", VStr "access")].

(* ================================================================= *)
(** * Properties *)

(** ** The tools *)

Section ToolProperties.
Context `{PyText}.



End ToolProperties.

Section ToolValidation.
Context `{PyText}.






Lemma filter_nil_forallb {A} (p : A -> bool) (l : list A) :
  filter (fun x => negb (p x)) l = [] <-> forallb p l = true.
Proof.
  induction l as [|x l IH]; simpl; [tauto|].
  destruct (p x); simpl; [exact IH|]. split; discriminate.
Qed.


End ToolValidation.

Section ToolLogging.
Context `{PyText}.

Lemma render_rendered (v : value) :
  str_raises v = false -> render v = ret tt.
Proof. unfold render. now intros ->. Qed.

Lemma log_execution_raised (arguments : value) (user_info : option dict) :
  raised (log_execution arguments user_info)
  = str_raises (log_user_id user_info) || str_raises arguments.
Proof.
  unfold log_execution, render.
  destruct (str_raises (log_user_id user_info)); [reflexivity|].
  now destruct (str_raises arguments).
Qed.

(** When the log line raises, its [ValueError] is what [safe_execute]
    reports: neither the validation nor the handler is reached. *)
Lemma safe_execute_log_raises (tool : BaseTool) (arguments : value)
  (user_info : option dict) :
  raised (log_execution arguments user_info) = true ->
  safe_execute tool arguments user_info
  = text_result ("Validation error: " ++ max_str_digits_message) true.
Proof.
  unfold safe_execute, log_execution, render.
  destruct (str_raises (log_user_id user_info)); [reflexivity|].
  destruct (str_raises arguments); [reflexivity|discriminate].
Qed.

(** After the log line, [safe_execute] validates and runs the handler. *)
Lemma safe_execute_logged (tool : BaseTool) (arguments : value)
  (user_info : option dict) :
  raised (log_execution arguments user_info) = false ->
  safe_execute tool arguments user_info
  = result_or_error
      (bind (validate_arguments (input_schema tool) arguments)
         (fun validated_args => execute tool validated_args user_info)).
Proof.
  unfold safe_execute, log_execution, render.
  destruct (str_raises (log_user_id user_info)); [discriminate|].
  destruct (str_raises arguments); [discriminate|]. reflexivity.
Qed.

(** The two tools use the user for their log lines only. *)
Lemma AddTool_execute_user (arguments : dict) (user_info : option dict) :
  str_raises (log_user_id user_info) = false ->
  AddTool_execute arguments user_info = AddTool_execute arguments None.
Proof.
  intros Hu. unfold AddTool_execute.
  destruct (negb _ || negb _); [reflexivity|].
  destruct (abs_gt_1e10 _ || abs_gt_1e10 _); [reflexivity|].
  destruct (py_add _ _) as [e|result]; [reflexivity|]. cbn [bind].
  destruct (render (dict_get_default "a" (VInt 0) arguments)) as [e|[]];
    [reflexivity|]. cbn [bind].
  destruct (render (dict_get_default "b" (VInt 0) arguments)) as [e|[]];
    [reflexivity|]. cbn [bind].
  destruct (render result) as [e|[]]; [reflexivity|]. cbn [bind].
  now rewrite (render_rendered _ Hu).
Qed.


End ToolLogging.

Section ToolClaims.
Context `{PyText}.

(** C8.  The add tool run through [safe_execute]: with a=2 and b=3 the
    result is not an error and its text is "2 + 3 = 5"; with a="x" and b=1
    the result is flagged as an error.  [safe_execute] returns a result in
    both cases: no exception reaches the caller.  This is so without a user
    and with every user; the one exception, of which the claim does not
    speak, is a user whose name the log line cannot write (it holds an
    integer of more than 4300 digits): then the answer to a=2 and b=3 is the
    error of that. *)
Theorem add_tool_safe_execute (user_info : option dict) :
  safe_execute AddTool (VDict [("a", VInt 2); ("b", VInt 3)]) None
  = text_result "2 + 3 = 5" false
  /\ safe_execute AddTool (VDict [("a", VInt 2); ("b", VInt 3)]) user_info
     = (if str_raises (log_user_id user_info)
        then text_result ("Validation error: " ++ max_str_digits_message) true
        else text_result "2 + 3 = 5" false)
  /\ isError (safe_execute AddTool (VDict [("a", VStr "x"); ("b", VInt 1)])
                user_info) = true.
Proof.
  split; [reflexivity|].
  destruct (str_raises (log_user_id user_info)) eqn:Hu; split.
  - apply safe_execute_log_raises. now rewrite log_execution_raised, Hu.
  - rewrite safe_execute_log_raises; [reflexivity|].
    now rewrite log_execution_raised, Hu.
  - rewrite safe_execute_logged by (now rewrite log_execution_raised, Hu).
    assert (Hv : validate_arguments (input_schema AddTool)
                   (VDict [("a", VInt 2); ("b", VInt 3)])
                 = inr [("a", VInt 2); ("b", VInt 3)]) by reflexivity.
    rewrite Hv. cbn [bind]. change (execute AddTool) with AddTool_execute.
    rewrite (AddTool_execute_user _ _ Hu). reflexivity.
  - rewrite safe_execute_logged by (now rewrite log_execution_raised, Hu).
    reflexivity.
Qed.

(** C9.  A boolean passes the "number" test of the schema validation and
    the numeric guard of the add tool: with a=true and b=3 validation hands
    the arguments on unchanged and the tool answers "True + 3 = 4", not an
    error; this without a user and with every user whose name the log line
    can write (otherwise the answer is the error of that). *)
Theorem add_tool_accepts_bool (user_info : option dict) :
  let arguments := [("a", VBool true); ("b", VInt 3)] in
  (forall b, type_matches (VStr "number") (VBool b) = true
             /\ isinstance_int_float (VBool b) = true)
  /\ validate_arguments (input_schema AddTool) (VDict arguments) = inr arguments
  /\ safe_execute AddTool (VDict arguments) None
     = text_result "True + 3 = 4" false
  /\ safe_execute AddTool (VDict arguments) user_info
     = (if str_raises (log_user_id user_info)
        then text_result ("Validation error: " ++ max_str_digits_message) true
        else text_result "True + 3 = 4" false).
Proof.
  cbv zeta. split; [split; reflexivity|]. split; [reflexivity|].
  split; [reflexivity|].
  destruct (str_raises (log_user_id user_info)) eqn:Hu.
  - apply safe_execute_log_raises. now rewrite log_execution_raised, Hu.
  - rewrite safe_execute_logged by (now rewrite log_execution_raised, Hu).
    assert (Hv : validate_arguments (input_schema AddTool)
                   (VDict [("a", VBool true); ("b", VInt 3)])
                 = inr [("a", VBool true); ("b", VInt 3)]) by reflexivity.
    rewrite Hv. cbn [bind]. change (execute AddTool) with AddTool_execute.
    rewrite (AddTool_execute_user _ _ Hu). reflexivity.
Qed.


End ToolClaims.

Section ToolWitnesses.
#[local] Existing Instance plain_text.



End ToolWitnesses.

(** ** The key of a client *)

(** C7, as stated, fails: an X-Forwarded-For header that is present with an
    empty value is not used; the key is then taken from X-Real-IP, not the
    (empty) first entry of X-Forwarded-For. *)
Lemma client_key_empty_forwarded_for :
  headers_get "x-forwarded-for" (req_headers request_empty_forwarded_for) = Some ""
  /\ get_real_client_ip request_empty_forwarded_for = "10.0.0.1"
  /\ client_key_when_present request_empty_forwarded_for = ""
  /\ get_real_client_ip request_empty_forwarded_for
     <> client_key_when_present request_empty_forwarded_for.
Proof. repeat split; try reflexivity. discriminate. Qed.

(** C7, amended: a header counts when it is present with a value that is not
    empty.  The key is the trimmed first comma-separated entry of such an
    X-Forwarded-For; without one, the value of such an X-Real-IP; without
    either, the remote address.  Where every one of the two headers that is
    present has a value, this is the derivation of the specification. *)
Theorem client_key_derivation (request : Request) :
  (forall forwarded_for,
      headers_get "x-forwarded-for" (req_headers request) = Some forwarded_for ->
      forwarded_for <> "" ->
      get_real_client_ip request = strip (hd "" (split "," forwarded_for)))
  /\ (forall real_ip,
         if_truthy (headers_get "x-forwarded-for" (req_headers request)) = None ->
         headers_get "x-real-ip" (req_headers request) = Some real_ip ->
         real_ip <> "" ->
         get_real_client_ip request = real_ip)
  /\ (if_truthy (headers_get "x-forwarded-for" (req_headers request)) = None ->
      if_truthy (headers_get "x-real-ip" (req_headers request)) = None ->
      get_real_client_ip request = get_remote_address request)
  /\ (headers_get "x-forwarded-for" (req_headers request) <> Some "" ->
      headers_get "x-real-ip" (req_headers request) <> Some "" ->
      get_real_client_ip request = client_key_when_present request).
Proof.
  unfold get_real_client_ip, client_key_when_present, if_truthy.
  repeat split.
  - intros ff -> Hne. destruct ff; [contradiction|reflexivity].
  - intros ip Hff -> Hne. rewrite Hff. destruct ip; [contradiction|reflexivity].
  - intros -> ->. reflexivity.
  - intros Hff Hip.
    destruct (headers_get "x-forwarded-for" (req_headers request)) as [[|c ff]|];
      [contradiction| reflexivity |].
    destruct (headers_get "x-real-ip" (req_headers request)) as [[|c ip]|];
      [contradiction| reflexivity | reflexivity].
Qed.

(** The first entry of " 203.0.113.9 , 10.0.0.2" is the key. *)
Lemma client_key_derivation_witness :
  get_real_client_ip request_two_proxies = "203.0.113.9".
Proof.
  destruct (client_key_derivation request_two_proxies) as [Hff _].
  rewrite (Hff " 203.0.113.9 , 10.0.0.2"); [reflexivity | reflexivity | discriminate].
Defined.

(** ** The /mcp endpoints *)

(** Closes a goal that asks for the [MCPResponse] behind a response that is
    already in sight. *)
Ltac shape_done :=
  simpl; do 2 eexists; (split; [reflexivity|]); simpl; eauto.

Section EndpointProperties.
Context `{PyText}.
Variable tool_registry : ToolRegistry.

(** Whatever the request, the handler answers with the serialization of one
    [MCPResponse] in which exactly one of [result] and [error] is set, a
    result being a JSON object; the response has the protocol-version
    header and nothing else of the application's. *)
Lemma mcp_handler_shape (request_id : string) (request : Request)
  (mcp_request : MCPRequest) (user : dict) :
  exists response status,
    mcp_handler tool_registry request_id request mcp_request user
    = json_response response status
    /\ ((exists members, result response = Some (VDict members))
        /\ error response = None
        \/ result response = None /\ exists e, error response = Some e).
Proof.
  unfold mcp_handler, dispatch.
  destruct (String.eqb (mcp_method mcp_request) "initialize"); [shape_done|].
  destruct (String.eqb (mcp_method mcp_request) "notifications/initialized");
    [shape_done|].
  destruct (String.eqb (mcp_method mcp_request) "tools/list"); [shape_done|].
  destruct (String.eqb (mcp_method mcp_request) "prompts/list"); [shape_done|].
  destruct (String.eqb (mcp_method mcp_request) "resources/list"); [shape_done|].
  destruct (String.eqb (mcp_method mcp_request) "tools/call"); [|shape_done].
  unfold params_get. destruct (params mcp_request) as [p|]; [|shape_done].
  simpl. destruct (execute_tool tool_registry _ _ _) as [e|r]; [|shape_done].
  destruct (is_ValueError (exn_cls e)); shape_done.
Qed.


(** A look-up that fails makes [execute_tool] raise [ValueError]. *)
Lemma execute_tool_unknown (tool_name : string) (arguments : value)
  (user_info : option dict) :
  tools_get tool_name tool_registry = None ->
  execute_tool tool_registry (VStr tool_name) arguments user_info
  = raise ValueError ("Tool not found: " ++ tool_name).
Proof. intros Hreg. unfold execute_tool, get_tool. simpl. now rewrite Hreg. Qed.

(** The [tools/call] branch for a tool that is not registered: the inner
    [except ValueError] builds the error -32602. *)
Lemma dispatch_unknown_tool (mcp_request : MCPRequest) (user p : dict)
  (tool_name : string) :
  mcp_method mcp_request = "tools/call" ->
  params mcp_request = Some p ->
  dict_get "name" p = Some (VStr tool_name) ->
  tools_get tool_name tool_registry = None ->
  dispatch tool_registry mcp_request user
  = ret (json_response
           {| jsonrpc := "2.0";
              result := None;
              error := Some [("code", VInt (-32602));
                             ("message", VStr ("Unknown tool: " ++ tool_name))];
              resp_id := id mcp_request |} 200).
Proof.
  intros Hm Hp Hname Hreg.
  unfold dispatch, params_get, dict_get_default. rewrite Hm, Hp, Hname.
  cbn [String.eqb Ascii.eqb Bool.eqb bind ret].
  rewrite execute_tool_unknown by assumption.
  reflexivity.
Qed.

(** C3, amended: in the body of every response of the handler both members
    [result] and [error] are serialized, and exactly one of the two has a
    value that is not null. *)
Theorem envelope_one_of_result_error (request_id : string) (request : Request)
  (mcp_request : MCPRequest) (user : dict) :
  let body := body (mcp_handler tool_registry request_id request mcp_request user) in
  has_member "result" body = true
  /\ has_member "error" body = true
  /\ xorb (has_value "result" body) (has_value "error" body) = true.
Proof.
  destruct (mcp_handler_shape request_id request mcp_request user)
    as (response & status & -> & Hone).
  destruct response as [v r e i]. simpl in Hone.
  destruct Hone as [[[members ->] ->] | [-> [e' ->]]]; repeat split.
Qed.

(** C4, amended.  A [notifications/initialized] request without id is
    answered with status 202, and the body carries no id value: it has an
    [id] member, as every body of the handler has, and that member is
    null. *)
Theorem initialized_notification_accepted (request_id : string)
  (request : Request) (mcp_request : MCPRequest) (user : dict) :
  mcp_method mcp_request = "notifications/initialized" ->
  id mcp_request = VNone ->
  let response := mcp_handler tool_registry request_id request mcp_request user in
  status_code response = 202
  /\ has_member "id" (body response) = true
  /\ member "id" (body response) = Some VNone
  /\ has_value "id" (body response) = false.
Proof.
  intros Hm Hid. unfold mcp_handler, dispatch. rewrite Hm, Hid. simpl.
  repeat split.
Qed.

(** C5.  A [tools/call] that names a tool the registry does not hold is
    answered with status 200 and the JSON-RPC error -32602; the handler
    returns this response, it neither answers 500 nor raises. *)
Theorem unknown_tool_is_invalid_params (request_id : string)
  (request : Request) (mcp_request : MCPRequest) (user : dict)
  (p : dict) (tool_name : string) :
  mcp_method mcp_request = "tools/call" ->
  params mcp_request = Some p ->
  dict_get "name" p = Some (VStr tool_name) ->
  tools_get tool_name tool_registry = None ->
  let response := mcp_handler tool_registry request_id request mcp_request user in
  status_code response = 200
  /\ member "error" (body response)
     = Some (VDict [("code", VInt (-32602));
                    ("message", VStr ("Unknown tool: " ++ tool_name))])
  /\ has_value "result" (body response) = false.
Proof.
  intros Hm Hp Hname Hreg.
  unfold mcp_handler.
  rewrite (dispatch_unknown_tool mcp_request user p tool_name Hm Hp Hname Hreg).
  repeat split.
Qed.

(** C6, amended: every response that the handler of POST /mcp returns for
    an authenticated request, hence every successful response of POST /mcp
    (and the 500 the handler builds itself), carries the protocol-version
    header with the declared version, also after the security middleware.
    The successful responses of GET /mcp and HEAD /mcp carry no such header;
    GET states the version in the [mcpVersion] member of its body.  Answers
    that are given before the handler runs (a failed authentication, for
    one) are not responses of the handler and are not covered. *)
Theorem protocol_version_header (CFG : Config) (request_id : string)
  (request : Request) (mcp_request : MCPRequest) (user : dict) :
  response_header "MCP-Protocol-Version"
    (add_security_headers
       (mcp_handler tool_registry request_id request mcp_request user))
  = Some PROTOCOL_VERSION
  /\ response_header "MCP-Protocol-Version"
       (add_security_headers (mcp_get CFG request)) = None
  /\ member "mcpVersion" (body (add_security_headers (mcp_get CFG request)))
     = Some (VStr PROTOCOL_VERSION)
  /\ response_header "MCP-Protocol-Version"
       (add_security_headers (mcp_head request)) = None.
Proof.
  repeat split.
  - destruct (mcp_handler_shape request_id request mcp_request user)
      as (response & status & -> & _).
    reflexivity.
  - unfold mcp_get.
    destruct (negb _); reflexivity.
Qed.

End EndpointProperties.

Section EndpointExamples.
#[local] Existing Instance plain_text.

(** C3, as stated, fails: the body of the answer to [initialize] has the
    member [result] and the member [error] (which is null), so it is not
    the case that exactly one of the two fields is present. *)
Lemma envelope_both_fields_serialized :
  let body := body (mcp_handler default_registry "0123456789abcdef"
                      (sample_request "POST") initialize_request sample_user) in
  has_member "result" body = true
  /\ has_member "error" body = true
  /\ member "error" body = Some VNone
  /\ xorb (has_member "result" body) (has_member "error" body) = false.
Proof. repeat split. Qed.

(** C4, as stated, fails: the body of the answer to the notification
    without id does carry an [id] member; the member is null. *)
Lemma initialized_notification_body_has_id_member :
  let response := mcp_handler default_registry "0123456789abcdef"
                    (sample_request "POST") initialized_notification sample_user in
  id initialized_notification = VNone
  /\ status_code response = 202
  /\ has_member "id" (body response) = true
  /\ member "id" (body response) = Some VNone.
Proof. repeat split. Qed.

(** The notification of the examples. *)
Lemma initialized_notification_accepted_witness :
  status_code (mcp_handler default_registry "0123456789abcdef"
                 (sample_request "POST") initialized_notification sample_user)
  = 202.
Proof.
  apply (initialized_notification_accepted default_registry "0123456789abcdef"
           (sample_request "POST") initialized_notification sample_user);
    reflexivity.
Defined.

(** A call of [multiply], which is not one of the default tools. *)
Lemma unknown_tool_is_invalid_params_witness :
  status_code (mcp_handler default_registry "0123456789abcdef"
                 (sample_request "POST") call_unknown_tool sample_user)
  = 200.
Proof.
  apply (unknown_tool_is_invalid_params default_registry "0123456789abcdef"
           (sample_request "POST") call_unknown_tool sample_user
           [("name", VStr "multiply");
            ("arguments", VDict [("a", VInt 2); ("b", VInt 3)])]
           "multiply");
    reflexivity.
Defined.

(** C6, as stated, fails: the successful responses to GET /mcp and to
    HEAD /mcp have no protocol-version header. *)
Lemma get_and_head_without_version_header :
  let get_response := add_security_headers (mcp_get sample_config (sample_request "GET")) in
  let head_response := add_security_headers (mcp_head (sample_request "HEAD")) in
  status_code get_response = 200
  /\ response_header "MCP-Protocol-Version" get_response = None
  /\ status_code head_response = 200
  /\ response_header "MCP-Protocol-Version" head_response = None.
Proof. repeat split. Qed.

End EndpointExamples.

(** ** Token validation *)

Section TokenProperties.
Context `{Backend}.

Lemma raised_bind {A B} (m : M A) (k : A -> M B) :
  raised m = true -> raised (bind m k) = true.
Proof. destruct m; [reflexivity|discriminate]. Qed.

(** The [except] clauses after [jwt.decode] let no failure through as a
    success. *)
Lemma decode_handlers_keep_failure (m : M Claims) :
  raised m = true ->
  raised (match m with
          | inr payload => ret payload
          | inl e =>
              if is_ExpiredSignatureError (exn_cls e) then inl e
              else if is_InvalidTokenError (exn_cls e) then
                raise InvalidTokenError ("Token validation failed: " ++ exn_msg e)
              else inl e
          end) = true.
Proof.
  destruct m as [e|]; [|discriminate]. intros _.
  destruct (is_ExpiredSignatureError (exn_cls e)); [reflexivity|].
  destruct (is_InvalidTokenError (exn_cls e)); reflexivity.
Qed.

(** With an audience to expect, [validate_aud] refuses any other one. *)
Lemma validate_aud_mismatch (payload : Claims) (a cid : string) :
  aud payload = Some a -> a <> cid ->
  raised (validate_aud payload (Some cid)) = true.
Proof.
  intros Ha Hne. unfold validate_aud. rewrite Ha.
  destruct (is_empty a); [reflexivity|].
  destruct (String.eqb_spec a cid); [contradiction|reflexivity].
Qed.

(** A token whose [aud] is not the client id does not get through the
    decoding step. *)
Lemma decode_and_validate_mismatch (env : Env) (token : string) (key : rsa_key)
  (cfg : cognito_config) (payload : Claims) (a cid : string) :
  load_payload token = inr payload ->
  aud payload = Some a -> client_id cfg = Some cid -> a <> cid ->
  raised (decode_and_validate env token key cfg) = true.
Proof.
  intros Hload Ha Hcid Hne. unfold decode_and_validate.
  apply decode_handlers_keep_failure.
  unfold decode_unverified, decode. rewrite Hload.
  cbn -[validate_aud validate_times validate_iss]. rewrite Ha, Hcid.
  destruct (rs256_verify token key); [|reflexivity].
  cbn -[validate_aud validate_times validate_iss].
  destruct (validate_times payload (now_decode env)); [reflexivity|].
  cbn -[validate_aud validate_times validate_iss].
  destruct (validate_iss payload _); [reflexivity|].
  cbn -[validate_aud validate_times validate_iss].
  pose proof (validate_aud_mismatch payload a cid Ha Hne) as Hr.
  destruct (validate_aud payload (Some cid)); [reflexivity|discriminate].
Qed.

(** Nor does a token whose [aud] is the empty string, which counts as a
    missing claim. *)
Lemma decode_and_validate_empty_aud (env : Env) (token : string) (key : rsa_key)
  (cfg : cognito_config) (payload : Claims) (cid : string) :
  load_payload token = inr payload ->
  aud payload = Some "" -> client_id cfg = Some cid ->
  raised (decode_and_validate env token key cfg) = true.
Proof.
  intros Hload Ha Hcid. unfold decode_and_validate.
  apply decode_handlers_keep_failure.
  unfold decode_unverified, decode. rewrite Hload.
  cbn -[validate_aud validate_times validate_iss]. rewrite Ha, Hcid.
  destruct (rs256_verify token key); [|reflexivity].
  cbn -[validate_aud validate_times validate_iss].
  destruct (validate_times payload (now_decode env)); [reflexivity|].
  cbn -[validate_aud validate_times validate_iss].
  destruct (validate_iss payload _); [reflexivity|].
  cbn -[validate_aud validate_times validate_iss].
  unfold validate_aud. now rewrite Ha.
Qed.

(** A token whose [aud] is the client id gets through the decoding step
    when its signature, its times and its issuer are in order. *)
Lemma decode_and_validate_matching (env : Env) (token : string) (key : rsa_key)
  (cfg : cognito_config) (payload : Claims) (a : string) :
  load_payload token = inr payload ->
  aud payload = Some a -> client_id cfg = Some a -> a <> "" ->
  rs256_verify token key = true ->
  validate_times payload (now_decode env) = ret tt ->
  validate_iss payload (expected_issuer cfg) = ret tt ->
  decode_and_validate env token key cfg = inr payload.
Proof.
  intros Hload Ha Hcid Hne Hsig Ht Hi.
  unfold decode_and_validate, decode_unverified, decode.
  change ("https://cognito-idp." ++ region cfg ++ ".amazonaws.com/"
            ++ user_pool_id cfg) with (expected_issuer cfg).
  rewrite Hload.
  cbn -[validate_aud validate_times validate_iss expected_issuer].
  rewrite Ha, Hcid, Hsig.
  cbn -[validate_aud validate_times validate_iss expected_issuer].
  rewrite Ht.
  cbn -[validate_aud validate_times validate_iss expected_issuer].
  rewrite Hi.
  cbn -[validate_aud validate_times validate_iss expected_issuer].
  unfold validate_aud. rewrite Ha.
  destruct a as [|c a]; [contradiction|].
  cbn [is_empty]. now rewrite String.eqb_refl.
Qed.

(** Without an [aud] claim the decoding step does not look at the client
    id. *)
Lemma decode_and_validate_no_aud (env : Env) (token : string) (key : rsa_key)
  (cfg : cognito_config) (payload : Claims) (other : option string) :
  load_payload token = inr payload ->
  aud payload = None ->
  decode_and_validate env token key (with_client_id cfg other)
  = decode_and_validate env token key cfg.
Proof.
  intros Hload Ha. unfold decode_and_validate, decode_unverified.
  rewrite Hload. simpl. rewrite Ha. reflexivity.
Qed.

(** The age check raises for a token issued more than 24 hours before the
    clock reading. *)
Lemma age_check_raises (now : Q) (issued_at : Z) :
  (inject_Z 86400 < now - inject_Z issued_at)%Q ->
  Qgtb (now - inject_Z issued_at) (inject_Z (3600 * 24)) = true.
Proof.
  intros Hold. unfold Qgtb. apply negb_true_iff.
  destruct (Qle_bool (now - inject_Z issued_at) (inject_Z (3600 * 24))) eqn:Hle;
    [|reflexivity].
  apply Qle_bool_iff in Hle. change (3600 * 24) with 86400 in Hle.
  exfalso. exact (Qlt_not_le _ _ Hold Hle).
Qed.

(** Every way the additional checks can end for such a token is a failure. *)
Lemma security_checks_old_token (env : Env) (payload : Claims)
  (required_scopes : option (list string)) (issued_at : Z) :
  iat payload = Some issued_at ->
  (inject_Z 86400 < time_time env - inject_Z issued_at)%Q ->
  raised (security_checks env payload required_scopes) = true.
Proof.
  intros Hiat Hold. unfold security_checks. rewrite Hiat.
  rewrite (age_check_raises _ _ Hold).
  repeat match goal with
  | |- raised (bind ?m _) = true =>
      let E := fresh in destruct m eqn:E; [reflexivity|simpl]
  end.
  reflexivity.
Qed.

End TokenProperties.

(** C1.  When the claims of the token have an [aud], the verifier checks
    that it is the configured client id.  A token whose [aud] is another
    string fails, and so does one whose [aud] is the empty string.  A token
    whose [aud] is the client id passes the check:
    with its format, its key, its signature, its times and its issuer in
    order, the outcome of the verifier is that of the additional checks
    (token use, scopes, subject, age) alone.  When the claims have no [aud],
    the audience is not verified at all: the outcome does not depend on the
    client id.  And verification does succeed, for a token without [aud]
    and for a token whose [aud] is the client id. *)
Theorem audience_verified_only_when_present :
  (forall (B : Backend) (env : Env) (token : string) (cfg : cognito_config)
          (required_scopes : option (list string)) (payload : Claims),
      load_payload token = inr payload ->
      (forall a cid,
          aud payload = Some a -> client_id cfg = Some cid ->
          (a <> cid \/ a = "" ->
           raised (validate_cognito_token env token cfg required_scopes) = true)
          /\ (a = cid -> a <> "" ->
              forall jwks key,
                validate_jwt_token_format token = true ->
                fetch_jwks env cfg = inr jwks ->
                resolve_key token jwks = inr key ->
                rs256_verify token key = true ->
                validate_times payload (now_decode env) = ret tt ->
                validate_iss payload (expected_issuer cfg) = ret tt ->
                validate_cognito_token env token cfg required_scopes
                = try_except
                    (security_checks env payload required_scopes)
                    (fun _ =>
                       raise InvalidTokenError
                         "Token security validation failed")))
      /\ (aud payload = None ->
          forall other,
            validate_cognito_token env token (with_client_id cfg other)
              required_scopes
            = validate_cognito_token env token cfg required_scopes))
  /\ (exists (B : Backend) (env : Env) (token : string) (cfg : cognito_config)
             (payload : Claims),
        load_payload token = inr payload
        /\ aud payload = None
        /\ validate_cognito_token env token cfg None = inr payload)
  /\ exists (B : Backend) (env : Env) (token : string) (cfg : cognito_config)
            (payload : Claims) (a : string),
       load_payload token = inr payload
       /\ aud payload = Some a
       /\ client_id cfg = Some a
       /\ validate_cognito_token env token cfg None = inr payload.
Proof.
  split; [|split].
  - intros B env token cfg required_scopes payload Hload. split.
    + intros a cid Ha Hcid. split.
      * intros Hbad. unfold validate_cognito_token.
        destruct (validate_jwt_token_format token); [simpl|reflexivity].
        destruct (fetch_jwks env cfg) as [e|jwks]; [reflexivity|].
        cbn [bind].
        destruct (resolve_key token jwks) as [e|key]; [reflexivity|].
        cbn [bind].
        apply raised_bind. destruct Hbad as [Hne|Hempty].
        -- exact (decode_and_validate_mismatch env token key cfg payload a cid
                    Hload Ha Hcid Hne).
        -- subst a.
           exact (decode_and_validate_empty_aud env token key cfg payload cid
                    Hload Ha Hcid).
      * intros Heq Hne jwks key Hfmt Hjwks Hkey Hsig Ht Hi. subst cid.
        unfold validate_cognito_token. rewrite Hfmt, Hjwks. cbn [negb bind].
        rewrite Hkey. cbn [bind].
        now rewrite (decode_and_validate_matching env token key cfg payload a
                       Hload Ha Hcid Hne Hsig Ht Hi).
    + intros Ha other. unfold validate_cognito_token.
      destruct (validate_jwt_token_format token); [simpl|reflexivity].
      change (fetch_jwks env (with_client_id cfg other)) with (fetch_jwks env cfg).
      destruct (fetch_jwks env cfg) as [e|jwks]; [reflexivity|].
      cbn [bind].
      destruct (resolve_key token jwks) as [e|key]; [reflexivity|].
      cbn [bind].
      now rewrite (decode_and_validate_no_aud env token key cfg payload other).
  - exists sample_backend, sample_env, fresh_access_token, sample_cognito_config.
    eexists. repeat split.
  - exists sample_backend, sample_env, foreign_id_token,
      (with_client_id sample_cognito_config (Some "client-other")).
    eexists. exists "client-other". repeat split.
Qed.

(** The id token issued for another client is refused; where that client
    is the configured one, it is accepted. *)
Lemma audience_verified_only_when_present_witness :
  raised (validate_cognito_token (H := sample_backend) sample_env
            foreign_id_token sample_cognito_config None) = true
  /\ validate_cognito_token (H := sample_backend) sample_env foreign_id_token
       (with_client_id sample_cognito_config (Some "client-other")) None
     = inr (sample_claims (Some "client-other") "id" (Some "user-1")
              1999999940 2000003540).
Proof.
  destruct audience_verified_only_when_present as [Hcheck _].
  split.
  - destruct (Hcheck sample_backend sample_env foreign_id_token
                sample_cognito_config None
                (sample_claims (Some "client-other") "id" (Some "user-1")
                   1999999940 2000003540) eq_refl) as [Hpresent _].
    destruct (Hpresent "client-other" "client-default" eq_refl eq_refl)
      as [Hmismatch _].
    apply Hmismatch. left. discriminate.
  - destruct (Hcheck sample_backend sample_env foreign_id_token
                (with_client_id sample_cognito_config (Some "client-other")) None
                (sample_claims (Some "client-other") "id" (Some "user-1")
                   1999999940 2000003540) eq_refl) as [Hpresent _].
    destruct (Hpresent "client-other" "client-other" eq_refl eq_refl)
      as [_ Hmatch].
    refine (Hmatch eq_refl _
              (VDict [("keys", VList [VDict [("kid", VStr "key-0"); ("kty", VStr "RSA")];
                                      VDict [("kid", VStr "key-1"); ("kty", VStr "RSA")]])])
              "key-1" eq_refl eq_refl eq_refl eq_refl eq_refl eq_refl).
    discriminate.
Defined.

(** C2, as stated, fails: a token that is too old, with an expiry still to
    come and every other claim in order, fails with the same error as a
    fresh token without subject.  The error is the general one of the
    additional checks, not one of its own kind. *)
Lemma token_too_old_has_no_kind_of_its_own :
  let verify token :=
    validate_cognito_token (H := sample_backend) sample_env token
      sample_cognito_config None in
  verify old_access_token = inl security_validation_failed
  /\ verify old_access_token <> raise InvalidTokenError "Token too old"
  /\ verify anonymous_access_token = verify old_access_token.
Proof. repeat split. discriminate. Qed.

(** C2, amended: a token that has passed the decoding step (signature,
    expiry, not-before, issued-at, issuer and audience) and whose [iat] is
    more than 86400 seconds before the current time fails, whatever its
    other claims, with the [InvalidTokenError] "Token security validation
    failed", which is also the error of the other additional checks. *)
Theorem old_token_fails {B : Backend} (env : Env) (token : string)
  (cfg : cognito_config) (required_scopes : option (list string))
  (jwks : value) (key : rsa_key) (payload : Claims) (issued_at : Z) :
  validate_jwt_token_format token = true ->
  fetch_jwks env cfg = inr jwks ->
  resolve_key token jwks = inr key ->
  decode_and_validate env token key cfg = inr payload ->
  iat payload = Some issued_at ->
  (inject_Z 86400 < time_time env - inject_Z issued_at)%Q ->
  validate_cognito_token env token cfg required_scopes
  = inl security_validation_failed.
Proof.
  intros Hfmt Hjwks Hkey Hdec Hiat Hold.
  unfold validate_cognito_token. rewrite Hfmt, Hjwks. cbn [negb bind].
  rewrite Hkey. cbn [bind]. rewrite Hdec. cbn [bind].
  pose proof (security_checks_old_token env payload required_scopes issued_at
                Hiat Hold) as Hr.
  destruct (security_checks env payload required_scopes); [reflexivity|discriminate].
Qed.

(** The access token issued 25 hours ago, an hour before its expiry. *)
Lemma old_token_fails_witness :
  validate_cognito_token (H := sample_backend) sample_env old_access_token
    sample_cognito_config None
  = inl security_validation_failed.
Proof.
  apply (old_token_fails (B := sample_backend) sample_env old_access_token
           sample_cognito_config None
           (VDict [("keys", VList [VDict [("kid", VStr "key-0"); ("kty", VStr "RSA")];
                                   VDict [("kid", VStr "key-1"); ("kty", VStr "RSA")]])])
           "key-1"
           (sample_claims None "access" (Some "user-1") 1999910000 2000003600)
           1999910000);
    reflexivity.
Defined.

(* ================================================================= *)
(** * Further properties *)

(** ** The tools *)

Section MoreToolProperties.
Context `{PyText}.






(** X2.  Arguments that are not a JSON object (null, a number, a string, a
    list) never reach the handler: the result is flagged as an error. *)
Theorem non_object_arguments_rejected (tool : BaseTool) (arguments : value)
  (user_info : option dict) :
  (forall d, arguments <> VDict d) ->
  isError (safe_execute tool arguments user_info) = true
  /\ forall handler,
       safe_execute (with_execute tool handler) arguments user_info
       = safe_execute tool arguments user_info.
Proof.
  intros Hnd.
  assert (Hraised : raised (validate_arguments (input_schema tool) arguments) = true).
  { unfold validate_arguments.
    destruct (missing_fields (required (input_schema tool)) arguments)
      as [x|[|f rest]]; simpl; try reflexivity.
    destruct arguments; try reflexivity. now destruct (Hnd d). }
  destruct (raised (log_execution arguments user_info)) eqn:Hlog.
  - rewrite (safe_execute_log_raises _ _ _ Hlog). split; [reflexivity|].
    intros handler. now rewrite (safe_execute_log_raises _ _ _ Hlog).
  - rewrite (safe_execute_logged _ _ _ Hlog). split.
    + destruct (validate_arguments (input_schema tool) arguments) as [x|];
        [|discriminate].
      cbn [bind result_or_error]. now destruct (is_ValueError (exn_cls x)).
    + intros handler. rewrite (safe_execute_logged _ _ _ Hlog).
      change (input_schema (with_execute tool handler)) with (input_schema tool).
      destruct (validate_arguments (input_schema tool) arguments) as [x|];
        [reflexivity|discriminate].
Qed.

End MoreToolProperties.

Section EchoAndAdd.
Context `{PyText}.




End EchoAndAdd.

(** ** The registry *)

Import Registry.

Lemma tools_get_register_same (tool : BaseTool) (tools : ToolRegistry) :
  tools_get (name tool) (register_tool tool tools) = Some tool.
Proof.
  induction tools as [|[k t] tools IH]; simpl.
  - now rewrite String.eqb_refl.
  - destruct (String.eqb k (name tool)) eqn:Hk; simpl; rewrite Hk; auto.
Qed.

Lemma tools_get_register_other (tool : BaseTool) (tools : ToolRegistry)
  (other : string) :
  other <> name tool ->
  tools_get other (register_tool tool tools) = tools_get other tools.
Proof.
  intros Hne. induction tools as [|[k t] tools IH]; simpl.
  - destruct (String.eqb_spec (name tool) other); [congruence|reflexivity].
  - destruct (String.eqb_spec k (name tool)) as [->|Hk]; simpl.
    + destruct (String.eqb_spec (name tool) other); [congruence|reflexivity].
    + destruct (String.eqb k other); [reflexivity|exact IH].
Qed.

Lemma tools_get_none_keys (tools : ToolRegistry) (k : string) :
  tools_get k tools = None <-> ~ In k (map fst tools).
Proof.
  induction tools as [|[k' t] tools IH]; simpl; [tauto|].
  destruct (String.eqb_spec k' k) as [->|Hne].
  - split; [discriminate|]. intros Hn. exfalso. apply Hn. now left.
  - rewrite IH. split; [intros Hn [Heq|Hin]; [congruence|auto] | auto].
Qed.

Lemma register_tool_keys (tool : BaseTool) (tools : ToolRegistry) :
  map fst (register_tool tool tools)
  = if tool_exists tools (name tool) then map fst tools
    else (map fst tools ++ [name tool])%list.
Proof.
  unfold tool_exists. induction tools as [|[k t] tools IH]; simpl; [reflexivity|].
  destruct (String.eqb k (name tool)) eqn:Hk; simpl; [reflexivity|].
  rewrite IH. now destruct (tools_get (name tool) tools).
Qed.

Lemma register_tool_well_formed (tool : BaseTool) (tools : ToolRegistry) :
  well_formed tools -> well_formed (register_tool tool tools).
Proof.
  intros [Hnd Hnames]. split.
  - rewrite register_tool_keys. unfold tool_exists.
    destruct (tools_get (name tool) tools) eqn:Hget; [assumption|].
    apply tools_get_none_keys in Hget.
    apply NoDup_app; [assumption | repeat constructor; intros [] | ].
    intros k Hin [Heq|[]]. subst. contradiction.
  - induction tools as [|[k t] tools IH]; simpl.
    + repeat constructor.
    + inversion Hnames as [|? ? Hk Hrest]; subst. inversion Hnd; subst.
      destruct (String.eqb_spec k (name tool)) as [->|_].
      * constructor; [reflexivity|assumption].
      * constructor; [assumption|]. now apply IH.
Qed.

Lemma register_all_well_formed (new_tools : list BaseTool) (tools : ToolRegistry) :
  well_formed tools -> well_formed (register_all new_tools tools).
Proof.
  revert tools. induction new_tools as [|t ts IH]; simpl; intros tools Hwf;
    [assumption|].
  apply IH. now apply register_tool_well_formed.
Qed.

Lemma register_all_exists (new_tools : list BaseTool) (tools : ToolRegistry)
  (k : string) :
  tool_exists tools k = true \/ In k (map name new_tools) ->
  tool_exists (register_all new_tools tools) k = true.
Proof.
  revert tools. induction new_tools as [|t ts IH]; simpl; intros tools Hk.
  - destruct Hk as [Hk|[]]. exact Hk.
  - apply IH. unfold tool_exists in *.
    destruct (String.eqb_spec k (name t)) as [->|Hne].
    + left. now rewrite tools_get_register_same.
    + rewrite tools_get_register_other by assumption.
      destruct Hk as [Hk|[Heq|Hin]]; [now left | congruence | now right].
Qed.

Lemma list_tools_names (tools : ToolRegistry) :
  Forall (fun kt => fst kt = name (snd kt)) tools ->
  map def_name (list_tools tools) = get_tool_names tools.
Proof.
  unfold list_tools, get_tool_names. induction 1 as [|[k t] tools Hk _ IH]; simpl;
    [reflexivity|].
  simpl in Hk. now rewrite IH, Hk.
Qed.

Lemma tools_get_del_other (tools : ToolRegistry) (k other : string) :
  other <> k -> tools_get other (tools_del k tools) = tools_get other tools.
Proof.
  intros Hne. induction tools as [|[k' t] tools IH]; simpl; [reflexivity|].
  destruct (String.eqb_spec k' k) as [->|_]; simpl.
  - destruct (String.eqb_spec k other); [congruence|reflexivity].
  - now rewrite IH.
Qed.

Lemma tools_del_incl (tools : ToolRegistry) (k : string) (kt : string * BaseTool) :
  In kt (tools_del k tools) -> In kt tools.
Proof.
  induction tools as [|[k' t] tools IH]; simpl; [tauto|].
  destruct (String.eqb k' k); simpl; intuition.
Qed.

Lemma tools_del_well_formed (tools : ToolRegistry) (k : string) :
  well_formed tools ->
  well_formed (tools_del k tools) /\ tools_get k (tools_del k tools) = None.
Proof.
  intros [Hnd Hnames]. induction tools as [|[k' t] tools IH]; simpl.
  - repeat split; constructor.
  - inversion Hnd as [|? ? Hfresh Hnd']; subst.
    inversion Hnames as [|? ? Hk Hrest]; subst.
    destruct (IH Hnd' Hrest) as [[Hnd2 Hn2] Hgone].
    destruct (String.eqb_spec k' k) as [->|Hne].
    + split; [now split|]. now apply tools_get_none_keys.
    + split; [split|].
      * simpl. constructor; [|assumption].
        intros Hin. apply Hfresh. apply in_map_iff in Hin.
        destruct Hin as [kt [Heq Hin]]. apply tools_del_incl in Hin.
        rewrite <- Heq. now apply in_map.
      * constructor; assumption.
      * simpl. destruct (String.eqb_spec k' k); [congruence|assumption].
Qed.

Section RegistryProperties.
Context `{PyText}.

(** X5.  Registration and look-up: after [register_tool] the name of the
    tool leads to that tool, which is the one [execute_tool] runs, also when
    the name was taken before; every other name leads where it led; a name
    that was taken keeps its place and a new one comes last. *)
Theorem register_then_lookup (tool : BaseTool) (tools : ToolRegistry)
  (arguments : value) (user_info : option dict) :
  tools_get (name tool) (register_tool tool tools) = Some tool
  /\ execute_tool (register_tool tool tools) (VStr (name tool)) arguments user_info
     = ret (safe_execute tool arguments user_info)
  /\ (forall other, other <> name tool ->
        tools_get other (register_tool tool tools) = tools_get other tools)
  /\ get_tool_names (register_tool tool tools)
     = if tool_exists tools (name tool) then get_tool_names tools
       else (get_tool_names tools ++ [name tool])%list.
Proof.
  repeat split.
  - apply tools_get_register_same.
  - unfold execute_tool, get_tool. simpl. now rewrite tools_get_register_same.
  - intros other. apply tools_get_register_other.
  - apply register_tool_keys.
Qed.

(** X6.  A registry built by registering tools one after the other, from the
    empty registry, holds each name once and files every tool under its own
    name: the names [tools/list] shows are the keys, every registered name
    is found, and the statistics count the distinct names. *)
Theorem registry_invariant (new_tools : list BaseTool) :
  let tools := register_all new_tools [] in
  NoDup (get_tool_names tools)
  /\ map def_name (list_tools tools) = get_tool_names tools
  /\ (forall t, In t new_tools -> tool_exists tools (name t) = true)
  /\ (forall k, In k (get_tool_names tools) <-> In k (map name new_tools))
  /\ fst (get_registry_stats tools) = Z.of_nat (List.length (get_tool_names tools)).
Proof.
  intros tools.
  assert (Hwf : well_formed tools).
  { apply register_all_well_formed. split; constructor. }
  destruct Hwf as [Hnd Hnames]. repeat split.
  - exact Hnd.
  - now apply list_tools_names.
  - intros t Hin. apply register_all_exists. right. now apply in_map.
  - intros Hin. destruct (in_dec string_dec k (map name new_tools)) as [|Hn];
      [assumption|]. exfalso.
    assert (Hnone : forall ts acc,
               ~ In k (map name ts) -> tools_get k acc = None ->
               tools_get k (register_all ts acc) = None).
    { induction ts as [|t ts IH]; simpl; intros acc Hk Hacc; [assumption|].
      apply IH; [tauto|]. rewrite tools_get_register_other; [assumption|].
      intros ->. apply Hk. now left. }
    specialize (Hnone new_tools [] Hn eq_refl).
    apply tools_get_none_keys in Hnone. contradiction.
  - intros Hin. pose proof (register_all_exists new_tools [] k (or_intror Hin)) as He.
    unfold tool_exists in He. fold tools in He.
    destruct (tools_get k tools) eqn:Hget; [|discriminate].
    destruct (in_dec string_dec k (get_tool_names tools)) as [|Hn]; [assumption|].
    apply tools_get_none_keys in Hn. congruence.
  - unfold get_registry_stats, get_tool_names. simpl. now rewrite length_map.
Qed.

(** X7.  Unregistering in a well-formed registry: the value returned tells
    whether the name was registered; afterwards the name is unknown, so
    that [execute_tool] raises the [ValueError] of a tool not found; every
    other name leads where it led, and the registry is still well formed.
    An unknown name leaves the registry as it is. *)
Theorem unregister_tool_removes (tools : ToolRegistry) (tool_name : string)
  (arguments : value) (user_info : option dict) :
  well_formed tools ->
  let '(tools', found) := unregister_tool tool_name tools in
  found = tool_exists tools tool_name
  /\ tool_exists tools' tool_name = false
  /\ execute_tool tools' (VStr tool_name) arguments user_info
     = raise ValueError ("Tool not found: " ++ tool_name)
  /\ (forall other, other <> tool_name ->
        tools_get other tools' = tools_get other tools)
  /\ well_formed tools'
  /\ (found = false -> tools' = tools).
Proof.
  intros Hwf. unfold unregister_tool.
  destruct (tool_exists tools tool_name) eqn:Hex.
  - destruct (tools_del_well_formed tools tool_name Hwf) as [Hwf' Hgone].
    repeat split; try apply Hwf'.
    + unfold tool_exists. now rewrite Hgone.
    + unfold execute_tool, get_tool. simpl. now rewrite Hgone.
    + intros other. apply tools_get_del_other.
    + discriminate.
  - unfold tool_exists in Hex.
    destruct (tools_get tool_name tools) eqn:Hget; [discriminate|].
    repeat split; try apply Hwf.
    + unfold tool_exists. now rewrite Hget.
    + unfold execute_tool, get_tool. simpl. now rewrite Hget.
Qed.

End RegistryProperties.

(** ** The dispatcher *)

Section DispatcherProperties.
Context `{PyText}.
Variable tool_registry : ToolRegistry.

Lemma served_method_cases (m : string) :
  In m served_methods \/ ~ In m served_methods.
Proof.
  destruct (in_dec string_dec m served_methods); [now left|now right].
Qed.

(** The branch of a method that is not served. *)
Lemma dispatch_not_served (mcp_request : MCPRequest) (user : dict) :
  ~ In (mcp_method mcp_request) served_methods ->
  dispatch tool_registry mcp_request user
  = ret (json_response
           {| jsonrpc := "2.0";
              result := None;
              error := Some [("code", VInt (-32601));
                             ("message",
                              VStr ("Method not found: " ++ mcp_method mcp_request))];
              resp_id := id mcp_request |} 200).
Proof.
  intros Hn. unfold dispatch.
  repeat match goal with
  | |- context [String.eqb (mcp_method mcp_request) ?lit] =>
      destruct (String.eqb_spec (mcp_method mcp_request) lit) as [Heq|_];
      [exfalso; apply Hn; rewrite Heq; simpl; tauto|]
  end.
  reflexivity.
Qed.

(** The serializer changes nothing in a value without such floats. *)
Lemma dump_json_finite :
  forall v : value, finite_json v = true -> dump_json v = v.
Proof.
  fix IH 1. intros [| b | z | f | s | l | d]; cbn [finite_json dump_json];
    try reflexivity.
  - intros Hf. apply negb_true_iff in Hf. now rewrite Hf.
  - intros Hl. f_equal. induction l as [|x l IHl]; [reflexivity|].
    cbn [forallb] in Hl. apply andb_true_iff in Hl. destruct Hl as [Hx Hl].
    cbn [map]. now rewrite (IH x Hx), (IHl Hl).
  - intros Hd. f_equal. induction d as [|[k x] d IHd]; [reflexivity|].
    cbn [forallb snd] in Hd. apply andb_true_iff in Hd. destruct Hd as [Hx Hd].
    cbn [map fst snd]. now rewrite (IH x Hx), (IHd Hd).
Qed.

(** X8.  A method that is not one of the six the handler serves is answered
    with status 200 and the JSON-RPC error -32601 naming the method; the
    [id] of the request is echoed as the serializer writes it: unchanged,
    but for a float that is infinite or not a number, which becomes null (a
    string or an integer is always echoed as it is). *)
Theorem unknown_method_not_found (request_id : string) (request : Request)
  (mcp_request : MCPRequest) (user : dict) :
  ~ In (mcp_method mcp_request) served_methods ->
  let response := mcp_handler tool_registry request_id request mcp_request user in
  status_code response = 200
  /\ member "error" (body response)
     = Some (error_object (-32601)
               ("Method not found: " ++ mcp_method mcp_request))
  /\ has_value "result" (body response) = false
  /\ member "id" (body response) = Some (dump_json (id mcp_request))
  /\ (finite_json (id mcp_request) = true ->
      member "id" (body response) = Some (id mcp_request)).
Proof.
  intros Hn. unfold mcp_handler. rewrite (dispatch_not_served _ _ Hn).
  repeat split.
  intros Hfinite. cbn. now rewrite (dump_json_finite _ Hfinite).
Qed.

(** The [tools/call] branch, by what [params] holds. *)
Lemma dispatch_tools_call (mcp_request : MCPRequest) (user : dict) :
  mcp_method mcp_request = "tools/call" ->
  dispatch tool_registry mcp_request user
  = match params mcp_request with
    | None => raise AttributeError "'NoneType' object has no attribute 'get'"
    | Some p =>
        let tool_name := dict_get_default "name" VNone p in
        let arguments := dict_get_default "arguments" (VDict []) p in
        match execute_tool tool_registry tool_name arguments (Some user) with
        | inr r =>
            ret (json_response
                   {| jsonrpc := "2.0";
                      result := Some (VDict [("content",
                                              VList (map VDict (content r)))]);
                      error := None;
                      resp_id := id mcp_request |} 200)
        | inl e =>
            if is_ValueError (exn_cls e) then
              ret (json_response
                     {| jsonrpc := "2.0";
                        result := None;
                        error := Some [("code", VInt (-32602));
                                       ("message",
                                        VStr ("Unknown tool: " ++ py_str tool_name))];
                        resp_id := id mcp_request |} 200)
            else inl e
        end
    end.
Proof.
  intros Hm. unfold dispatch, params_get. rewrite Hm.
  cbn [String.eqb Ascii.eqb Bool.eqb].
  destruct (params mcp_request) as [p|]; [|reflexivity].
  cbn [bind ret].
  destruct (execute_tool tool_registry _ _ _) as [e|r]; [|reflexivity].
  now destruct (is_ValueError (exn_cls e)).
Qed.

(** What [execute_tool] does with the name it is given. *)
Lemma execute_tool_cases (tool_name arguments : value) (user_info : option dict) :
  execute_tool tool_registry tool_name arguments user_info
  = match tool_name with
    | VStr s =>
        match tools_get s tool_registry with
        | Some t => ret (safe_execute t arguments user_info)
        | None => raise ValueError ("Tool not found: " ++ s)
        end
    | VList _ | VDict _ =>
        raise TypeError ("unhashable type: '" ++ type_name tool_name ++ "'")
    | _ => raise ValueError ("Tool not found: " ++ py_str tool_name)
    end.
Proof.
  unfold execute_tool, get_tool.
  destruct tool_name; try reflexivity.
Qed.

(** X9.  The status of a response is 200, 202 or 500.  It is 202 exactly
    for [notifications/initialized], and 500 exactly for a [tools/call]
    whose [params] is null or whose tool name is a list or an object. *)
Theorem handler_status_codes (request_id : string) (request : Request)
  (mcp_request : MCPRequest) (user : dict) :
  let response := mcp_handler tool_registry request_id request mcp_request user in
  (status_code response = 200 \/ status_code response = 202
   \/ status_code response = 500)
  /\ (status_code response = 202
      <-> mcp_method mcp_request = "notifications/initialized")
  /\ (status_code response = 500
      <-> mcp_method mcp_request = "tools/call"
          /\ match params mcp_request with
             | None => True
             | Some p => unhashable (dict_get_default "name" VNone p) = true
             end).
Proof.
  destruct (served_method_cases (mcp_method mcp_request)) as [Hin|Hn].
  - simpl in Hin.
    destruct Hin as [Hm|[Hm|[Hm|[Hm|[Hm|[Hm|[]]]]]]]; symmetry in Hm.
    1-5: unfold mcp_handler, dispatch; rewrite Hm; simpl;
         (split; [tauto|]); split; split; try discriminate; try tauto;
         intros [? _]; discriminate.
    unfold mcp_handler. rewrite (dispatch_tools_call _ _ Hm), Hm.
    destruct (params mcp_request) as [p|]; simpl.
    + rewrite execute_tool_cases.
      destruct (dict_get_default "name" VNone p) as [| | | | s | l | d]; simpl;
        try destruct (tools_get s tool_registry); simpl;
        (split; [tauto|]); split; split; try discriminate; try tauto;
        intros [_ ?]; discriminate.
    + (split; [tauto|]); split; split; try discriminate; tauto.
  - unfold mcp_handler. rewrite (dispatch_not_served _ _ Hn). simpl.
    (split; [tauto|]); split; split; try discriminate.
    + intros Hm. exfalso. apply Hn. rewrite Hm. simpl. tauto.
    + intros [Hm _]. exfalso. apply Hn. rewrite Hm. simpl. tauto.
Qed.

(** X10.  The [id] of the request is echoed in the body of every response,
    the internal-error response included, as the serializer writes it: a
    float that is infinite or not a number, in the id or inside it, becomes
    null, and any other id is echoed unchanged.  One exception: in the
    answer to [notifications/initialized] an id that Python counts as false
    (null, 0, false, the empty string, an empty list or object) becomes
    null. *)
Theorem request_id_echoed (request_id : string) (request : Request)
  (mcp_request : MCPRequest) (user : dict) :
  let echoed :=
    if String.eqb (mcp_method mcp_request) "notifications/initialized"
       && negb (truthy (id mcp_request))
    then VNone else id mcp_request in
  let response := mcp_handler tool_registry request_id request mcp_request user in
  member "id" (body response) = Some (dump_json echoed)
  /\ (finite_json (id mcp_request) = true ->
      member "id" (body response) = Some echoed).
Proof.
  cbv zeta.
  assert (Hdump :
    member "id"
      (body (mcp_handler tool_registry request_id request mcp_request user))
    = Some (dump_json
              (if String.eqb (mcp_method mcp_request) "notifications/initialized"
                  && negb (truthy (id mcp_request))
               then VNone else id mcp_request))).
  { destruct (served_method_cases (mcp_method mcp_request)) as [Hin|Hn].
    - simpl in Hin.
      destruct Hin as [Hm|[Hm|[Hm|[Hm|[Hm|[Hm|[]]]]]]]; symmetry in Hm.
      1,3-5: unfold mcp_handler, dispatch; rewrite Hm; reflexivity.
      + unfold mcp_handler, dispatch. rewrite Hm. simpl.
        now destruct (truthy (id mcp_request)).
      + unfold mcp_handler. rewrite (dispatch_tools_call _ _ Hm), Hm.
        destruct (params mcp_request) as [p|]; [|reflexivity]. simpl.
        destruct (execute_tool tool_registry _ _ _) as [e|r]; [|reflexivity].
        now destruct (is_ValueError (exn_cls e)).
    - unfold mcp_handler. rewrite (dispatch_not_served _ _ Hn). simpl.
      destruct (String.eqb_spec (mcp_method mcp_request)
                  "notifications/initialized") as [Hm|_]; [|reflexivity].
      exfalso. apply Hn. rewrite Hm. simpl. tauto. }
  split; [exact Hdump|].
  intros Hfinite. rewrite Hdump. f_equal.
  destruct (String.eqb _ _ && negb _); [reflexivity|].
  now apply dump_json_finite.
Qed.

(** X11.  The internal-error path says nothing of the exception but its
    class: a [tools/call] whose [params] is null is answered with status
    500, code -32603, the general message and the request id as error id;
    one whose tool name is a list or an object with the message of a
    [TypeError].  Neither body has a result. *)
Theorem internal_error_is_opaque (request_id : string) (request : Request)
  (mcp_request : MCPRequest) (user : dict) :
  mcp_method mcp_request = "tools/call" ->
  match params mcp_request with
  | None => True
  | Some p => unhashable (dict_get_default "name" VNone p) = true
  end ->
  let response := mcp_handler tool_registry request_id request mcp_request user in
  status_code response = 500
  /\ member "error" (body response)
     = Some (internal_error_object
               (match params mcp_request with
                | None => "An error occurred processing your request"
                | Some _ => "Invalid data type"
                end) request_id)
  /\ has_value "result" (body response) = false.
Proof.
  intros Hm Hbad. unfold mcp_handler. rewrite (dispatch_tools_call _ _ Hm).
  destruct (params mcp_request) as [p|].
  - simpl. rewrite execute_tool_cases.
    destruct (dict_get_default "name" VNone p); try discriminate;
      unfold get_safe_error_message; simpl;
      destruct request_id; repeat split.
  - unfold get_safe_error_message; simpl. destruct request_id; repeat split.
Qed.

(** X12.  A [tools/call] of a registered tool is answered with status 200
    and a result that holds the content of the tool's result and nothing
    else: whether the tool flagged its result as an error does not show in
    the response. *)
Theorem tool_result_envelope (request_id : string) (request : Request)
  (mcp_request : MCPRequest) (user p : dict) (tool_name : string)
  (tool : BaseTool) :
  mcp_method mcp_request = "tools/call" ->
  params mcp_request = Some p ->
  dict_get "name" p = Some (VStr tool_name) ->
  tools_get tool_name tool_registry = Some tool ->
  let outcome :=
    safe_execute tool (dict_get_default "arguments" (VDict []) p) (Some user) in
  mcp_handler tool_registry request_id request mcp_request user
  = json_response
      {| jsonrpc := "2.0";
         result := Some (VDict [("content", VList (map VDict (content outcome)))]);
         error := None;
         resp_id := id mcp_request |} 200.
Proof.
  intros Hm Hp Hname Hreg. unfold mcp_handler.
  rewrite (dispatch_tools_call _ _ Hm), Hp. simpl.
  rewrite execute_tool_cases. unfold dict_get_default at 1. rewrite Hname, Hreg.
  reflexivity.
Qed.

End DispatcherProperties.

(** ** GET /mcp and the security middleware *)

Import Endpoints.

(** X13.  GET /mcp shows the authentication requirements exactly to a
    request without a bearer token: with an [Authorization] header that
    starts with "Bearer " the body has no [authentication] member (the
    token is not looked at); otherwise the body is that of
    GET /.well-known/mcp, with the client id chosen by the detected
    client. *)
Theorem mcp_get_authentication_block (CFG : Config) (request : Request) :
  let bearer :=
    match headers_get "authorization" (req_headers request) with
    | Some h => startswith h "Bearer "
    | None => false
    end in
  status_code (mcp_get CFG request) = 200
  /\ (bearer = true ->
      has_member "authentication" (body (mcp_get CFG request)) = false)
  /\ (bearer = false ->
      body (mcp_get CFG request) = body (mcp_metadata CFG request)
      /\ member "authentication" (body (mcp_get CFG request))
         = Some (VDict
                   [("type", VStr "oauth2");
                    ("oauth2",
                     VDict [("authorizationUrl", VStr (authorization_url CFG));
                            ("tokenUrl", VStr (token_url CFG));
                            ("clientId",
                             VStr (client_config_id CFG
                                     (detect_client_securely request)));
                            ("scopes", VList (map VStr (scopes CFG)))])])).
Proof.
  unfold mcp_get, mcp_metadata.
  destruct (headers_get "authorization" (req_headers request)) as [h|]; simpl.
  - destruct (startswith h "Bearer ") eqn:Hb.
    + assert (Hne : is_empty h = false).
      { destruct h; [discriminate|reflexivity]. }
      rewrite Hne. simpl. repeat split; try discriminate.
    + rewrite andb_false_r. simpl. repeat split; discriminate.
  - repeat split; discriminate.
Qed.

Lemma headers_get_del (name k : string) (h : headers) :
  headers_get k (headers_del name h)
  = if String.eqb k (lower name) then None else headers_get k h.
Proof.
  unfold headers_del. induction h as [|[k' v] h IH]; simpl.
  - now destruct (String.eqb k (lower name)).
  - destruct (String.eqb_spec k' (lower name)) as [->|Hne]; simpl.
    + rewrite IH. destruct (String.eqb_spec k (lower name)) as [->|Hk].
      * reflexivity.
      * destruct (String.eqb_spec (lower name) k); [congruence|reflexivity].
    + rewrite IH. destruct (String.eqb_spec k' k) as [->|_]; [|reflexivity].
      destruct (String.eqb_spec k (lower name)); [congruence|reflexivity].
Qed.

Lemma lower_lower (s : string) : lower (lower s) = lower s.
Proof.
  induction s as [|c s IH]; simpl; [reflexivity|].
  f_equal; [|exact IH]. unfold lower_char.
  destruct c as [[] [] [] [] [] [] [] []]; reflexivity.
Qed.

Lemma headers_get_set (name v k : string) (h : headers) :
  headers_get k (headers_set name v h)
  = if String.eqb k (lower name) then Some v else headers_get k h.
Proof.
  unfold headers_set. induction h as [|[k' v'] h IH]; simpl.
  - rewrite String.eqb_sym. now destruct (String.eqb k (lower name)).
  - destruct (String.eqb_spec k' (lower name)) as [->|Hne]; simpl.
    + rewrite String.eqb_sym.
      destruct (String.eqb_spec k (lower name)) as [->|Hk]; [reflexivity|].
      rewrite headers_get_del, lower_lower.
      destruct (String.eqb_spec k (lower name)); [contradiction|reflexivity].
    + rewrite IH. destruct (String.eqb_spec k' k) as [->|_]; [|reflexivity].
      destruct (String.eqb_spec k (lower name)); [congruence|reflexivity].
Qed.

(** The names the middleware writes or deletes, in lower case. *)
Lemma add_security_headers_get (response : Response) (k : string) :
  headers_get k (resp_headers (add_security_headers response))
  = if String.eqb k "ngrok-skip-browser-warning" then Some "true"
    else if String.eqb k "server" then None
    else match headers_get k
                 (map (fun kv => (lower (fst kv), snd kv)) security_headers) with
         | Some v => Some v
         | None => headers_get k (resp_headers response)
         end.
Proof.
  unfold add_security_headers. cbn [resp_headers].
  rewrite headers_get_set. change (lower "ngrok-skip-browser-warning")
    with "ngrok-skip-browser-warning".
  destruct (String.eqb k "ngrok-skip-browser-warning"); [reflexivity|].
  set (hs := fold_left _ security_headers (resp_headers response)).
  assert (Hhs : headers_get k hs
                = match headers_get k
                          (map (fun kv => (lower (fst kv), snd kv)) security_headers)
                  with
                  | Some v => Some v
                  | None => headers_get k (resp_headers response)
                  end).
  { subst hs. unfold security_headers. cbn [fold_left fst snd].
    repeat rewrite headers_get_set. cbn [map fst snd headers_get lower].
    repeat match goal with
    | |- context [lower_char ?c] =>
        let c' := eval vm_compute in (lower_char c) in
        change (lower_char c) with c'
    end.
    repeat match goal with
    | |- context [String.eqb ?a k] => rewrite (String.eqb_sym a k)
    end.
    repeat match goal with
    | |- context [String.eqb k ?lit] => destruct (String.eqb_spec k lit) as [->|?]
    end; try reflexivity; congruence. }
  destruct (headers_mem "server" hs) eqn:Hmem.
  - rewrite headers_get_del. change (lower "server") with "server".
    destruct (String.eqb k "server"); [reflexivity|exact Hhs].
  - destruct (String.eqb_spec k "server") as [->|_]; [|exact Hhs].
    unfold headers_mem in Hmem.
    destruct (headers_get "server" hs); [discriminate|reflexivity].
Qed.

(** X14.  The security middleware, on any response: each of its ten headers
    and the ngrok header has the value the middleware gives it, whatever
    the endpoint had set under that name; there is no [Server] header; any
    other header, the status and the body are as the endpoint left them. *)
Theorem security_headers_applied (response : Response) :
  let secured := add_security_headers response in
  (forall name v, In (name, v) security_headers ->
                  response_header name secured = Some v)
  /\ response_header "ngrok-skip-browser-warning" secured = Some "true"
  /\ response_header "Server" secured = None
  /\ (forall k,
        k <> "server" -> k <> "ngrok-skip-browser-warning" ->
        ~ In k (map (fun kv => lower (fst kv)) security_headers) ->
        headers_get k (resp_headers secured) = headers_get k (resp_headers response))
  /\ status_code secured = status_code response
  /\ body secured = body response.
Proof.
  repeat split.
  - intros name v Hin. unfold response_header. rewrite add_security_headers_get.
    simpl in Hin.
    repeat (destruct Hin as [Heq|Hin]; [inversion Heq; subst; reflexivity|]).
    contradiction.
  - unfold response_header. now rewrite add_security_headers_get.
  - unfold response_header. now rewrite add_security_headers_get.
  - intros k Hs Hn Hk. rewrite add_security_headers_get.
    destruct (String.eqb_spec k "ngrok-skip-browser-warning"); [contradiction|].
    destruct (String.eqb_spec k "server"); [contradiction|].
    destruct (headers_get k _) eqn:Hget; [|reflexivity].
    exfalso. apply Hk. clear - Hget.
    induction security_headers as [|[n v] l IH]; simpl in *; [discriminate|].
    destruct (String.eqb_spec (lower n) k); [now left|right; now apply IH].
Qed.

(** ** Token validation *)

Section MoreTokenProperties.
Context `{Backend}.

(** The steps of [validate_cognito_token] once the format is accepted and
    the key is resolved. *)
Lemma validate_after_key (env : Env) (token : string) (cfg : cognito_config)
  (required_scopes : option (list string)) (jwks : value) (key : rsa_key) :
  validate_jwt_token_format token = true ->
  fetch_jwks env cfg = inr jwks ->
  resolve_key token jwks = inr key ->
  validate_cognito_token env token cfg required_scopes
  = bind (decode_and_validate env token key cfg)
      (fun payload =>
         try_except (security_checks env payload required_scopes)
           (fun _ => raise InvalidTokenError "Token security validation failed")).
Proof.
  intros Hfmt Hjwks Hkey. unfold validate_cognito_token.
  rewrite Hfmt, Hjwks. cbn [negb bind]. now rewrite Hkey.
Qed.

(** X15.  The key set is only fetched from a URL of Cognito: when the
    configured [jwks_url] does not start with "https://cognito-idp." or
    does not contain ".amazonaws.com", a well-formed token fails with
    "JWKS validation failed", whatever the endpoint would answer.  With a
    trusted URL, a timeout of the fetch becomes "Token validation timeout",
    an HTTP error status "Unable to fetch JWKS" and any other failure
    "JWKS validation failed". *)
Theorem jwks_fetch_failures (env : Env) (token : string) (cfg : cognito_config)
  (required_scopes : option (list string)) :
  validate_jwt_token_format token = true ->
  let trusted :=
    startswith (jwks_url cfg) "https://cognito-idp."
    && str_contains ".amazonaws.com" (jwks_url cfg) in
  let outcome := validate_cognito_token env token cfg required_scopes in
  (trusted = false -> outcome = raise InvalidTokenError "JWKS validation failed")
  /\ (trusted = true ->
      forall x, http_get_json env (jwks_url cfg) = inl x ->
        outcome
        = raise InvalidTokenError
            (match exn_cls x with
             | HTTPTimeoutException => "Token validation timeout"
             | HTTPStatusError => "Unable to fetch JWKS"
             | _ => "JWKS validation failed"
             end)).
Proof.
  intros Hfmt. split.
  - intros Hun. unfold validate_cognito_token, fetch_jwks. rewrite Hfmt.
    apply andb_false_iff in Hun.
    destruct Hun as [Hun|Hun]; rewrite Hun; [reflexivity|].
    simpl. now rewrite orb_true_r.
  - intros Htr x Hx. unfold validate_cognito_token, fetch_jwks. rewrite Hfmt.
    apply andb_true_iff in Htr. destruct Htr as [Hs Hc]. rewrite Hs, Hc, Hx.
    simpl. now destruct (exn_cls x).
Qed.

(** [find_key] among keys none of which has the key id. *)
Lemma find_key_no_match (keys : list value) (kid : string) :
  Forall (fun key => exists kd,
            key = VDict kd /\ eq_str (dict_get_default "kid" VNone kd) kid = false)
         keys ->
  find_key keys kid = inr None.
Proof.
  induction 1 as [|key keys [kd [-> Hk]] _ IH]; simpl; [reflexivity|].
  now rewrite Hk.
Qed.

(** X16.  A token whose header names no key id, or a key id that no key of
    the fetched set has, fails with "Key resolution failed". *)
Theorem unknown_signing_key (env : Env) (token : string) (cfg : cognito_config)
  (required_scopes : option (list string)) (jwks_members : dict)
  (keys : list value) (kid : option string) :
  validate_jwt_token_format token = true ->
  fetch_jwks env cfg = inr (VDict jwks_members) ->
  dict_get "keys" jwks_members = Some (VList keys) ->
  get_unverified_header_kid token = inr kid ->
  match kid with
  | None => True
  | Some k =>
      k = ""
      \/ Forall (fun key => exists kd,
                   key = VDict kd
                   /\ eq_str (dict_get_default "kid" VNone kd) k = false) keys
  end ->
  validate_cognito_token env token cfg required_scopes
  = raise InvalidTokenError "Key resolution failed".
Proof.
  intros Hfmt Hjwks Hkeys Hkid Hno. unfold validate_cognito_token.
  rewrite Hfmt, Hjwks. cbn [negb bind].
  unfold resolve_key. rewrite Hkid. cbn [bind try_except].
  destruct kid as [k|]; [|reflexivity].
  destruct (is_empty k) eqn:He; [reflexivity|].
  destruct Hno as [->|Hno]; [discriminate|].
  unfold jwks_keys, dict_get_default. rewrite Hkeys. cbn [bind ret].
  now rewrite (find_key_no_match keys k Hno).
Qed.

(** [validate_times] for a token that is neither immature nor expired, and
    for one that is expired. *)
Lemma validate_times_expired (payload : Claims) (now : Q) (e : Z) :
  (forall i, iat payload = Some i -> (inject_Z i <= now)%Q) ->
  (forall n, nbf payload = Some n -> (inject_Z n <= now)%Q) ->
  exp payload = Some e -> (inject_Z e <= now)%Q ->
  validate_times payload now
  = raise ExpiredSignatureError "Signature has expired".
Proof.
  intros Hiat Hnbf Hexp Hle. unfold validate_times, Qgtb.
  destruct (iat payload) as [i|].
  - pose proof (proj2 (Qle_bool_iff _ _) (Hiat i eq_refl)) as ->. simpl.
    destruct (nbf payload) as [n|].
    + pose proof (proj2 (Qle_bool_iff _ _) (Hnbf n eq_refl)) as ->. simpl.
      rewrite Hexp. now rewrite (proj2 (Qle_bool_iff _ _) Hle).
    + simpl. rewrite Hexp. now rewrite (proj2 (Qle_bool_iff _ _) Hle).
  - simpl. destruct (nbf payload) as [n|].
    + pose proof (proj2 (Qle_bool_iff _ _) (Hnbf n eq_refl)) as ->. simpl.
      rewrite Hexp. now rewrite (proj2 (Qle_bool_iff _ _) Hle).
    + simpl. rewrite Hexp. now rewrite (proj2 (Qle_bool_iff _ _) Hle).
Qed.

(** X17.  A correctly signed token whose expiry has come fails with the
    library's [ExpiredSignatureError], which the verifier raises again as
    it is: the caller can tell an expired token from every other
    failure. *)
Theorem expired_token_distinguished (env : Env) (token : string)
  (cfg : cognito_config) (required_scopes : option (list string))
  (jwks : value) (key : rsa_key) (payload : Claims) (expiry : Z) :
  validate_jwt_token_format token = true ->
  fetch_jwks env cfg = inr jwks ->
  resolve_key token jwks = inr key ->
  load_payload token = inr payload ->
  rs256_verify token key = true ->
  (forall i, iat payload = Some i -> (inject_Z i <= now_decode env)%Q) ->
  (forall n, nbf payload = Some n -> (inject_Z n <= now_decode env)%Q) ->
  exp payload = Some expiry ->
  (inject_Z expiry <= now_decode env)%Q ->
  validate_cognito_token env token cfg required_scopes
  = raise ExpiredSignatureError "Signature has expired".
Proof.
  intros Hfmt Hjwks Hkey Hload Hsig Hiat Hnbf Hexp Hle.
  rewrite (validate_after_key env token cfg required_scopes jwks key Hfmt Hjwks Hkey).
  unfold decode_and_validate, decode_unverified, decode.
  rewrite Hload. cbn -[validate_times validate_iss validate_aud].
  rewrite Hsig. cbn -[validate_times validate_iss validate_aud].
  rewrite (validate_times_expired payload (now_decode env) expiry Hiat Hnbf Hexp Hle).
  reflexivity.
Qed.

End MoreTokenProperties.

Section TokenOutcomes.
Context `{Backend}.

Lemma validate_times_token_error (payload : Claims) (now : Q) (x : exn) :
  validate_times payload now = inl x -> is_InvalidTokenError (exn_cls x) = true.
Proof.
  unfold validate_times.
  destruct (iat payload) as [i|]; [destruct (Qgtb (inject_Z i) now)|];
    (destruct (nbf payload) as [n|]; [destruct (Qgtb (inject_Z n) now)|]);
    (destruct (exp payload) as [e|]; [destruct (Qle_bool (inject_Z e) now)|]);
    simpl; intros Hx; inversion Hx; reflexivity.
Qed.

Lemma validate_iss_token_error (payload : Claims) (issuer : string) (x : exn) :
  validate_iss payload issuer = inl x -> is_InvalidTokenError (exn_cls x) = true.
Proof.
  unfold validate_iss. destruct (iss payload) as [i|];
    [destruct (String.eqb i issuer)|]; intros Hx; inversion Hx; reflexivity.
Qed.

Lemma validate_aud_token_error (payload : Claims) (audience : option string)
  (x : exn) :
  validate_aud payload audience = inl x -> is_InvalidTokenError (exn_cls x) = true.
Proof.
  unfold validate_aud. destruct audience as [c|].
  - destruct (aud payload) as [a|]; [destruct (is_empty a);
      [|destruct (String.eqb a c)]|]; intros Hx; inversion Hx; reflexivity.
  - destruct (opt_is_falsy (aud payload)); intros Hx; inversion Hx; reflexivity.
Qed.

(** The library's [decode] raises token errors, apart from what reading the
    payload raises. *)
Lemma decode_error_classes (token : string) (key : rsa_key) (issuer : string)
  (opts : options) (audience : option string) (now : Q) (x : exn) :
  decode token key issuer opts audience now = inl x ->
  is_InvalidTokenError (exn_cls x) = true \/ load_payload token = inl x.
Proof.
  unfold decode. destruct (load_payload token) as [e|payload]; simpl.
  - intros Hx. inversion Hx. now right.
  - destruct (rs256_verify token key); simpl;
      [|intros Hx; inversion Hx; now left].
    destruct (validate_times payload now) as [e|[]] eqn:Ht; simpl.
    { intros Hx. inversion Hx; subst. left.
      exact (validate_times_token_error _ _ _ Ht). }
    destruct (validate_iss payload issuer) as [e|[]] eqn:Hi; simpl.
    { intros Hx. inversion Hx; subst. left.
      exact (validate_iss_token_error _ _ _ Hi). }
    destruct (verify_aud opts); simpl; [|discriminate].
    destruct (validate_aud payload audience) as [e|[]] eqn:Ha; simpl;
      [|discriminate].
    intros Hx. inversion Hx; subst. left.
    exact (validate_aud_token_error _ _ _ Ha).
Qed.

Lemma decode_and_validate_error_classes (env : Env) (token : string)
  (key : rsa_key) (cfg : cognito_config) (x : exn) :
  decode_and_validate env token key cfg = inl x ->
  exn_cls x = InvalidTokenError \/ exn_cls x = ExpiredSignatureError
  \/ (is_InvalidTokenError (exn_cls x) = false /\ load_payload token = inl x).
Proof.
  unfold decode_and_validate, decode_unverified.
  destruct (load_payload token) as [e|payload_check] eqn:Hload; simpl.
  - destruct (is_ExpiredSignatureError (exn_cls e)) eqn:Hexp.
    + intros Hx. inversion Hx; subst. right. left.
      now destruct (exn_cls x).
    + destruct (is_InvalidTokenError (exn_cls e)) eqn:Htok.
      * intros Hx. inversion Hx. now left.
      * intros Hx. inversion Hx; subst. right. right. now split.
  - destruct (decode token key _ _ _ _) as [e|payload] eqn:Hdec; [|discriminate].
    destruct (decode_error_classes _ _ _ _ _ _ _ Hdec) as [Htok|Hl];
      [|congruence].
    destruct (is_ExpiredSignatureError (exn_cls e)) eqn:Hexp.
    + intros Hx. inversion Hx; subst. right. left. now destruct (exn_cls x).
    + rewrite Htok. intros Hx. inversion Hx. now left.
Qed.

Lemma validate_cognito_token_error_classes (env : Env) (token : string)
  (cfg : cognito_config) (required_scopes : option (list string)) (x : exn) :
  validate_cognito_token env token cfg required_scopes = inl x ->
  exn_cls x = InvalidTokenError \/ exn_cls x = ExpiredSignatureError
  \/ (is_InvalidTokenError (exn_cls x) = false /\ load_payload token = inl x).
Proof.
  unfold validate_cognito_token.
  destruct (validate_jwt_token_format token); simpl;
    [|intros Hx; inversion Hx; now left].
  unfold fetch_jwks at 1.
  destruct (if negb (startswith (jwks_url cfg) "https://cognito-idp.")
               || negb (str_contains ".amazonaws.com" (jwks_url cfg))
            then raise ValueError "Invalid JWKS URL"
            else http_get_json env (jwks_url cfg)) as [e|jwks]; simpl.
  { destruct (exn_cls e); intros Hx; inversion Hx; now left. }
  unfold resolve_key at 1.
  match goal with
  | |- context [try_except ?m _] => destruct m as [e|key]
  end; simpl.
  { intros Hx. inversion Hx. now left. }
  destruct (decode_and_validate env token key cfg) as [e|payload] eqn:Hdec; simpl.
  { intros Hx. inversion Hx; subst.
    exact (decode_and_validate_error_classes _ _ _ _ _ Hdec). }
  destruct (security_checks env payload required_scopes); simpl;
    [|discriminate].
  intros Hx. inversion Hx. now left.
Qed.

(** X18.  Whatever goes wrong, the verifier raises an [InvalidTokenError]
    or an [ExpiredSignatureError] themselves, never one of their
    subclasses; the only other exceptions it lets through are those that
    reading the payload of the token raises. *)
Theorem verification_error_classes (env : Env) (token : string)
  (cfg : cognito_config) (required_scopes : option (list string)) (x : exn) :
  validate_cognito_token env token cfg required_scopes = inl x ->
  exn_cls x = InvalidTokenError \/ exn_cls x = ExpiredSignatureError
  \/ (is_InvalidTokenError (exn_cls x) = false /\ load_payload token = inl x).
Proof.
  exact (validate_cognito_token_error_classes env token cfg required_scopes x).
Qed.

End TokenOutcomes.

(** Closes a goal whose hypothesis would be that the [except] clauses after
    [jwt.decode] turned a failure into a success. *)
Ltac handled_failure :=
  cbn;
  repeat match goal with
  | |- context [if ?c then _ else _] => destruct c
  end;
  discriminate.

Section TokenPolicy.
Context `{Backend}.


(** What the success of the decoding step means. *)
Lemma decode_and_validate_success (env : Env) (token : string) (key : rsa_key)
  (cfg : cognito_config) (payload : Claims) :
  decode_and_validate env token key cfg = inr payload ->
  load_payload token = inr payload
  /\ rs256_verify token key = true
  /\ iss payload = Some (expected_issuer cfg)
  /\ (forall e, exp payload = Some e -> (now_decode env < inject_Z e)%Q)
  /\ (forall a, aud payload = Some a ->
        a <> "" /\ client_id cfg = Some a \/ a = "" /\ client_id cfg = None).
Proof.
  unfold decode_and_validate, decode_unverified, decode.
  change ("https://cognito-idp." ++ region cfg ++ ".amazonaws.com/"
            ++ user_pool_id cfg) with (expected_issuer cfg).
  destruct (load_payload token) as [e|p] eqn:Hload;
    [handled_failure|].
  cbn -[validate_times validate_iss validate_aud expected_issuer].
  destruct (rs256_verify token key); [|discriminate].
  cbn -[validate_times validate_iss validate_aud expected_issuer].
  destruct (validate_times p (now_decode env)) as [e|[]] eqn:Ht;
    [handled_failure|].
  cbn -[validate_times validate_iss validate_aud expected_issuer].
  destruct (validate_iss p (expected_issuer cfg)) as [e|[]] eqn:Hi;
    [handled_failure|].
  cbn -[validate_times validate_iss validate_aud expected_issuer].
  assert (Hiss : iss p = Some (expected_issuer cfg)).
  { unfold validate_iss in Hi. destruct (iss p) as [i|]; [|discriminate].
    destruct (String.eqb_spec i (expected_issuer cfg)); [congruence|discriminate]. }
  assert (Hexp : forall e, exp p = Some e -> (now_decode env < inject_Z e)%Q).
  { intros e He. unfold validate_times in Ht. rewrite He in Ht.
    destruct (iat p) as [i|]; [destruct (Qgtb (inject_Z i) (now_decode env));
                                [discriminate|]|];
      (destruct (nbf p) as [n|]; [destruct (Qgtb (inject_Z n) (now_decode env));
                                   [discriminate|]|]);
      simpl in Ht;
      (destruct (Qle_bool (inject_Z e) (now_decode env)) eqn:Hle;
       [discriminate|]);
      apply Qnot_le_lt; intros Hc; apply Qle_bool_iff in Hc; congruence. }
  destruct (aud p) as [a|] eqn:Ha.
  - cbn -[validate_aud expected_issuer].
    destruct (validate_aud p (client_id cfg)) as [e|[]] eqn:Hv;
      [handled_failure|].
    simpl. intros Hp. inversion Hp; subst. repeat split; try assumption.
    intros a' Ha'. rewrite Ha in Ha'. inversion Ha'; subst a'.
    unfold validate_aud in Hv. rewrite Ha in Hv.
    destruct (client_id cfg) as [c|].
    + left. destruct a as [|ch a]; [discriminate|]. split; [discriminate|].
      cbn [is_empty] in Hv.
      destruct (String.eqb_spec (String ch a) c); [congruence|discriminate].
    + right. simpl in Hv. destruct a; [now split|discriminate].
  - simpl. intros Hp. inversion Hp; subst. repeat split; try assumption.
    intros a Ha'. congruence.
Qed.


End TokenPolicy.

Section ScopesAndAge.
Context `{Backend}.

(** X20.  Required scopes are enforced on access tokens: when one of them
    is not among the words of the [scope] claim (split at whitespace; no
    claim, no words), a token that passed the decoding step fails with the
    error of the additional checks. *)
Theorem required_scopes_enforced (env : Env) (token : string)
  (cfg : cognito_config) (required : list string)
  (jwks : value) (key : rsa_key) (payload : Claims) (missing : string) :
  validate_jwt_token_format token = true ->
  fetch_jwks env cfg = inr jwks ->
  resolve_key token jwks = inr key ->
  decode_and_validate env token key cfg = inr payload ->
  token_use payload = Some "access" ->
  In missing required ->
  str_in missing
    (split_whitespace (match scope payload with Some s => s | None => "" end))
  = false ->
  validate_cognito_token env token cfg (Some required)
  = inl security_validation_failed.
Proof.
  intros Hfmt Hjwks Hkey Hdec Huse Hin Hmiss.
  rewrite (validate_after_key env token cfg _ jwks key Hfmt Hjwks Hkey), Hdec.
  cbn [bind].
  assert (Hr : raised (security_checks env payload (Some required)) = true).
  { unfold security_checks. rewrite Huse. cbn [str_in existsb String.eqb
      Ascii.eqb Bool.eqb orb negb bind ret].
    destruct required as [|r rs]; [contradiction|].
    cbn [scopes_required String.eqb Ascii.eqb Bool.eqb].
    destruct (filter _ (r :: rs)) eqn:Hf; [|reflexivity].
    exfalso.
    assert (Hinf : In missing (filter (fun s => negb (str_in s
               (split_whitespace
                  match scope payload with Some s0 => s0 | None => "" end)))
               (r :: rs))).
    { apply filter_In. split; [assumption|]. now rewrite Hmiss. }
    rewrite Hf in Hinf. contradiction. }
  destruct (security_checks env payload (Some required));
    [reflexivity|discriminate].
Qed.

(** X21.  Required scopes matter for access tokens only: for a token whose
    use is not "access" (an id token), and for any token when the list of
    required scopes is empty, the outcome is the one without required
    scopes. *)
Theorem scopes_ignored_unless_access (env : Env) (token : string)
  (cfg : cognito_config) (required : list string) :
  (required = []
   \/ forall payload, load_payload token = inr payload ->
                      token_use payload <> Some "access") ->
  validate_cognito_token env token cfg (Some required)
  = validate_cognito_token env token cfg None.
Proof.
  intros Hcase. unfold validate_cognito_token.
  destruct (validate_jwt_token_format token); [|reflexivity]. cbn [negb].
  destruct (fetch_jwks env cfg) as [e|jwks]; [reflexivity|]. cbn [bind].
  destruct (resolve_key token jwks) as [e|key]; [reflexivity|]. cbn [bind].
  destruct (decode_and_validate env token key cfg) as [e|p] eqn:Hdec;
    [reflexivity|]. cbn [bind].
  assert (Hsame : security_checks env p (Some required)
                  = security_checks env p None).
  { unfold security_checks.
    assert (Hreq : scopes_required (Some required) (token_use p) = false).
    { destruct Hcase as [->|Hnot]; [reflexivity|].
      destruct (decode_and_validate_success _ _ _ _ _ Hdec) as [Hload _].
      specialize (Hnot p Hload).
      unfold scopes_required. destruct required; [reflexivity|].
      destruct (token_use p) as [u|]; [|reflexivity].
      destruct (String.eqb_spec u "access"); [congruence|reflexivity]. }
    rewrite Hreq.
    assert (Hnone : scopes_required None (token_use p) = false) by reflexivity.
    now rewrite Hnone. }
  now rewrite Hsame.
Qed.

(** X22.  A token without [iat] claim counts as issued at time 0: once it
    has passed the decoding step it fails the age check whenever the clock
    reads more than 86400. *)
Theorem token_without_iat_is_too_old (env : Env) (token : string)
  (cfg : cognito_config) (required_scopes : option (list string))
  (jwks : value) (key : rsa_key) (payload : Claims) :
  validate_jwt_token_format token = true ->
  fetch_jwks env cfg = inr jwks ->
  resolve_key token jwks = inr key ->
  decode_and_validate env token key cfg = inr payload ->
  iat payload = None ->
  (inject_Z 86400 < time_time env)%Q ->
  validate_cognito_token env token cfg required_scopes
  = inl security_validation_failed.
Proof.
  intros Hfmt Hjwks Hkey Hdec Hiat Hnow.
  rewrite (validate_after_key env token cfg _ jwks key Hfmt Hjwks Hkey), Hdec.
  cbn [bind].
  assert (Hr : raised (security_checks env payload required_scopes) = true).
  { unfold security_checks. rewrite Hiat.
    assert (Hold : (inject_Z 86400 < time_time env - inject_Z 0)%Q).
    { unfold Qminus. change (- inject_Z 0)%Q with (0%Q).
      now rewrite Qplus_0_r. }
    rewrite (age_check_raises _ _ Hold).
    repeat match goal with
    | |- raised (bind ?m _) = true =>
        let E := fresh in destruct m eqn:E; [reflexivity|simpl]
    end.
    reflexivity. }
  destruct (security_checks env payload required_scopes);
    [reflexivity|discriminate].
Qed.

End ScopesAndAge.

(** ** Splitting and stripping *)

Lemma split_without_sep (sep : ascii) (s : string) :
  string_forall (not_char sep) s = true -> split sep s = [s].
Proof.
  induction s as [|c s IH]; simpl; [reflexivity|].
  intros Hs. apply andb_true_iff in Hs. destruct Hs as [Hc Hs].
  unfold not_char in Hc. apply negb_true_iff in Hc. rewrite Hc.
  now rewrite (IH Hs).
Qed.

Lemma split_first_part (sep : ascii) (a rest : string) :
  string_forall (not_char sep) a = true ->
  split sep (a ++ String sep rest) = a :: split sep rest.
Proof.
  induction a as [|c a IH]; simpl; intros Ha.
  - now rewrite Ascii.eqb_refl.
  - apply andb_true_iff in Ha. destruct Ha as [Hc Ha].
    unfold not_char in Hc. apply negb_true_iff in Hc. rewrite Hc.
    now rewrite (IH Ha).
Qed.

Lemma split_chars (sep : ascii) (s : string) (c : ascii) :
  char_in c s ->
  c = sep \/ exists part, In part (split sep s) /\ char_in c part.
Proof.
  induction s as [|a s IH]; simpl; [contradiction|].
  intros [->|Hin].
  - destruct (Ascii.eqb_spec c sep) as [->|_]; [now left|]. right.
    destruct (split sep s) as [|p ps]; eexists; (split; [now left|now left]).
  - destruct (IH Hin) as [->|[part [Hp Hc]]]; [now left|]. right.
    destruct (Ascii.eqb a sep).
    + exists part. split; [now right|assumption].
    + destruct (split sep s) as [|p ps]; [contradiction|].
      destruct Hp as [->|Hp].
      * exists (String a part). split; [now left|now right].
      * exists part. split; [now right|assumption].
Qed.

Lemma split_length (sep : ascii) (s : string) :
  List.length (split sep s)
  = S (List.length (filter (fun c => Ascii.eqb c sep) (list_ascii_of_string s))).
Proof.
  induction s as [|a s IH]; simpl; [reflexivity|].
  destruct (Ascii.eqb a sep); simpl; [now rewrite IH|].
  destruct (split sep s) as [|p ps]; simpl in *; [discriminate|exact IH].
Qed.

Import Validation.

Lemma class_then_end_chars (s : string) (c : ascii) :
  class_then_end s = true -> char_in c s ->
  is_base64url c = true \/ c = line_feed.
Proof.
  induction s as [|a s IH]; simpl; [contradiction|].
  destruct (is_base64url a) eqn:Ha.
  - intros Hs [->|Hin]; [now left|now apply IH].
  - intros Hs. apply andb_true_iff in Hs. destruct Hs as [Hlf He].
    destruct s; [|discriminate]. intros [->|[]]. right.
    now apply Ascii.eqb_eq in Hlf.
Qed.

Lemma class_then_end_base64url (s : string) :
  string_forall is_base64url s = true ->
  class_then_end s = true /\ class_then_end (s ++ String line_feed "") = true.
Proof.
  induction s as [|a s IH]; simpl; [now split|].
  intros Hs. apply andb_true_iff in Hs. destruct Hs as [Ha Hs].
  rewrite Ha. now apply IH.
Qed.

Lemma base64url_not_dot (s : string) :
  string_forall is_base64url s = true -> string_forall (not_char ".") s = true.
Proof.
  induction s as [|a s IH]; simpl; [reflexivity|].
  intros Hs. apply andb_true_iff in Hs. destruct Hs as [Ha Hs].
  rewrite (IH Hs), andb_true_r. unfold not_char.
  destruct (Ascii.eqb_spec a "."); [subst; discriminate|reflexivity].
Qed.

(** X23.  What the format check lets through.  An accepted token has at
    most 10000 characters, exactly two dots, no empty segment, and nothing
    but characters of the base64url alphabet, dots and line feeds.  Three
    non-empty base64url segments joined by dots are accepted up to that
    length, and so is such a token followed by one line feed, which [$]
    lets pass. *)
Theorem token_format (token : string) :
  (validate_jwt_token_format token = true ->
   (Z.of_nat (String.length token) <= 10000)%Z
   /\ List.length (filter (fun c => Ascii.eqb c ".") (list_ascii_of_string token))
      = 2%nat
   /\ ~ In "" (split "." token)
   /\ forall c, char_in c token ->
        is_base64url c = true \/ c = "."%char \/ c = line_feed)
  /\ (forall a b c,
         a <> "" -> b <> "" -> c <> "" ->
         string_forall is_base64url a = true ->
         string_forall is_base64url b = true ->
         string_forall is_base64url c = true ->
         (token = a ++ "." ++ b ++ "." ++ c
          \/ token = a ++ "." ++ b ++ "." ++ c ++ String line_feed "") ->
         (Z.of_nat (String.length token) <= 10000)%Z ->
         validate_jwt_token_format token = true).
Proof.
  split.
  - unfold validate_jwt_token_format.
    destruct (Nat.eqb_spec (List.length (split "." token)) 3) as [Hlen|];
      [|discriminate].
    destruct (forallb base64url_pattern_match (split "." token)) eqn:Hall;
      [|discriminate].
    destruct (Z.ltb_spec 10000 (Z.of_nat (String.length token))) as [|Hle];
      [discriminate|]. intros _.
    rewrite forallb_forall in Hall. repeat split.
    + exact Hle.
    + rewrite split_length in Hlen. now injection Hlen.
    + intros Hin. specialize (Hall _ Hin). discriminate.
    + intros c Hc. destruct (split_chars "." token c Hc) as [->|[part [Hp Hcp]]];
        [right; now left|].
      specialize (Hall _ Hp). unfold base64url_pattern_match in Hall.
      destruct part as [|a part]; [discriminate|].
      apply andb_true_iff in Hall. destruct Hall as [Ha Hrest].
      destruct Hcp as [->|Hcp]; [now left|].
      destruct (class_then_end_chars part c Hrest Hcp); [now left|right; now right].
  - intros a b c Ha Hb Hc Hsa Hsb Hsc Htok Hlen.
    unfold validate_jwt_token_format.
    assert (Hparts : exists c', split "." token = [a; b; c']
                                /\ base64url_pattern_match c' = true).
    { assert (Hm : forall s, s <> "" -> string_forall is_base64url s = true ->
                     base64url_pattern_match s = true
                     /\ base64url_pattern_match (s ++ String line_feed "") = true).
      { intros s Hs Hss. destruct s as [|x s]; [contradiction|]. simpl in *.
        apply andb_true_iff in Hss. destruct Hss as [Hx Hss]. rewrite Hx.
        exact (class_then_end_base64url s Hss). }
      destruct Htok as [->| ->].
      - exists c. split; [|apply (Hm c Hc Hsc)].
        change (a ++ "." ++ b ++ "." ++ c)
          with (a ++ String "." (b ++ String "." c)).
        rewrite split_first_part by now apply base64url_not_dot.
        rewrite split_first_part by now apply base64url_not_dot.
        rewrite split_without_sep by now apply base64url_not_dot.
        reflexivity.
      - exists (c ++ String line_feed ""). split; [|apply (Hm c Hc Hsc)].
        change (a ++ "." ++ b ++ "." ++ c ++ String line_feed "")
          with (a ++ String "." (b ++ String "." (c ++ String line_feed ""))).
        rewrite split_first_part by now apply base64url_not_dot.
        rewrite split_first_part by now apply base64url_not_dot.
        rewrite split_without_sep; [reflexivity|].
        clear - Hsc. induction c as [|x c IH]; simpl in *; [reflexivity|].
        apply andb_true_iff in Hsc. destruct Hsc as [Hx Hsc].
        rewrite (IH Hsc), andb_true_r. unfold not_char.
        destruct (Ascii.eqb_spec x "."); [subst; discriminate|reflexivity]. }
    destruct Hparts as [c' [Hsplit Hc']]. rewrite Hsplit.
    assert (Hma : base64url_pattern_match a = true).
    { destruct a as [|x a]; [contradiction|]. simpl in *.
      apply andb_true_iff in Hsa. destruct Hsa as [Hx Hsa]. rewrite Hx.
      apply (class_then_end_base64url a Hsa). }
    assert (Hmb : base64url_pattern_match b = true).
    { destruct b as [|x b]; [contradiction|]. simpl in *.
      apply andb_true_iff in Hsb. destruct Hsb as [Hx Hsb]. rewrite Hx.
      apply (class_then_end_base64url b Hsb). }
    cbn [List.length Nat.eqb negb forallb]. rewrite Hma, Hmb, Hc'.
    cbn [andb negb].
    destruct (Z.ltb_spec 10000 (Z.of_nat (String.length token)));
      [exfalso; now apply (Z.lt_irrefl 10000), (Z.lt_le_trans _ _ _ H)|reflexivity].
Qed.

Lemma lstrip_first (s : string) (c : ascii) :
  first_char (lstrip s) = Some c -> isspace c = false.
Proof.
  induction s as [|a s IH]; simpl; [discriminate|].
  destruct (isspace a) eqn:Ha; [exact IH|].
  simpl. intros Hc. now inversion Hc; subst.
Qed.

Lemma rstrip_last (s : string) (c : ascii) :
  last_char (rstrip s) = Some c -> isspace c = false.
Proof.
  induction s as [|a s IH]; simpl; [discriminate|].
  destruct (rstrip s) as [|b r] eqn:Hr.
  - destruct (isspace a) eqn:Ha; simpl; [discriminate|].
    intros Hc. now inversion Hc; subst.
  - intros Hc. apply IH. exact Hc.
Qed.

Lemma rstrip_first (s : string) (c : ascii) :
  first_char s = Some c -> isspace c = false ->
  first_char (rstrip s) = Some c.
Proof.
  destruct s as [|a s]; simpl; [discriminate|].
  intros Hc Hsp. inversion Hc; subst.
  destruct (rstrip s); [now rewrite Hsp|reflexivity].
Qed.

Lemma rstrip_first_inv (s : string) (c : ascii) :
  first_char (rstrip s) = Some c -> first_char s = Some c.
Proof.
  destruct s as [|a s]; simpl; [discriminate|].
  destruct (rstrip s); [destruct (isspace a); [discriminate|]|]; auto.
Qed.

(** [strip] leaves no whitespace at either end. *)
Lemma strip_ends (s : string) (c : ascii) :
  first_char (strip s) = Some c \/ last_char (strip s) = Some c ->
  isspace c = false.
Proof.
  unfold strip. intros [Hf|Hl].
  - apply rstrip_first_inv in Hf. exact (lstrip_first s c Hf).
  - exact (rstrip_last _ c Hl).
Qed.

(** X24.  Of an X-Forwarded-For header only the text before the first comma
    is used: whatever follows the comma, the key is that text with the
    whitespace at its ends removed, so a key taken from this header neither
    starts nor ends with whitespace. *)
Theorem forwarded_for_first_entry (request : Request) (first rest : string) :
  headers_get "x-forwarded-for" (req_headers request)
  = Some (first ++ "," ++ rest) ->
  string_forall (not_char ",") first = true ->
  RateLimiting.get_real_client_ip request = strip first
  /\ forall c,
       first_char (RateLimiting.get_real_client_ip request) = Some c
       \/ last_char (RateLimiting.get_real_client_ip request) = Some c ->
       isspace c = false.
Proof.
  intros Hff Hfirst.
  assert (Hkey : RateLimiting.get_real_client_ip request = strip first).
  { unfold RateLimiting.get_real_client_ip, RateLimiting.if_truthy. rewrite Hff.
    assert (Hne : is_empty (first ++ "," ++ rest) = false) by now destruct first.
    rewrite Hne.
    change (first ++ "," ++ rest) with (first ++ String "," rest).
    now rewrite split_first_part. }
  split; [exact Hkey|]. rewrite Hkey. apply strip_ends.
Qed.

(** ** The configuration *)

Lemma prefix_append (p s : string) : String.prefix p (p ++ s) = true.
Proof.
  apply String.prefix_correct. induction p as [|c p IH]; simpl.
  - now destruct s.
  - now rewrite IH.
Qed.

Lemma str_contains_prefix (p s : string) : str_contains p (p ++ s) = true.
Proof.
  unfold str_contains. pose proof (prefix_append p s) as Hp.
  destruct (p ++ s) as [|c t] eqn:Hps.
  - destruct p; [reflexivity|discriminate].
  - cbn [String.index]. now rewrite Hp.
Qed.

Lemma str_contains_append (p a s : string) :
  str_contains p s = true -> str_contains p (a ++ s) = true.
Proof.
  unfold str_contains. induction a as [|c a IH]; [auto|].
  intros Hs. specialize (IH Hs).
  change (String c a ++ s) with (String c (a ++ s)). cbn [String.index].
  destruct (String.prefix p (String c (a ++ s))); [reflexivity|].
  now destruct (String.index 0 p (a ++ s)).
Qed.

Lemma append_assoc (a b c : string) : (a ++ b) ++ c = a ++ b ++ c.
Proof. induction a as [|x a IH]; simpl; [reflexivity|now rewrite IH]. Qed.

Import Settings.

Lemma getenv_truthy_value (env : environ) (var : string) :
  getenv_truthy env var = true -> exists v, env var = Some v /\ v <> "".
Proof.
  unfold getenv_truthy. destruct (env var) as [v|]; [|discriminate].
  intros Hv. exists v. split; [reflexivity|]. intros ->. discriminate.
Qed.

(** X25.  The configuration is only built when the user pool id, the client
    id and the region are set to values that are not empty; otherwise
    [get_cognito_config] raises a [ValueError].  In a configuration that is
    built the key-set URL is the expected issuer followed by
    "/.well-known/jwks.json", and it passes the test the verifier applies
    before it fetches the keys. *)
Theorem cognito_config_from_environment (env : environ) :
  (raised (get_cognito_config env) = true
   <-> exists var, In var required_vars /\ getenv_truthy env var = false)
  /\ forall c,
       get_cognito_config env = inr c ->
       (exists pool, user_pool_id c = Some pool /\ pool <> "")
       /\ (exists cid, client_id c = Some cid /\ cid <> "")
       /\ region c <> ""
       /\ jwks_url c = expected_issuer (verifier_config c) ++ "/.well-known/jwks.json"
       /\ startswith (jwks_url c) "https://cognito-idp."
          && str_contains ".amazonaws.com" (jwks_url c) = true.
Proof.
  unfold get_cognito_config.
  destruct (filter (fun var => negb (getenv_truthy env var)) required_vars)
    as [|m ms] eqn:Hf.
  - apply filter_nil_forallb in Hf. rewrite forallb_forall in Hf. split.
    + split; [discriminate|]. intros [var [Hin Hfalse]].
      rewrite (Hf var Hin) in Hfalse. discriminate.
    + intros c Hc. injection Hc as <-. cbn [user_pool_id client_id region jwks_url].
      destruct (getenv_truthy_value env "COGNITO_USER_POOL_ID") as [pool [Hp Hpne]].
      { apply Hf. simpl. tauto. }
      destruct (getenv_truthy_value env "COGNITO_CLIENT_ID") as [cid [Hc Hcne]].
      { apply Hf. simpl. tauto. }
      destruct (getenv_truthy_value env "COGNITO_REGION") as [reg [Hr Hrne]].
      { apply Hf. simpl. tauto. }
      unfold getenv_default. rewrite Hp, Hc, Hr.
      split; [|split; [|split; [|split]]].
      * now exists pool.
      * now exists cid.
      * exact Hrne.
      * unfold expected_issuer, verifier_config. cbn [Cognito.region
          Cognito.user_pool_id region user_pool_id format_optional].
        change ("https://cognito-idp." ++ reg ++ ".amazonaws.com/" ++ pool
                  ++ "/.well-known/jwks.json")
          with ("https://cognito-idp." ++ (reg ++ (".amazonaws.com/" ++
                  (pool ++ "/.well-known/jwks.json")))).
        change (("https://cognito-idp." ++ reg ++ ".amazonaws.com/" ++ pool)
                  ++ "/.well-known/jwks.json")
          with (("https://cognito-idp." ++ (reg ++ (".amazonaws.com/" ++ pool)))
                  ++ "/.well-known/jwks.json").
        now rewrite !append_assoc.
      * apply andb_true_iff. split.
        -- unfold startswith. exact (prefix_append "https://cognito-idp." _).
        -- cbn [format_optional].
           change ("https://cognito-idp." ++ reg ++ ".amazonaws.com/" ++ pool
                     ++ "/.well-known/jwks.json")
             with ("https://cognito-idp." ++ (reg ++ (".amazonaws.com" ++
                     ("/" ++ pool ++ "/.well-known/jwks.json")))).
           apply (str_contains_append _ "https://cognito-idp.").
           apply (str_contains_append _ reg).
           exact (str_contains_prefix ".amazonaws.com" _).
  - split; [|discriminate]. split; [|reflexivity]. intros _.
    assert (Hin : In m (filter (fun var => negb (getenv_truthy env var))
                          required_vars)) by (rewrite Hf; now left).
    apply filter_In in Hin. destruct Hin as [Hin Hneg].
    exists m. split; [assumption|]. now apply negb_true_iff.
Qed.

(** X26.  The origins [get_cors_config] allows: there is always at least
    one; each starts with "https://" or with "http://localhost" (a wildcard
    is never allowed); and when ENVIRONMENT is set to anything but
    "development" each one starts with "https://". *)
Theorem cors_origins (env : environ) :
  let origins := allow_origins (get_cors_config env) in
  origins <> []
  /\ (forall o, In o origins ->
        startswith o "https://" = true \/ startswith o "http://localhost" = true)
  /\ ~ In "*" origins
  /\ (forall e, env "ENVIRONMENT" = Some e -> e <> "development" ->
        forall o, In o origins -> startswith o "https://" = true).
Proof.
  unfold get_cors_config. cbn [allow_origins].
  set (configured := filter (origin_is_valid env)
                       (map strip (split "," (getenv_default env
                                                 "CORS_ALLOWED_ORIGINS" "")))).
  set (defaults := ["https://claude.ai"; "https://julius.ai";
                    "https://api.julius.ai"; "https://app.julius.ai"]).
  set (localhosts := ["http://localhost:6274"; "http://localhost:3000";
                      "http://localhost:8000"; "http://localhost:8080"]).
  set (chosen := match configured with [] => defaults | _ => configured end).
  assert (Hconf : forall o, In o configured ->
             startswith o "https://" = true
             \/ o = "http://localhost" /\ env "ENVIRONMENT" = Some "development").
  { intros o Hin. apply filter_In in Hin. destruct Hin as [_ Hv].
    unfold origin_is_valid in Hv. apply andb_true_iff in Hv. destruct Hv as [_ Hv].
    apply orb_true_iff in Hv. destruct Hv as [Hv|Hv]; [now left|right].
    apply andb_true_iff in Hv. destruct Hv as [Ho He].
    apply String.eqb_eq in Ho. split; [assumption|].
    destruct (env "ENVIRONMENT") as [e|]; [|discriminate].
    apply String.eqb_eq in He. now subst. }
  assert (Hchosen : forall o, In o chosen ->
             startswith o "https://" = true
             \/ o = "http://localhost" /\ env "ENVIRONMENT" = Some "development").
  { intros o Hin. subst chosen. destruct configured as [|x xs] eqn:Hc.
    - left. simpl in Hin.
      repeat (destruct Hin as [<-|Hin]; [reflexivity|]). contradiction.
    - now apply Hconf. }
  assert (Hne : chosen <> []).
  { subst chosen. destruct configured; discriminate. }
  assert (Hlocal : forall o, In o localhosts ->
             startswith o "http://localhost" = true).
  { intros o Hin. simpl in Hin.
    repeat (destruct Hin as [<-|Hin]; [reflexivity|]). contradiction. }
  assert (Hall : forall o,
             In o (if String.eqb (getenv_default env "ENVIRONMENT" "development")
                        "development"
                   then (chosen ++ localhosts)%list else chosen) ->
             startswith o "https://" = true
             \/ startswith o "http://localhost" = true).
  { intros o Hin.
    destruct (String.eqb _ "development").
    - apply in_app_or in Hin. destruct Hin as [Hin|Hin]; [|right; now apply Hlocal].
      destruct (Hchosen o Hin) as [?|[-> _]]; [now left|now right].
    - destruct (Hchosen o Hin) as [?|[-> _]]; [now left|now right]. }
  split; [|split; [|split]].
  - destruct (String.eqb _ "development"); [|assumption].
    destruct chosen; [contradiction|discriminate].
  - exact Hall.
  - intros Hstar. destruct (Hall "*" Hstar); discriminate.
  - intros e He Hnd o Hin. unfold getenv_default in Hin. rewrite He in Hin.
    destruct (String.eqb_spec e "development"); [contradiction|].
    destruct (Hchosen o Hin) as [?|[_ Hdev]]; [assumption|].
    rewrite He in Hdev. congruence.
Qed.

(** ** The detected client *)

Import ClientTypes.

Lemma lower_substring (n m : nat) (s : string) :
  lower (String.substring n m s) = String.substring n m (lower s).
Proof.
  revert n m. induction s as [|c s IH]; intros n m; simpl.
  - now destruct n, m.
  - destruct n; [destruct m|]; simpl; [reflexivity|now rewrite IH|apply IH].
Qed.

Lemma headers_get_lower_values (name : string) (h : headers) :
  headers_get name (map (fun kv => (fst kv, lower (snd kv))) h)
  = option_map lower (headers_get name h).
Proof.
  induction h as [|[k v] h IH]; simpl; [reflexivity|].
  now destruct (String.eqb k name).
Qed.

Lemma clean_header_lower_values (request : Request) (name : string) :
  clean_header (with_lower_header_values request) name
  = clean_header request name.
Proof.
  unfold clean_header, with_lower_header_values. cbn [req_headers].
  rewrite headers_get_lower_values.
  destruct (headers_get name (req_headers request)) as [v|]; simpl;
    [|reflexivity].
  now rewrite !lower_substring, lower_lower.
Qed.

(** X27.  [detect_client_securely] answers "julius", "claude" or "unknown",
    each a valid client type.  It answers "julius" exactly when one of the
    three cleaned headers contains one of the julius patterns, whatever
    else the headers contain; "claude" when none does and one contains
    "claude.ai" or "anthropic".  The answer does not depend on the case of
    the header values: the request with its header values in lower case is
    detected as the same client. *)
Theorem detected_client_type (request : Request) :
  let cleaned := [clean_header request "user-agent";
                  clean_header request "referer";
                  clean_header request "origin"] in
  let hit patterns :=
    existsb (fun pattern => existsb (str_contains pattern) cleaned) patterns in
  let client := detect_client_securely request in
  validate_client_type client = true
  /\ client = (if hit ["julius.ai"; "api.julius.ai"; "app.julius.ai"] then "julius"
               else if hit ["claude.ai"; "anthropic"] then "claude"
               else "unknown")
  /\ detect_client_securely (with_lower_header_values request) = client.
Proof.
  cbv zeta. split; [|split].
  3: { unfold detect_client_securely.
       now rewrite !clean_header_lower_values. }
  all: unfold detect_client_securely, client_patterns; cbn [find snd];
    set (j := existsb _ ["julius.ai"; "api.julius.ai"; "app.julius.ai"]);
    set (c := existsb _ ["claude.ai"; "anthropic"]);
    change (existsb
              (fun pattern =>
                 existsb (str_contains pattern)
                   [clean_header request "user-agent";
                    clean_header request "referer";
                    clean_header request "origin"])
              ["julius.ai"; "api.julius.ai"; "app.julius.ai"]) with j;
    change (existsb
              (fun pattern =>
                 existsb (str_contains pattern)
                   [clean_header request "user-agent";
                    clean_header request "referer";
                    clean_header request "origin"])
              ["claude.ai"; "anthropic"]) with c;
    destruct j, c; reflexivity.
Qed.

(** ** The authenticated user *)

Import Auth.

Section AuthProperties.
Context `{Backend}.

(** X28.  How authentication fails.  Without credentials the answer is 401
    with a [WWW-Authenticate] challenge that points to the protected
    resource metadata.  With a token that the verifier refuses, and a
    library that raises token errors when it cannot read a payload, the
    answer is 401 as well, and its detail is one of two fixed messages with
    the error id: "Token has expired" for an expired token, "Invalid
    authentication token" for every other failure; the text of the
    exception is not part of it. *)
Theorem authentication_failures (env : Env) (cfg : cognito_config)
  (token_hex : string) (base_url : option string) :
  get_current_user env cfg token_hex None base_url
  = inl {| exc_status_code := 401;
           detail := VStr "Authorization header required";
           exc_headers :=
             [("WWW-Authenticate",
               challenge (match base_url with
                          | Some u => u
                          | None => "https://localhost:8000"
                          end))] |}
  /\ forall token x,
       validate_cognito_token env token cfg None = inl x ->
       (forall y, load_payload token = inl y ->
                  is_InvalidTokenError (exn_cls y) = true) ->
       get_current_user env cfg token_hex (Some token) base_url
       = inl {| exc_status_code := 401;
                detail :=
                  token_error_detail
                    (if is_ExpiredSignatureError (exn_cls x)
                     then "Token has expired"
                     else "Invalid authentication token") token_hex;
                exc_headers := [] |}.
Proof.
  split; [reflexivity|].
  intros token x Hx Hlib. unfold get_current_user. rewrite Hx.
  destruct (validate_cognito_token_error_classes env token cfg None x Hx)
    as [Hc|[Hc|[Hnot Hload]]].
  - unfold create_http_exception, get_safe_error_message. now rewrite !Hc.
  - unfold create_http_exception, get_safe_error_message. now rewrite !Hc.
  - rewrite (Hlib x Hload) in Hnot. discriminate.
Qed.

End AuthProperties.

(** ** Dynamic client registration *)

Import OAuth.

Lemma refine_client_type_julius (uri : string) (rest : list value)
  (client_type : string) :
  str_contains "julius" (lower uri) = true ->
  refine_client_type (VStr uri :: rest) client_type = ret "julius".
Proof. intros Hj. cbn [refine_client_type]. now rewrite Hj. Qed.

Lemma refine_client_type_claude (uri : string) (rest : list value)
  (client_type : string) :
  str_contains "julius" (lower uri) = false ->
  str_contains "claude" (lower uri) = true ->
  refine_client_type (VStr uri :: rest) client_type = ret "claude".
Proof. intros Hj Hc. cbn [refine_client_type]. now rewrite Hj, Hc. Qed.

Lemma client_config_for_three (client_type : string) (c j d : ClientConfig) :
  client_config_for client_type [("claude", c); ("julius", j); ("default", d)]
  = ret (if String.eqb "claude" client_type then c
         else if String.eqb "julius" client_type then j
         else d).
Proof.
  unfold client_config_for, configs_get. cbn [find fst].
  change (String.eqb "claude" "default") with false.
  change (String.eqb "julius" "default") with false.
  change (String.eqb "default" "default") with true.
  cbv iota. cbn [option_map snd].
  destruct (String.eqb "claude" client_type); [reflexivity|].
  destruct (String.eqb "julius" client_type); [reflexivity|].
  now destruct (String.eqb "default" client_type).
Qed.

(** X29.  Dynamic client registration never registers what the request
    asks for.  A registration that succeeds answers one of the three fixed
    lists of redirect URIs, one of the three configured client ids, and the
    client secret of the configuration.  The requested redirect URIs only
    choose among them: when the first one names julius, the julius entry is
    answered whatever the headers and the other URIs are.  A body that is
    not JSON is treated as no body; a JSON body that is not an object is
    refused with status 400. *)
Theorem registration_response (env : environ) (request : Request) :
  (forall body info,
      dynamic_client_registration env request body = inr info ->
      exists cfg,
        get_cognito_config env = inr cfg
        /\ In (dict_get "redirect_uris" info)
             [Some (VList [VStr "https://claude.ai/api/mcp/auth_callback"]);
              Some (VList [VStr "https://julius.ai/api/mcp/auth_callback";
                           VStr "https://api.julius.ai/mcp/auth_callback";
                           VStr "https://app.julius.ai/api/mcp/auth_callback"]);
              Some (VList [VStr "https://claude.ai/api/mcp/auth_callback";
                           VStr "https://julius.ai/api/mcp/auth_callback";
                           VStr "https://api.julius.ai/mcp/auth_callback";
                           VStr "https://app.julius.ai/api/mcp/auth_callback"])]
        /\ (exists cid,
              dict_get "client_id" info = Some (optional_str cid)
              /\ In cid [env "CLAUDE_CLIENT_ID"; env "JULIUS_CLIENT_ID";
                         Settings.client_id cfg])
        /\ dict_get "client_secret" info
           = Some (VStr (Settings.client_secret cfg)))
  /\ (forall request_data uri rest cfg,
         dict_get "redirect_uris" request_data = Some (VList (VStr uri :: rest)) ->
         str_contains "julius" (lower uri) = true ->
         get_cognito_config env = inr cfg ->
         exists info,
           dynamic_client_registration env request (Json (VDict request_data))
           = inr info
           /\ dict_get "redirect_uris" info
              = Some (VList [VStr "https://julius.ai/api/mcp/auth_callback";
                             VStr "https://api.julius.ai/mcp/auth_callback";
                             VStr "https://app.julius.ai/api/mcp/auth_callback"])
           /\ dict_get "client_id" info
              = Some (optional_str (match env "JULIUS_CLIENT_ID" with
                                    | Some v => Some v
                                    | None => Settings.client_id cfg
                                    end)))
  /\ dynamic_client_registration env request InvalidJson
     = dynamic_client_registration env request NoBody
  /\ (forall v,
         (forall request_data, v <> VDict request_data) ->
         dynamic_client_registration env request (Json v)
         = inl {| exc_status_code := 400;
                  detail := VStr "Invalid client registration request";
                  exc_headers := [] |}).
Proof.
  split; [|split; [|split]].
  - intros body info. unfold dynamic_client_registration.
    destruct (client_type_of request body) as [e|client_type];
      [discriminate|].
    cbn [bind]. unfold get_client_configs.
    destruct (get_cognito_config env) as [e|cfg]; [discriminate|].
    cbn [bind ret]. rewrite client_config_for_three.
    destruct (String.eqb "claude" client_type);
      [|destruct (String.eqb "julius" client_type)];
      cbn [bind ret redirect_uris config_client_id];
      intros Hinfo; injection Hinfo as <-; exists cfg;
      (split; [reflexivity|]);
      (split; [cbn; auto|]);
      (split; [|reflexivity]).
    + exists (match env "CLAUDE_CLIENT_ID" with
              | Some v => Some v
              | None => Settings.client_id cfg
              end).
      split; [reflexivity|].
      destruct (env "CLAUDE_CLIENT_ID"); cbn; auto.
    + exists (match env "JULIUS_CLIENT_ID" with
              | Some v => Some v
              | None => Settings.client_id cfg
              end).
      split; [reflexivity|].
      destruct (env "JULIUS_CLIENT_ID"); cbn; auto.
    + exists (Settings.client_id cfg). split; [reflexivity|]. cbn; auto.
  - intros request_data uri rest cfg Huris Hj Hcfg.
    unfold dynamic_client_registration, client_type_of, dict_get_default.
    rewrite Huris. cbn [truthy iterate bind ret negb].
    change (truthy (VList (VStr uri :: rest))) with true. cbv iota.
    cbn [bind ret iterate].
    rewrite (refine_client_type_julius uri rest _ Hj).
    unfold get_client_configs. rewrite Hcfg. cbn [bind ret].
    rewrite client_config_for_three.
    change (String.eqb "claude" "julius") with false.
    change (String.eqb "julius" "julius") with true.
    cbn [bind ret redirect_uris config_client_id].
    eexists. split; [reflexivity|]. split; reflexivity.
  - reflexivity.
  - intros v Hv. unfold dynamic_client_registration, client_type_of.
    destruct v as [| | | | | |d]; try reflexivity.
    exfalso. exact (Hv d eq_refl).
Qed.

(** ** The contexts *)

Import Contexts.

Lemma dict_get_set (k k' : string) (v : value) (d : dict) :
  dict_get k (dict_set k' v d)
  = if String.eqb k' k then Some v else dict_get k d.
Proof.
  induction d as [|[a w] d IH]; cbn [dict_set dict_get].
  - now destruct (String.eqb k' k).
  - destruct (String.eqb_spec a k') as [->|Hak]; cbn [dict_get].
    + now destruct (String.eqb k' k).
    + rewrite IH. destruct (String.eqb_spec a k) as [->|_]; [|reflexivity].
      destruct (String.eqb_spec k' k) as [->|_]; [contradiction|reflexivity].
Qed.

Lemma dict_get_not_in (k : string) (d : dict) :
  ~ In k (map fst d) -> dict_get k d = None.
Proof.
  induction d as [|[a w] d IH]; cbn [dict_get map fst In]; [reflexivity|].
  intros Hk. destruct (String.eqb_spec a k) as [->|_].
  - exfalso. apply Hk. now left.
  - apply IH. intros Hin. apply Hk. now right.
Qed.

(** In [{..., **context_data}] an item of [context_data] wins over the
    entry set before it. *)
Lemma unpack_over_get (k : string) (context_data base : dict) :
  NoDup (map fst context_data) ->
  dict_get k (unpack_over base context_data)
  = match dict_get k context_data with
    | Some v => Some v
    | None => dict_get k base
    end.
Proof.
  unfold unpack_over. revert base.
  induction context_data as [|[a w] rest IH]; intros base Hnd;
    cbn [fold_left fst snd dict_get]; [reflexivity|].
  inversion Hnd as [|? ? Hfresh Hrest]; subst.
  rewrite (IH _ Hrest), dict_get_set.
  destruct (String.eqb_spec a k) as [->|_]; [|reflexivity].
  now rewrite (dict_get_not_in _ _ Hfresh).
Qed.

Lemma db_set_values (context_id : string) (ctx : dict) (db : contexts_db) :
  In ctx (map snd (db_set context_id ctx db)).
Proof.
  induction db as [|[k c] db IH]; cbn [db_set map snd In]; [now left|].
  destruct (String.eqb k context_id); cbn [map snd In]; [now left|now right].
Qed.

Lemma db_set_fresh (context_id : string) (ctx : dict) (db : contexts_db) :
  ~ In context_id (map fst db) ->
  db_set context_id ctx db = (db ++ [(context_id, ctx)])%list.
Proof.
  induction db as [|[k c] db IH]; cbn [db_set map fst In]; intros Hk;
    [reflexivity|].
  destruct (String.eqb_spec k context_id) as [->|_].
  - exfalso. apply Hk. now left.
  - cbn [app]. rewrite IH; [reflexivity|]. intros Hin. apply Hk. now right.
Qed.

(** X30.  Who a context belongs to.  The context [create_context] stores
    carries as [user_id] the one its body gives, when the body has that
    member, and the subject of the authenticated user only otherwise.
    [get_contexts] lists it to exactly the users whose subject equals that
    stored [user_id]: a context created with the subject of another user in
    its body is listed to that user and not to its creator.  With an
    identifier that is new to the store, every listing is as before, with
    the new context at its end for those it is listed to. *)
Theorem context_owner_from_body (uuid : string)
  (context_data user viewer : dict) (db : contexts_db) :
  NoDup (map fst context_data) ->
  let created := snd (create_context uuid context_data user db) in
  let db' := fst (create_context uuid context_data user db) in
  let owner :=
    match dict_get "user_id" context_data with
    | Some v => v
    | None => user_id_of user
    end in
  dict_get "user_id" created = Some owner
  /\ (In created (get_contexts viewer db')
      <-> py_eq owner (user_id_of viewer) = true)
  /\ (~ In uuid (map fst db) ->
      get_contexts viewer db'
      = (get_contexts viewer db
         ++ (if py_eq owner (user_id_of viewer) then [created] else []))%list).
Proof.
  intros Hnd. cbv zeta. unfold create_context. cbn [fst snd].
  set (created := unpack_over _ context_data).
  assert (Howner : dict_get "user_id" created
                   = Some (match dict_get "user_id" context_data with
                           | Some v => v
                           | None => user_id_of user
                           end)).
  { unfold created. rewrite (unpack_over_get _ _ _ Hnd).
    now destruct (dict_get "user_id" context_data). }
  assert (Htest : py_eq (dict_get_default "user_id" VNone created)
                    (user_id_of viewer)
                  = py_eq (match dict_get "user_id" context_data with
                           | Some v => v
                           | None => user_id_of user
                           end) (user_id_of viewer)).
  { unfold dict_get_default. now rewrite Howner. }
  split; [exact Howner|]. split.
  - unfold get_contexts. rewrite filter_In, Htest. split.
    + now intros [_ Heq].
    + intros Heq. split; [apply db_set_values|exact Heq].
  - intros Hfresh. unfold get_contexts.
    rewrite (db_set_fresh _ _ _ Hfresh), map_app, filter_app.
    cbn [map snd filter]. now rewrite Htest.
Qed.

(* ================================================================= *)
(** * Further examples *)

Section FurtherExamples.
#[local] Existing Instance plain_text.


(** The echo tool called with null for its arguments. *)
Lemma non_object_arguments_rejected_witness :
  isError (safe_execute EchoTool VNone None) = true.
Proof.
  refine (proj1 (non_object_arguments_rejected EchoTool VNone None _)).
  intros d Hd. discriminate Hd.
Defined.



(** The default registry without the echo tool. *)
Lemma unregister_tool_removes_witness :
  snd (unregister_tool "echo" default_registry) = true
  /\ tool_exists (fst (unregister_tool "echo" default_registry)) "echo" = false
  /\ tool_exists (fst (unregister_tool "echo" default_registry)) "add" = true.
Proof.
  assert (Hwf : well_formed default_registry).
  { split; repeat constructor; cbn; intuition discriminate. }
  generalize (unregister_tool_removes default_registry "echo" VNone None Hwf).
  destruct (unregister_tool "echo" default_registry) as [tools' found] eqn:Hun.
  intros (Hfound & Hgone & _). cbn [fst snd].
  split; [rewrite Hfound; reflexivity|]. split; [exact Hgone|].
  injection Hun as <- _. reflexivity.
Defined.

(** [resources/read], which the handler does not serve. *)
Lemma unknown_method_not_found_witness :
  member "error"
    (body (mcp_handler default_registry "0123456789abcdef"
             (sample_request "POST") unserved_request sample_user))
  = Some (error_object (-32601) "Method not found: resources/read").
Proof.
  refine (proj1 (proj2 (unknown_method_not_found default_registry
                          "0123456789abcdef" (sample_request "POST")
                          unserved_request sample_user _))).
  cbn. intuition discriminate.
Defined.

(** A [tools/call] without [params]. *)
Lemma internal_error_is_opaque_witness :
  status_code (mcp_handler default_registry "0123456789abcdef"
                 (sample_request "POST") call_without_params sample_user)
  = 500.
Proof.
  exact (proj1 (internal_error_is_opaque default_registry "0123456789abcdef"
                  (sample_request "POST") call_without_params sample_user
                  eq_refl I)).
Defined.

(** A call of the echo tool. *)
Lemma tool_result_envelope_witness :
  member "result"
    (body (mcp_handler default_registry "0123456789abcdef"
             (sample_request "POST") call_echo_tool sample_user))
  = Some (VDict [("content",
                  VList [VDict [("type", VStr "text");
                                ("text", VStr "Echo: hello")]])]).
Proof.
  rewrite (tool_result_envelope default_registry "0123456789abcdef"
             (sample_request "POST") call_echo_tool sample_user
             [("name", VStr "echo");
              ("arguments", VDict [("message", VStr "hello")])]
             "echo" EchoTool eq_refl eq_refl eq_refl eq_refl).
  reflexivity.
Defined.

End FurtherExamples.

Section FurtherTokenExamples.
#[local] Existing Instance sample_backend.

(** A key-set URL outside Cognito is never fetched. *)
Lemma jwks_fetch_failures_witness :
  validate_cognito_token sample_env fresh_access_token
    untrusted_cognito_config None
  = raise InvalidTokenError "JWKS validation failed".
Proof.
  exact (proj1 (jwks_fetch_failures sample_env fresh_access_token
                  untrusted_cognito_config None eq_refl) eq_refl).
Defined.

(** The key [key-1] of the token is not in the key set. *)
Lemma unknown_signing_key_witness :
  validate_cognito_token env_without_signing_key fresh_access_token
    sample_cognito_config None
  = raise InvalidTokenError "Key resolution failed".
Proof.
  refine (unknown_signing_key env_without_signing_key fresh_access_token
            sample_cognito_config None
            [("keys", VList [VDict [("kid", VStr "key-0"); ("kty", VStr "RSA")]])]
            [VDict [("kid", VStr "key-0"); ("kty", VStr "RSA")]]
            (Some "key-1") eq_refl eq_refl eq_refl eq_refl _).
  right. constructor; [|constructor].
  exists [("kid", VStr "key-0"); ("kty", VStr "RSA")]. split; reflexivity.
Defined.

(** The fresh token, three hours later. *)
Lemma expired_token_distinguished_witness :
  validate_cognito_token env_after_expiry fresh_access_token
    sample_cognito_config None
  = raise ExpiredSignatureError "Signature has expired".
Proof.
  refine (expired_token_distinguished env_after_expiry fresh_access_token
            sample_cognito_config None
            (VDict [("keys", VList [VDict [("kid", VStr "key-0"); ("kty", VStr "RSA")];
                                    VDict [("kid", VStr "key-1"); ("kty", VStr "RSA")]])])
            "key-1"
            (sample_claims None "access" (Some "user-1") 1999999940 2000003540)
            2000003540 eq_refl eq_refl eq_refl eq_refl eq_refl _ _ eq_refl _).
  - intros i Hi. injection Hi as <-. intros Hgt. cbv in Hgt. discriminate Hgt.
  - intros n Hn. discriminate Hn.
  - intros Hgt. cbv in Hgt. discriminate Hgt.
Defined.

(** The old token fails with an [InvalidTokenError]. *)
Lemma verification_error_classes_witness :
  exn_cls security_validation_failed = InvalidTokenError
  \/ exn_cls security_validation_failed = ExpiredSignatureError
  \/ (is_InvalidTokenError (exn_cls security_validation_failed) = false
      /\ load_payload old_access_token = inl security_validation_failed).
Proof.
  exact (verification_error_classes sample_env old_access_token
           sample_cognito_config None security_validation_failed eq_refl).
Defined.


(** The fresh access token has the scopes [openid] and [email], not
    [admin]. *)
Lemma required_scopes_enforced_witness :
  validate_cognito_token sample_env fresh_access_token sample_cognito_config
    (Some ["openid"; "admin"])
  = inl security_validation_failed.
Proof.
  refine (required_scopes_enforced sample_env fresh_access_token
            sample_cognito_config ["openid"; "admin"]
            (VDict [("keys", VList [VDict [("kid", VStr "key-0"); ("kty", VStr "RSA")];
                                    VDict [("kid", VStr "key-1"); ("kty", VStr "RSA")]])])
            "key-1"
            (sample_claims None "access" (Some "user-1") 1999999940 2000003540)
            "admin" eq_refl eq_refl eq_refl eq_refl eq_refl _ eq_refl).
  right. left. reflexivity.
Defined.

(** The id token of the examples, with and without a required scope. *)
Lemma scopes_ignored_unless_access_witness :
  validate_cognito_token sample_env foreign_id_token sample_cognito_config
    (Some ["admin"])
  = validate_cognito_token sample_env foreign_id_token sample_cognito_config None.
Proof.
  refine (scopes_ignored_unless_access sample_env foreign_id_token
            sample_cognito_config ["admin"] _).
  right. intros payload Hload. injection Hload as <-.
  intros Huse. discriminate Huse.
Defined.

End FurtherTokenExamples.

(** A token without [iat], when the clock reads 2000000000. *)
Lemma token_without_iat_is_too_old_witness :
  validate_cognito_token (H := backend_without_iat) sample_env
    fresh_access_token sample_cognito_config None
  = inl security_validation_failed.
Proof.
  refine (token_without_iat_is_too_old (H := backend_without_iat) sample_env
            fresh_access_token sample_cognito_config None
            (VDict [("keys", VList [VDict [("kid", VStr "key-0"); ("kty", VStr "RSA")];
                                    VDict [("kid", VStr "key-1"); ("kty", VStr "RSA")]])])
            "key-1" claims_without_iat
            eq_refl eq_refl eq_refl eq_refl eq_refl _).
  reflexivity.
Defined.

(** The request that went through two proxies. *)
Lemma forwarded_for_first_entry_witness :
  RateLimiting.get_real_client_ip request_two_proxies = "203.0.113.9".
Proof.
  exact (proj1 (forwarded_for_first_entry request_two_proxies
                  " 203.0.113.9 " " 10.0.0.2" eq_refl eq_refl)).
Defined.

(** A context created by user-1 with the subject of user-2 in its body is
    listed to user-2. *)
Lemma context_owner_from_body_witness :
  let created :=
    snd (create_context "3f2c" context_for_another_user sample_user []) in
  let db' :=
    fst (create_context "3f2c" context_for_another_user sample_user []) in
  dict_get "user_id" created = Some (VStr "user-2")
  /\ get_contexts another_user db' = [created]
  /\ get_contexts sample_user db' = [].
Proof.
  assert (Hnd : NoDup (map fst context_for_another_user)).
  { repeat constructor; cbn; intuition discriminate. }
  cbv zeta. split; [|split].
  - exact (proj1 (context_owner_from_body "3f2c" context_for_another_user
                    sample_user another_user [] Hnd)).
  - refine (proj2 (proj2 (context_owner_from_body "3f2c"
                            context_for_another_user sample_user another_user
                            [] Hnd)) _).
    intros [].
  - refine (proj2 (proj2 (context_owner_from_body "3f2c"
                            context_for_another_user sample_user sample_user
                            [] Hnd)) _).
    intros [].
Defined.

(** A token of three segments followed by a line feed passes the format
    check. *)
Lemma token_format_witness :
  validate_jwt_token_format ("aaa.bbb.ccc" ++ String line_feed "") = true.
Proof.
  refine (proj2 (token_format ("aaa.bbb.ccc" ++ String line_feed ""))
            "aaa" "bbb" "ccc" _ _ _ eq_refl eq_refl eq_refl
            (or_intror eq_refl) _).
  - discriminate.
  - discriminate.
  - discriminate.
  - intros Hgt. cbv in Hgt. discriminate Hgt.
Defined.

(** Without any variable set there is no configuration. *)
Lemma cognito_config_from_environment_witness :
  raised (Settings.get_cognito_config (fun _ => None)) = true.
Proof.
  apply (proj2 (proj1 (cognito_config_from_environment (fun _ => None)))).
  exists "COGNITO_USER_POOL_ID". split; [left; reflexivity|reflexivity].
Defined.

(** Outside development, of the configured origins
    "https://app.example.org, http://localhost, *" the first one is
    allowed, and it is an HTTPS origin. *)
Lemma cors_origins_witness :
  hd "" (Settings.allow_origins (Settings.get_cors_config sample_environ))
  = "https://app.example.org"
  /\ startswith
       (hd "" (Settings.allow_origins (Settings.get_cors_config sample_environ)))
       "https://" = true.
Proof.
  split; [reflexivity|].
  destruct (cors_origins sample_environ) as (_ & _ & _ & Hhttps).
  refine (Hhttps "production" eq_refl _ _ _).
  - discriminate.
  - left. reflexivity.
Defined.

(** The old access token at the door: 401 with the general message. *)
Lemma authentication_failures_witness :
  Auth.get_current_user (H := sample_backend) sample_env sample_cognito_config
    "9f1c2b3a4d5e6f70" (Some old_access_token) None
  = inl {| Auth.exc_status_code := 401;
           Auth.detail :=
             token_error_detail "Invalid authentication token" "9f1c2b3a4d5e6f70";
           Auth.exc_headers := [] |}.
Proof.
  refine (proj2 (authentication_failures (H := sample_backend) sample_env
                   sample_cognito_config "9f1c2b3a4d5e6f70" None)
            old_access_token security_validation_failed eq_refl _).
  intros y Hy. cbv in Hy. discriminate Hy.
Defined.

(** A client that its headers show as claude registers with a redirect
    URI of julius: it is answered the client id of julius. *)
Lemma registration_response_witness :
  match OAuth.dynamic_client_registration sample_environ (sample_request "POST")
          (OAuth.Json (VDict registration_body)) with
  | inr info => dict_get "client_id" info = Some (VStr "client-julius")
  | inl _ => False
  end.
Proof.
  destruct (Settings.get_cognito_config sample_environ) as [e|cfg] eqn:Hcfg;
    [cbv in Hcfg; discriminate Hcfg|].
  destruct (proj1 (proj2 (registration_response sample_environ
                            (sample_request "POST")))
              registration_body
              "https://app.Julius.ai/api/mcp/auth_callback" [VInt 7] cfg
              eq_refl eq_refl Hcfg) as (info & Hinfo & _ & Hid).
  rewrite Hinfo. exact Hid.
Defined.
